(** * Car expense tracker: the service layer and the session mechanism

    A shallow embedding of [src/lib/services/{trip,expense,refill,auth}Service.ts],
    of the schema of [src/lib/db.ts] and of [parseExpirationToSeconds] from
    [app/api/auth/route.ts], followed by the properties of the
    specification that were checked against them.

    Conventions of the embedding.
    - A JavaScript [number] is a binary64 floating-point number ([float]):
      sums and quotients round to nearest, ties to even, and NaN and the
      infinities are values.  A value typed [number] passes the guard
      [typeof x !== 'number'], and NaN passes [x <= 0] as well.  The store
      receives NaN as NULL.
    - A JavaScript string is a [string] read as its sequence of UTF-8 bytes;
      the store orders TEXT columns bytewise (SQLite's BINARY collation),
      which is [String.leb].
    - [new Date().toISOString()] is a [timestamp]: the reading of the clock
      in milliseconds.  The rendering as an ISO string is injective and
      order preserving, so it is left out.
    - An optional property ([purpose?: string]) is an [option]; [undefined]
      and an absent property are both [None].  A nullable column is an
      [option] with [None] for NULL.
    - A function that can throw returns a [result]; a function that writes
      to the database takes the database and returns the new one next to
      its result, so that a write that precedes a throw is not lost. *)

From Stdlib Require Import Floats.
From Stdlib Require Import ZArith List String Ascii Bool Lia.
From Stdlib Require Import Permutation Sorted OrderedTypeEx.
From Stdlib Require Import DecimalString DecimalNat.
From Stdlib Require DecimalFacts.
Import ListNotations.

Set Implicit Arguments.

(** ** JavaScript values *)

Definition number := float.
Bind Scope float_scope with number.

Definition timestamp := Z.

(** The guard [typeof x !== 'number' || x <= 0] of the services, at a value
    of type [number].  A comparison with NaN is false: NaN passes. *)
Definition not_positive_number (x : number) : bool := (x <=? 0)%float.

(** [0 < x]: false of NaN. *)
Definition positive_number (x : number) : bool := (0 <? x)%float.

(** A field of a patch that is left out or holds a positive number. *)
Definition positive_if_present (v : option number) : bool :=
  match v with
  | Some x => positive_number x
  | None => true
  end.

(** A number bound to a parameter of a statement ([sqlite3_bind_double]):
    the store takes NaN as NULL. *)
Definition sql_real (x : number) : option number :=
  if is_nan x then None else Some x.

(** The double nearest to an integer, ties to even: the number that
    [parseInt] returns for a decimal numeral. *)
Definition number_of_Z (z : Z) : number :=
  SF2Prim (binary_normalize prec emax z 0 false).

(** The integer that a number is, when it is one. *)
Definition integer_of_number (x : number) : option Z :=
  match Prim2SF x with
  | S754_zero _ => Some 0%Z
  | S754_finite s m e =>
      let v := if s then Z.neg m else Z.pos m in
      match e with
      | Z0 => Some v
      | Zpos _ => Some (v * 2 ^ e)%Z
      | Zneg p =>
          if (Z.pos m mod 2 ^ Z.pos p =? 0)%Z
          then Some (v / 2 ^ Z.pos p)%Z else None
      end
  | S754_infinity _ | S754_nan => None
  end.

(** [!s] for a string: only the empty string is falsy. *)
Definition str_falsy (s : string) : bool := String.eqb s EmptyString.

(** [o || null] and [o || undefined] at an optional string: the empty
    string and the missing value both give the missing value. *)
Definition str_or_null (o : option string) : option string :=
  match o with
  | Some s => if str_falsy s then None else Some s
  | None => None
  end.

(** The string of the bytes with the given codes. *)
Definition utf8 (codes : list N) : string :=
  fold_right (fun n s => String (ascii_of_N n) s) EmptyString codes.

(** The white space and line terminators of ECMAScript, which
    [String.prototype.trim] and [parseInt] skip, each in UTF-8: U+0009 to
    U+000D, U+0020, U+00A0, U+1680, U+2000 to U+200A, U+2028, U+2029,
    U+202F, U+205F, U+3000 and U+FEFF. *)
Definition white_spaces : list string :=
  map utf8
      [[9]; [10]; [11]; [12]; [13]; [32]; [194; 160]; [225; 154; 128];
       [226; 128; 128]; [226; 128; 129]; [226; 128; 130]; [226; 128; 131];
       [226; 128; 132]; [226; 128; 133]; [226; 128; 134]; [226; 128; 135];
       [226; 128; 136]; [226; 128; 137]; [226; 128; 138]; [226; 128; 168];
       [226; 128; 169]; [226; 128; 175]; [226; 129; 159]; [227; 128; 128];
       [239; 187; 191]]%N.

(** [s] without the prefix [p], when it starts with it. *)
Fixpoint strip_prefix (p s : string) : option string :=
  match p with
  | EmptyString => Some s
  | String c p' =>
      match s with
      | String d s' => if Ascii.eqb c d then strip_prefix p' s' else None
      | EmptyString => None
      end
  end.

(** [s] without the first of the [prefixes] that it starts with. *)
Fixpoint strip_one (prefixes : list string) (s : string) : option string :=
  match prefixes with
  | [] => None
  | p :: rest =>
      match strip_prefix p s with
      | Some s' => Some s'
      | None => strip_one rest s
      end
  end.

Fixpoint strip_all (fuel : nat) (prefixes : list string) (s : string)
  : string :=
  match fuel with
  | O => s
  | S fuel' =>
      match strip_one prefixes s with
      | Some s' => strip_all fuel' prefixes s'
      | None => s
      end
  end.

(** [s.trimStart()]: at most [length s] characters can go. *)
Definition trim_start (s : string) : string :=
  strip_all (String.length s) white_spaces s.

Fixpoint string_rev (s : string) : string :=
  match s with
  | EmptyString => EmptyString
  | String c s' => (string_rev s' ++ String c EmptyString)%string
  end.

(** [s.trimEnd()], on the reversed string with the reversed encodings. *)
Definition trim_end (s : string) : string :=
  string_rev
    (strip_all (String.length s) (map string_rev white_spaces) (string_rev s)).

(** [s.trim()] *)
Definition trim (s : string) : string := trim_end (trim_start s).

(** ** Exceptions *)

Inductive exn : Type :=
| Error (message : string)
| TypeError (message : string)
| SqliteError (message : string)
| JsonWebTokenError (message : string)
| TokenExpiredError (message : string).

(** [error.message] *)
Definition exn_message (e : exn) : string :=
  match e with
  | Error m | TypeError m | SqliteError m | JsonWebTokenError m
  | TokenExpiredError m => m
  end.

Inductive result (A : Type) : Type :=
| Ok (a : A)
| Throw (e : exn).

Arguments Ok {A} a.
Arguments Throw {A} e.

(** [try { body } catch (error) { handler }] *)
Definition try_catch {A : Type} (body : result A) (handler : exn -> result A)
  : result A :=
  match body with
  | Ok a => Ok a
  | Throw e => handler e
  end.

(** ** Rows of the store *)

Section Tables.
Context {R : Type} (rowid : R -> Z).

(** [SELECT * FROM t WHERE id = ?], first row. *)
Definition select_by_id (rows : list R) (i : Z) : option R :=
  find (fun r => rowid r =? i)%Z rows.

(** [UPDATE t SET ... WHERE id = ?] *)
Definition update_by_id (set : R -> R) (rows : list R) (i : Z) : list R :=
  map (fun r => if (rowid r =? i)%Z then set r else r) rows.

(** [DELETE FROM t WHERE id = ?]: the remaining rows and [changes]. *)
Definition delete_by_id (rows : list R) (i : Z) : list R * Z :=
  (filter (fun r => negb (rowid r =? i)%Z) rows,
   Z.of_nat (List.length (filter (fun r => rowid r =? i)%Z rows))).
End Tables.

(** [ORDER BY date ASC] over rows listed in rowid order.  The date columns
    are indexed ([idx_expenses_date], [idx_refills_date], [idx_trips_date]),
    an index entry is the pair (date, rowid), hence rows of one date come
    in rowid order: a stable sort of the table. *)
Section OrderBy.
Context {R : Type} (key : R -> string).

Fixpoint insert_row (x : R) (l : list R) : list R :=
  match l with
  | [] => [x]
  | y :: l' =>
      if String.leb (key x) (key y) then x :: l else y :: insert_row x l'
  end.

Fixpoint order_by (l : list R) : list R :=
  match l with
  | [] => []
  | x :: l' => insert_row x (order_by l')
  end.
End OrderBy.

(** ** Entities ([src/lib/types.ts]) and their rows ([src/lib/db.ts]) *)

Module Expense.
Record t := mk {
  id : Z; type : string; amount : number; date : string;
  description : option string;
  createdAt : timestamp; updatedAt : timestamp }.
End Expense.

Module Refill.
Record t := mk {
  id : Z; amountSpent : number; distanceTraveled : number;
  liters : option number; date : string; notes : option string;
  efficiency : option number;
  createdAt : timestamp; updatedAt : timestamp }.
End Refill.

Module Trip.
Record t := mk {
  id : Z; distance : number; date : string;
  purpose : option string; notes : option string;
  createdAt : timestamp; updatedAt : timestamp }.
End Trip.

Module ExpenseRow.
Record t := mk {
  id : Z; type : string; amount : number; date : string;
  description : option string;
  created_at : timestamp; updated_at : timestamp }.
End ExpenseRow.

Module RefillRow.
Record t := mk {
  id : Z; amount_spent : number; liters : option number;
  distance_traveled : number; date : string; notes : option string;
  efficiency : option number;
  created_at : timestamp; updated_at : timestamp }.
End RefillRow.

Module TripRow.
Record t := mk {
  id : Z; distance : number; date : string;
  purpose : option string; notes : option string;
  created_at : timestamp; updated_at : timestamp }.
End TripRow.

(** The database: three tables, rows in rowid order, and for each table the
    largest rowid ever handed out (AUTOINCREMENT's [sqlite_sequence]). *)
Record Database := mkDatabase {
  expenses : list ExpenseRow.t; expenses_seq : Z;
  refills : list RefillRow.t; refills_seq : Z;
  trips : list TripRow.t; trips_seq : Z }.

(** The schema just initialised ([initializeSchema], [resetDatabase]). *)
Definition empty_database : Database :=
  mkDatabase [] 0 [] 0 [] 0.

Definition with_expenses (db : Database) (rows : list ExpenseRow.t) (seq : Z)
  : Database :=
  mkDatabase rows seq (refills db) (refills_seq db) (trips db) (trips_seq db).

Definition with_refills (db : Database) (rows : list RefillRow.t) (seq : Z)
  : Database :=
  mkDatabase (expenses db) (expenses_seq db) rows seq (trips db) (trips_seq db).

Definition with_trips (db : Database) (rows : list TripRow.t) (seq : Z)
  : Database :=
  mkDatabase (expenses db) (expenses_seq db) (refills db) (refills_seq db)
             rows seq.

(** ** Inputs of the services

    [Omit<T, 'id' | 'createdAt' | 'updatedAt'>] for create and its [Partial]
    for update. *)

Module ExpenseInput.
Record t := mk {
  type : string; amount : number; date : string;
  description : option string }.
End ExpenseInput.

Module ExpensePatch.
Record t := mk {
  type : option string; amount : option number; date : option string;
  description : option string }.
Definition empty : t := mk None None None None.
End ExpensePatch.

Module RefillInput.
Record t := mk {
  amountSpent : number; distanceTraveled : number;
  liters : option number; date : string; notes : option string }.
End RefillInput.

Module RefillPatch.
Record t := mk {
  amountSpent : option number; distanceTraveled : option number;
  liters : option number; date : option string; notes : option string }.
Definition empty : t := mk None None None None None.
End RefillPatch.

Module TripInput.
Record t := mk {
  distance : number; date : string;
  purpose : option string; notes : option string }.
End TripInput.

Module TripPatch.
Record t := mk {
  distance : option number; date : option string;
  purpose : option string; notes : option string }.
Definition empty : t := mk None None None None.
End TripPatch.

Module MileagePoint.
Record t := mk { date : string; cumulativeDistance : number }.
End MileagePoint.

(** [v !== undefined ? v : old], the effect of an optional [SET column = ?]. *)
Definition or_keep {A : Type} (v : option A) (old : A) : A :=
  match v with
  | Some a => a
  | None => old
  end.

(** [SET column = (v || null)] when [v !== undefined], for a text column. *)
Definition or_keep_text (v : option string) (old : option string)
  : option string :=
  match v with
  | Some s => str_or_null (Some s)
  | None => old
  end.

Definition present {A : Type} (check : A -> bool) (v : option A) : bool :=
  match v with
  | Some a => check a
  | None => false
  end.

Definition msg_positive_amount : string := "Amount must be a positive number".
Definition msg_positive_distance : string := "Distance must be a positive number".
Definition msg_missing_date : string := "Required field missing: date".
Definition msg_missing_type : string := "Required field missing: type".
Definition msg_invalid_date : string := "Invalid date format. Use ISO 8601 format".
Definition msg_empty_type : string := "Type cannot be empty".
Definition msg_not_found : string := "Resource not found".
Definition msg_no_row : string := "Cannot read properties of undefined".

(** The error of a statement that would put NULL into a NOT NULL column;
    the statement changes nothing.  The amounts and distances are REAL NOT
    NULL with a CHECK that they are above zero, which NULL passes and which
    no number that passed [x <= 0] fails. *)
Definition not_null_failed (column : string) : exn :=
  SqliteError ("NOT NULL constraint failed: " ++ column).

Section Services.

(** [isNaN(new Date(s).getTime())]: which strings the engine's date
    parser rejects is not fixed by the repository. *)
Variable invalid_date : string -> bool.

(** *** tripService.ts *)

Definition mapRowToTrip (row : TripRow.t) : Trip.t :=
  Trip.mk (TripRow.id row) (TripRow.distance row) (TripRow.date row)
          (str_or_null (TripRow.purpose row))
          (str_or_null (TripRow.notes row))
          (TripRow.created_at row) (TripRow.updated_at row).

Definition createTrip (db : Database) (now : timestamp) (trip : TripInput.t)
  : Database * result Trip.t :=
  if not_positive_number (TripInput.distance trip) then
    (db, Throw (Error msg_positive_distance))
  else if str_falsy (TripInput.date trip) then
    (db, Throw (Error msg_missing_date))
  else if invalid_date (TripInput.date trip) then
    (db, Throw (Error msg_invalid_date))
  else if is_nan (TripInput.distance trip) then
    (db, Throw (not_null_failed "trips.distance"))
  else
    let lastInsertRowid := (trips_seq db + 1)%Z in
    let inserted :=
      TripRow.mk lastInsertRowid (TripInput.distance trip)
                 (TripInput.date trip)
                 (str_or_null (TripInput.purpose trip))
                 (str_or_null (TripInput.notes trip)) now now in
    let db' := with_trips db (trips db ++ [inserted]) lastInsertRowid in
    match select_by_id TripRow.id (trips db') lastInsertRowid with
    | Some row => (db', Ok (mapRowToTrip row))
    | None => (db', Throw (TypeError msg_no_row))
    end.

Definition getTrips (db : Database) : list Trip.t :=
  map mapRowToTrip (order_by TripRow.date (trips db)).

Definition getTripById (db : Database) (id : Z) : option Trip.t :=
  match select_by_id TripRow.id (trips db) id with
  | Some row => Some (mapRowToTrip row)
  | None => None
  end.

(** The assignments of the UPDATE statement built by [updateTrip], applied
    to the row they reach: a column is assigned when its field is not
    [undefined], [updated_at] always. *)
Definition set_trip (updates : TripPatch.t) (now : timestamp)
           (row : TripRow.t) : TripRow.t :=
  TripRow.mk (TripRow.id row)
    (or_keep (TripPatch.distance updates) (TripRow.distance row))
    (or_keep (TripPatch.date updates) (TripRow.date row))
    (or_keep_text (TripPatch.purpose updates) (TripRow.purpose row))
    (or_keep_text (TripPatch.notes updates) (TripRow.notes row))
    (TripRow.created_at row) now.

Definition updateTrip (db : Database) (now : timestamp) (id : Z)
           (updates : TripPatch.t) : Database * result Trip.t :=
  if present not_positive_number (TripPatch.distance updates) then
    (db, Throw (Error msg_positive_distance))
  else if present invalid_date (TripPatch.date updates) then
    (db, Throw (Error msg_invalid_date))
  else
    match getTripById db id with
    | None => (db, Throw (Error msg_not_found))
    | Some existing =>
        if present is_nan (TripPatch.distance updates) then
          (db, Throw (not_null_failed "trips.distance"))
        else
          let db' :=
            with_trips db
              (update_by_id TripRow.id (set_trip updates now) (trips db) id)
              (trips_seq db) in
          match getTripById db' id with
          | Some updated => (db', Ok updated)
          | None => (db', Throw (Error "Failed to retrieve updated trip"))
          end
    end.

Definition deleteTrip (db : Database) (id : Z) : Database * bool :=
  let (rows, changes) := delete_by_id TripRow.id (trips db) id in
  (with_trips db rows (trips_seq db), (0 <? changes)%Z).

(** The loop of [getMileageOverTime]: [cumulative += row.distance] and a
    point pushed for every row. *)
Fixpoint accumulate (cumulative : number) (rows : list (string * number))
  : list MileagePoint.t :=
  match rows with
  | [] => []
  | row :: rest =>
      let cumulative' := (cumulative + snd row)%float in
      MileagePoint.mk (fst row) cumulative' :: accumulate cumulative' rest
  end.

(** [SELECT date, distance FROM trips UNION ALL
     SELECT date, distance_traveled FROM refills] *)
Definition mileage_rows (db : Database) : list (string * number) :=
  map (fun t => (TripRow.date t, TripRow.distance t)) (trips db)
  ++ map (fun r => (RefillRow.date r, RefillRow.distance_traveled r))
         (refills db).

Definition getMileageOverTime (db : Database) : list MileagePoint.t :=
  accumulate 0%float (order_by fst (mileage_rows db)).

(** *** expenseService.ts *)

Definition mapRowToExpense (row : ExpenseRow.t) : Expense.t :=
  Expense.mk (ExpenseRow.id row) (ExpenseRow.type row) (ExpenseRow.amount row)
             (ExpenseRow.date row)
             (str_or_null (ExpenseRow.description row))
             (ExpenseRow.created_at row) (ExpenseRow.updated_at row).

Definition createExpense (db : Database) (now : timestamp)
           (expense : ExpenseInput.t) : Database * result Expense.t :=
  if str_falsy (ExpenseInput.type expense)
     || String.eqb (trim (ExpenseInput.type expense)) EmptyString then
    (db, Throw (Error msg_missing_type))
  else if not_positive_number (ExpenseInput.amount expense) then
    (db, Throw (Error msg_positive_amount))
  else if str_falsy (ExpenseInput.date expense) then
    (db, Throw (Error msg_missing_date))
  else if invalid_date (ExpenseInput.date expense) then
    (db, Throw (Error msg_invalid_date))
  else if is_nan (ExpenseInput.amount expense) then
    (db, Throw (not_null_failed "expenses.amount"))
  else
    let lastInsertRowid := (expenses_seq db + 1)%Z in
    let inserted :=
      ExpenseRow.mk lastInsertRowid (ExpenseInput.type expense)
                    (ExpenseInput.amount expense) (ExpenseInput.date expense)
                    (str_or_null (ExpenseInput.description expense))
                    now now in
    let db' := with_expenses db (expenses db ++ [inserted]) lastInsertRowid in
    match select_by_id ExpenseRow.id (expenses db') lastInsertRowid with
    | Some row => (db', Ok (mapRowToExpense row))
    | None => (db', Throw (TypeError msg_no_row))
    end.

Definition getExpenses (db : Database) : list Expense.t :=
  map mapRowToExpense (order_by ExpenseRow.date (expenses db)).

Definition getExpenseById (db : Database) (id : Z) : option Expense.t :=
  match select_by_id ExpenseRow.id (expenses db) id with
  | Some row => Some (mapRowToExpense row)
  | None => None
  end.

(** The assignments of the UPDATE statement built by [updateExpense]. *)
Definition set_expense (updates : ExpensePatch.t) (now : timestamp)
           (row : ExpenseRow.t) : ExpenseRow.t :=
  ExpenseRow.mk (ExpenseRow.id row)
    (or_keep (ExpensePatch.type updates) (ExpenseRow.type row))
    (or_keep (ExpensePatch.amount updates) (ExpenseRow.amount row))
    (or_keep (ExpensePatch.date updates) (ExpenseRow.date row))
    (or_keep_text (ExpensePatch.description updates)
                  (ExpenseRow.description row))
    (ExpenseRow.created_at row) now.

Definition updateExpense (db : Database) (now : timestamp) (id : Z)
           (updates : ExpensePatch.t) : Database * result Expense.t :=
  if present not_positive_number (ExpensePatch.amount updates) then
    (db, Throw (Error msg_positive_amount))
  else if present invalid_date (ExpensePatch.date updates) then
    (db, Throw (Error msg_invalid_date))
  else if present (fun s => String.eqb (trim s) EmptyString)
                  (ExpensePatch.type updates) then
    (db, Throw (Error msg_empty_type))
  else
    match getExpenseById db id with
    | None => (db, Throw (Error msg_not_found))
    | Some existing =>
        if present is_nan (ExpensePatch.amount updates) then
          (db, Throw (not_null_failed "expenses.amount"))
        else
          let db' :=
            with_expenses db
              (update_by_id ExpenseRow.id (set_expense updates now)
                            (expenses db) id)
              (expenses_seq db) in
          match getExpenseById db' id with
          | Some updated => (db', Ok updated)
          | None => (db', Throw (Error "Failed to retrieve updated expense"))
          end
    end.

Definition deleteExpense (db : Database) (id : Z) : Database * bool :=
  let (rows, changes) := delete_by_id ExpenseRow.id (expenses db) id in
  (with_expenses db rows (expenses_seq db), (0 <? changes)%Z).

(** *** refillService.ts *)

Definition calculateEfficiency (amountSpent distance : number)
  : result number :=
  if (distance <=? 0)%float then Throw (Error msg_positive_distance)
  else Ok (amountSpent / distance)%float.

(** The object literal of [mapRowToRefill] has no [liters] property. *)
Definition mapRowToRefill (row : RefillRow.t) : Refill.t :=
  Refill.mk (RefillRow.id row) (RefillRow.amount_spent row)
            (RefillRow.distance_traveled row)
            None
            (RefillRow.date row)
            (str_or_null (RefillRow.notes row))
            (RefillRow.efficiency row)
            (RefillRow.created_at row) (RefillRow.updated_at row).

(** The INSERT of [createRefill] lists the columns amount_spent,
    distance_traveled, date, notes, efficiency, created_at, updated_at:
    the column liters takes its default, NULL.  The column efficiency is
    nullable: an efficiency that is NaN is stored as NULL. *)
Definition createRefill (db : Database) (now : timestamp)
           (refill : RefillInput.t) : Database * result Refill.t :=
  if not_positive_number (RefillInput.amountSpent refill) then
    (db, Throw (Error msg_positive_amount))
  else if not_positive_number (RefillInput.distanceTraveled refill) then
    (db, Throw (Error msg_positive_distance))
  else if str_falsy (RefillInput.date refill) then
    (db, Throw (Error msg_missing_date))
  else if invalid_date (RefillInput.date refill) then
    (db, Throw (Error msg_invalid_date))
  else
    match calculateEfficiency (RefillInput.amountSpent refill)
                              (RefillInput.distanceTraveled refill) with
    | Throw e => (db, Throw e)
    | Ok efficiency =>
        if is_nan (RefillInput.amountSpent refill) then
          (db, Throw (not_null_failed "refills.amount_spent"))
        else if is_nan (RefillInput.distanceTraveled refill) then
          (db, Throw (not_null_failed "refills.distance_traveled"))
        else
          let lastInsertRowid := (refills_seq db + 1)%Z in
          let inserted :=
            RefillRow.mk lastInsertRowid (RefillInput.amountSpent refill)
                         None
                         (RefillInput.distanceTraveled refill)
                         (RefillInput.date refill)
                         (str_or_null (RefillInput.notes refill))
                         (sql_real efficiency) now now in
          let db' :=
            with_refills db (refills db ++ [inserted]) lastInsertRowid in
          match select_by_id RefillRow.id (refills db') lastInsertRowid with
          | Some row => (db', Ok (mapRowToRefill row))
          | None => (db', Throw (TypeError msg_no_row))
          end
    end.

Definition getRefills (db : Database) : list Refill.t :=
  map mapRowToRefill (order_by RefillRow.date (refills db)).

Definition getRefillById (db : Database) (id : Z) : option Refill.t :=
  match select_by_id RefillRow.id (refills db) id with
  | Some row => Some (mapRowToRefill row)
  | None => None
  end.

(** The assignments of the UPDATE statement built by [updateRefill]:
    [efficiency] and [updated_at] always, [liters] never. *)
Definition set_refill (updates : RefillPatch.t) (efficiency : number)
           (now : timestamp) (row : RefillRow.t) : RefillRow.t :=
  RefillRow.mk (RefillRow.id row)
    (or_keep (RefillPatch.amountSpent updates) (RefillRow.amount_spent row))
    (RefillRow.liters row)
    (or_keep (RefillPatch.distanceTraveled updates)
             (RefillRow.distance_traveled row))
    (or_keep (RefillPatch.date updates) (RefillRow.date row))
    (or_keep_text (RefillPatch.notes updates) (RefillRow.notes row))
    (sql_real efficiency)
    (RefillRow.created_at row) now.

Definition updateRefill (db : Database) (now : timestamp) (id : Z)
           (updates : RefillPatch.t) : Database * result Refill.t :=
  if present not_positive_number (RefillPatch.amountSpent updates) then
    (db, Throw (Error msg_positive_amount))
  else if present not_positive_number
                  (RefillPatch.distanceTraveled updates) then
    (db, Throw (Error msg_positive_distance))
  else if present invalid_date (RefillPatch.date updates) then
    (db, Throw (Error msg_invalid_date))
  else
    match getRefillById db id with
    | None => (db, Throw (Error msg_not_found))
    | Some existing =>
        let finalAmountSpent :=
          or_keep (RefillPatch.amountSpent updates)
                  (Refill.amountSpent existing) in
        let finalDistance :=
          or_keep (RefillPatch.distanceTraveled updates)
                  (Refill.distanceTraveled existing) in
        match calculateEfficiency finalAmountSpent finalDistance with
        | Throw e => (db, Throw e)
        | Ok efficiency =>
            if present is_nan (RefillPatch.amountSpent updates) then
              (db, Throw (not_null_failed "refills.amount_spent"))
            else if present is_nan (RefillPatch.distanceTraveled updates) then
              (db, Throw (not_null_failed "refills.distance_traveled"))
            else
              let db' :=
                with_refills db
                  (update_by_id RefillRow.id
                                (set_refill updates efficiency now)
                                (refills db) id)
                  (refills_seq db) in
              match getRefillById db' id with
              | Some updated => (db', Ok updated)
              | None =>
                  (db', Throw (Error "Failed to retrieve updated refill"))
              end
        end
    end.

Definition deleteRefill (db : Database) (id : Z) : Database * bool :=
  let (rows, changes) := delete_by_id RefillRow.id (refills db) id in
  (with_refills db rows (refills_seq db), (0 <? changes)%Z).


(** *** The ledger as a transition system

    The operations that write, the clock read by each of them, and the
    databases that the services can produce from the fresh schema.  The
    clock does not run backwards between two calls. *)

Inductive operation : Type :=
| OpCreateExpense (expense : ExpenseInput.t)
| OpUpdateExpense (id : Z) (updates : ExpensePatch.t)
| OpDeleteExpense (id : Z)
| OpCreateRefill (refill : RefillInput.t)
| OpUpdateRefill (id : Z) (updates : RefillPatch.t)
| OpDeleteRefill (id : Z)
| OpCreateTrip (trip : TripInput.t)
| OpUpdateTrip (id : Z) (updates : TripPatch.t)
| OpDeleteTrip (id : Z).

Definition run (db : Database) (now : timestamp) (op : operation)
  : Database :=
  match op with
  | OpCreateExpense expense => fst (createExpense db now expense)
  | OpUpdateExpense id updates => fst (updateExpense db now id updates)
  | OpDeleteExpense id => fst (deleteExpense db id)
  | OpCreateRefill refill => fst (createRefill db now refill)
  | OpUpdateRefill id updates => fst (updateRefill db now id updates)
  | OpDeleteRefill id => fst (deleteRefill db id)
  | OpCreateTrip trip => fst (createTrip db now trip)
  | OpUpdateTrip id updates => fst (updateTrip db now id updates)
  | OpDeleteTrip id => fst (deleteTrip db id)
  end.

(** [reachable db clock]: [db] is produced by a sequence of service calls
    from the fresh schema, the last of them at time [clock]. *)
Inductive reachable : Database -> timestamp -> Prop :=
| reachable_fresh (clock : timestamp) : reachable empty_database clock
| reachable_run (db : Database) (clock now : timestamp) (op : operation) :
    reachable db clock -> (clock <= now)%Z ->
    reachable (run db now op) now.

(** A log of calls, replayed: the executable side of [reachable]. *)
Fixpoint replay (db : Database) (log : list (timestamp * operation))
  : Database :=
  match log with
  | [] => db
  | (now, op) :: log' => replay (run db now op) log'
  end.

Fixpoint ascending_from (clock : timestamp)
         (log : list (timestamp * operation)) : bool :=
  match log with
  | [] => true
  | (now, _) :: log' => (clock <=? now)%Z && ascending_from now log'
  end.

Definition last_clock (clock : timestamp)
           (log : list (timestamp * operation)) : timestamp :=
  fold_left (fun _ entry => fst entry) log clock.

End Services.

(** ** authService.ts

    The configuration is [process.env]; the JSON Web Token library is
    modelled symbolically: a token is either a string that does not decode,
    or a payload together with the key of its signature.  A signature
    verifies against a secret exactly when it was made with that secret. *)

Record Env := mkEnv {
  APP_PASSWORD : option string;
  JWT_SECRET : option string;
  JWT_EXPIRES_IN : option string }.

Inductive jsval : Type :=
| JUndefined
| JBool (b : bool)
| JNumber (n : Z)
| JString (s : string).

(** [v === true] *)
Definition strictly_true (v : jsval) : bool :=
  match v with
  | JBool true => true
  | _ => false
  end.

Module JwtPayload.
Record t := mk {
  authenticated : jsval;
  createdAt : option timestamp;
  iat : Z;
  exp : option Z }.
End JwtPayload.

Inductive token : Type :=
| Malformed (raw : string)
| Signed (payload : JwtPayload.t) (key : string).

Definition bind {A B : Type} (r : result A) (k : A -> result B) : result B :=
  match r with
  | Ok a => k a
  | Throw e => Throw e
  end.

Notation "x <- r ;; k" := (bind r (fun x => k))
  (at level 61, r at next level, right associativity).

Definition msg_no_jwt_secret : string :=
  "JWT_SECRET environment variable is not configured".
Definition msg_no_app_password : string :=
  "APP_PASSWORD environment variable is not configured".
(** The message of the token library for a duration that it cannot read:
    the name and the examples stand in double quotes. *)
Definition quoted (s : string) : string :=
  (String (ascii_of_N 34) s ++ String (ascii_of_N 34) EmptyString)%string.

Definition msg_bad_timespan : string :=
  (quoted "expiresIn"
   ++ " should be a number of seconds or string representing a timespan eg: "
   ++ quoted "1d" ++ ", " ++ quoted "20h" ++ ", 60")%string.

(** [process.env.X || fallback] *)
Definition env_or (v : option string) (fallback : string) : string :=
  match v with
  | Some s => if str_falsy s then fallback else s
  | None => fallback
  end.

(** [!process.env.X] *)
Definition env_missing (v : option string) : bool :=
  match v with
  | Some s => str_falsy s
  | None => true
  end.

(** The clock of the token library counts seconds. *)
Definition clock_seconds (now : timestamp) : Z := (now / 1000)%Z.

(** [jwt.verify(token, secret)]: the signature, then the expiry. *)
Definition jwt_verify (tok : token) (secret : string) (clockTimestamp : Z)
  : result JwtPayload.t :=
  match tok with
  | Malformed _ => Throw (JsonWebTokenError "jwt malformed")
  | Signed payload key =>
      if String.eqb key secret then
        match JwtPayload.exp payload with
        | Some e =>
            if (e <=? clockTimestamp)%Z
            then Throw (TokenExpiredError "jwt expired")
            else Ok payload
        | None => Ok payload
        end
      else Throw (JsonWebTokenError "invalid signature")
  end.

Section Jwt.

(** The duration parser of the token library (package ms): milliseconds,
    or nothing for a string it does not recognise. *)
Variable ms : string -> option Z.

(** [jwt.sign(payload, secret, { expiresIn })] with a string [expiresIn]:
    [iat] is the clock, [exp] is [iat] plus the duration, and a duration
    that does not parse is an error. *)
Definition jwt_sign (authenticated : jsval) (createdAt : timestamp)
           (secret : string) (expiresIn : string) (clockTimestamp : Z)
  : result token :=
  match ms expiresIn with
  | Some milliseconds =>
      Ok (Signed (JwtPayload.mk authenticated (Some createdAt) clockTimestamp
                    (Some (clockTimestamp + milliseconds / 1000)%Z))
                 secret)
  | None => Throw (Error msg_bad_timespan)
  end.

Definition getJwtSecret (env : Env) : result string :=
  match JWT_SECRET env with
  | Some secret =>
      if str_falsy secret then Throw (Error msg_no_jwt_secret) else Ok secret
  | None => Throw (Error msg_no_jwt_secret)
  end.

Definition getJwtExpiresIn (env : Env) : string :=
  env_or (JWT_EXPIRES_IN env) "24h".

Definition verifyPassword (env : Env) (password : string) : result bool :=
  match APP_PASSWORD env with
  | Some configuredPassword =>
      if str_falsy configuredPassword
      then Throw (Error msg_no_app_password)
      else Ok (String.eqb password configuredPassword)
  | None => Throw (Error msg_no_app_password)
  end.

Definition createSession (env : Env) (now : timestamp) : result token :=
  secret <- getJwtSecret env ;;
  jwt_sign (JBool true) now secret (getJwtExpiresIn env) (clock_seconds now).

Definition validateSession (env : Env) (now : timestamp) (tok : token)
  : result bool :=
  try_catch
    (secret <- getJwtSecret env ;;
     decoded <- jwt_verify tok secret (clock_seconds now) ;;
     Ok (strictly_true (JwtPayload.authenticated decoded)))
    (fun _ => Ok false).

End Jwt.

(** ** app/api/auth/route.ts: the lifetime of the session cookie *)

Definition is_digit (c : ascii) : bool :=
  let n := N_of_ascii c in ((48 <=? n) && (n <=? 57))%N.

Definition digit_value (c : ascii) : Z := (Z.of_N (N_of_ascii c) - 48)%Z.

(** The longest prefix of decimal digits of a string, and the rest. *)
Fixpoint span_digits (s : string) : string * string :=
  match s with
  | String c s' =>
      if is_digit c then
        let (digits, rest) := span_digits s' in (String c digits, rest)
      else (EmptyString, s)
  | EmptyString => (EmptyString, EmptyString)
  end.

(** The integer that a string of digits denotes in base ten. *)
Fixpoint decimal_from (acc : Z) (digits : string) : Z :=
  match digits with
  | String c s' => decimal_from (acc * 10 + digit_value c)%Z s'
  | EmptyString => acc
  end.

Definition decimal_value (digits : string) : Z := decimal_from 0 digits.

(** [parseInt(s, 10)]: leading white space is skipped, a sign is read, then
    the longest run of digits; the result is the double nearest to the
    integer they denote, and NaN when no digit follows. *)
Definition parseInt10 (s : string) : number :=
  let unsigned (text : string) : number :=
    match fst (span_digits text) with
    | EmptyString => nan
    | String _ _ as digits => number_of_Z (decimal_value digits)
    end in
  match trim_start s with
  | String "-" rest => (- unsigned rest)%float
  | String "+" rest => unsigned rest
  | text => unsigned text
  end.

(** [expiresIn.match(/^(\d+)([smhd])$/)]: the two groups. *)
Definition match_expiration (expiresIn : string) : option (string * string) :=
  match span_digits expiresIn with
  | (String _ _ as digits, String c EmptyString) =>
      if (Ascii.eqb c "s" || Ascii.eqb c "m" || Ascii.eqb c "h"
          || Ascii.eqb c "d")%char
      then Some (digits, String c EmptyString)
      else None
  | _ => None
  end.

Definition parseExpirationToSeconds (expiresIn : string) : number :=
  match match_expiration expiresIn with
  | None => 60 * 60 * 24
  | Some (digits, unit) =>
      let value := parseInt10 digits in
      if String.eqb unit "s" then value
      else if String.eqb unit "m" then value * 60
      else if String.eqb unit "h" then value * 60 * 60
      else if String.eqb unit "d" then value * 60 * 60 * 24
      else 60 * 60 * 24
  end%float.

(** [POST /api/auth/login]: the status of the response, and on success the
    cookie sessionId with its max-age.  [password] is the field of the
    request body, when it is there. *)
Module LoginResponse.
Record t := mk {
  status : Z;
  sessionId : option token;
  maxAge : option number }.
End LoginResponse.

Definition POST_login (ms : string -> option Z) (env : Env) (now : timestamp)
           (password : option string) : LoginResponse.t :=
  match password with
  | None => LoginResponse.mk 400 None None
  | Some p =>
      if str_falsy p then LoginResponse.mk 400 None None
      else
        match verifyPassword env p with
        | Throw _ => LoginResponse.mk 500 None None
        | Ok false => LoginResponse.mk 401 None None
        | Ok true =>
            match createSession ms env now with
            | Throw _ => LoginResponse.mk 500 None None
            | Ok tok =>
                LoginResponse.mk 200 (Some tok)
                  (Some (parseExpirationToSeconds
                           (env_or (JWT_EXPIRES_IN env) "24h")))
            end
        end
  end%Z.

(** ** Instances used by the examples *)

(** A duration parser that knows the documented forms of JWT_EXPIRES_IN
    (60s, 5m, 1h, 24h, 7d, 30d): an integer of at most seven digits and one
    of s, m, h, d, where the product is exact.  The package ms agrees with
    it wherever it answers. *)
Definition ms_documented (s : string) : option Z :=
  match match_expiration s with
  | Some (digits, unit) =>
      let value := decimal_value digits in
      if (7 <? String.length digits)%nat then None
      else if String.eqb unit "s" then Some (value * 1000)
      else if String.eqb unit "m" then Some (value * 60000)
      else if String.eqb unit "h" then Some (value * 3600000)
      else Some (value * 86400000)
  | None => None
  end%Z.

(** A date parser: [Date.parse] on the date-time strings of ECMAScript,
    which are YYYY, YYYY-MM or YYYY-MM-DD, alone or followed by T and
    HH:mm, HH:mm:ss or HH:mm:ss.sss, and then by nothing, by Z or by an
    offset +HH:mm or -HH:mm.  The month is 01 to 12, the day 01 to 31 (a
    day past the end of its month counts on into the next one), the hour
    00 to 23 (24:00:00 also), minutes and seconds 00 to 59.  The answer is
    the time in milliseconds since 1970-01-01T00:00:00Z; the process is
    taken to run in UTC, where a date-time without offset is read.  The
    engine accepts further formats of its own; this parser gives no answer
    for them, and no example below rests on such a string. *)
Definition digits_value (digits : list ascii) : option Z :=
  if forallb is_digit digits
  then Some (fold_left (fun acc c => acc * 10 + digit_value c)%Z digits 0%Z)
  else None.

(** The days from 1970-01-01 to the day [d] of the month [m] of the year
    [y] of the Gregorian calendar. *)
Definition days_from_civil (y m d : Z) : Z :=
  let y' := if (m <=? 2)%Z then (y - 1)%Z else y in
  let era := (y' / 400)%Z in
  let yoe := (y' - era * 400)%Z in
  let mp := ((m + 9) mod 12)%Z in
  let doy := ((153 * mp + 2) / 5 + d - 1)%Z in
  let doe := (yoe * 365 + yoe / 4 - yoe / 100 + doy)%Z in
  (era * 146097 + doe - 719468)%Z.

(** The minutes east of UTC of an offset. *)
Definition parse_offset (s : string) : option Z :=
  match s with
  | EmptyString => Some 0%Z
  | String "Z" EmptyString => Some 0%Z
  | String sign (String h1 (String h2 (String ":" (String m1
      (String m2 EmptyString))))) =>
      match digits_value [h1; h2], digits_value [m1; m2] with
      | Some h, Some m =>
          if ((h <=? 23) && (m <=? 59))%Z then
            if Ascii.eqb sign "+" then Some (h * 60 + m)%Z
            else if Ascii.eqb sign "-" then Some (- (h * 60 + m))%Z
            else None
          else None
      | _, _ => None
      end
  | _ => None
  end.

(** The milliseconds from midnight UTC of a time with its offset. *)
Definition parse_time (s : string) : option Z :=
  match s with
  | String h1 (String h2 (String ":" (String m1 (String m2 rest)))) =>
      match digits_value [h1; h2], digits_value [m1; m2] with
      | Some h, Some m =>
          let finish (sec millis : Z) (offset : string) : option Z :=
            match parse_offset offset with
            | Some east =>
                if ((h <=? 23) && (m <=? 59) && (sec <=? 59)
                    || (h =? 24) && (m =? 0) && (sec =? 0) && (millis =? 0))%Z
                then Some (((h * 60 + m - east) * 60 + sec) * 1000
                           + millis)%Z
                else None
            | None => None
            end in
          match rest with
          | String ":" (String s1 (String s2 rest')) =>
              match digits_value [s1; s2] with
              | Some sec =>
                  match rest' with
                  | String "." (String f1 (String f2 (String f3 offset))) =>
                      match digits_value [f1; f2; f3] with
                      | Some millis => finish sec millis offset
                      | None => None
                      end
                  | offset => finish sec 0%Z offset
                  end
              | None => None
              end
          | offset => finish 0%Z 0%Z offset
          end
      | _, _ => None
      end
  | _ => None
  end.

(** The date before the T, and the time after it. *)
Fixpoint split_at_T (s : string) : string * option string :=
  match s with
  | EmptyString => (EmptyString, None)
  | String c s' =>
      if Ascii.eqb c "T" then (EmptyString, Some s')
      else let (date, time) := split_at_T s' in (String c date, time)
  end.

(** The days from 1970-01-01 of a date YYYY, YYYY-MM or YYYY-MM-DD. *)
Definition parse_date (s : string) : option Z :=
  let day (year : option Z) (month : option Z) (day : option Z) : option Z :=
    match year, month, day with
    | Some y, Some m, Some d =>
        if ((1 <=? m) && (m <=? 12) && (1 <=? d) && (d <=? 31))%Z
        then Some (days_from_civil y m 1 + (d - 1))%Z
        else None
    | _, _, _ => None
    end in
  match s with
  | String y1 (String y2 (String y3 (String y4 rest))) =>
      let year := digits_value [y1; y2; y3; y4] in
      match rest with
      | EmptyString => day year (Some 1%Z) (Some 1%Z)
      | String "-" (String m1 (String m2 rest')) =>
          let month := digits_value [m1; m2] in
          match rest' with
          | EmptyString => day year month (Some 1%Z)
          | String "-" (String d1 (String d2 EmptyString)) =>
              day year month (digits_value [d1; d2])
          | _ => None
          end
      | _ => None
      end
  | _ => None
  end.

Definition Date_parse (s : string) : option Z :=
  match split_at_T s with
  | (date, None) => option_map (fun d => d * 86400000)%Z (parse_date date)
  | (date, Some time) =>
      match parse_date date, parse_time time with
      | Some d, Some t => Some (d * 86400000 + t)%Z
      | _, _ => None
      end
  end.

(** [isNaN(new Date(s).getTime())] with this parser. *)
Definition rejects_non_iso (s : string) : bool :=
  match Date_parse s with
  | Some _ => false
  | None => true
  end.

Open Scope string_scope.

Definition sample_refill : RefillInput.t :=
  RefillInput.mk 50 10 (Some 5%float) "2024-01-10"
                 (Some "First refill").

Definition sample_trip : TripInput.t :=
  TripInput.mk 45.5 "2024-01-15" (Some "commute") (Some "rain").

Definition sample_expense : ExpenseInput.t :=
  ExpenseInput.mk "fuel" 20 "2024-01-12" (Some "full tank").

(** A short history: three creations, then the distance of the refill is
    corrected. *)
Definition sample_log : list (timestamp * operation) :=
  [(100, OpCreateRefill sample_refill);
   (200, OpCreateTrip sample_trip);
   (300, OpCreateExpense sample_expense);
   (400, OpUpdateRefill 1
           (RefillPatch.mk None (Some 4%float) None None None))]%Z.

Definition sample_db : Database :=
  replay rejects_non_iso empty_database sample_log.

Definition sample_env : Env :=
  mkEnv (Some "test-password-123") (Some "test-secret-key") (Some "24h").

Definition no_password_env : Env :=
  mkEnv None (Some "test-secret-key") (Some "24h").

Definition no_secret_env : Env :=
  mkEnv (Some "test-password-123") None (Some "24h").

Definition bad_duration_env : Env :=
  mkEnv (Some "test-password-123") (Some "test-secret-key") (Some "soon").

(** The payload that [createSession] signs at time 5000 under 24h. *)
Definition sample_payload : JwtPayload.t :=
  JwtPayload.mk (JBool true) (Some 5000%Z) 5%Z (Some 86405%Z).

(** The expense and the trip of the sample history, as they are read
    back. *)
Definition sample_expense_read : Expense.t :=
  Expense.mk 1%Z "fuel" 20 "2024-01-12" (Some "full tank") 300%Z 300%Z.

Definition sample_trip_read : Trip.t :=
  Trip.mk 1%Z 45.5 "2024-01-15" (Some "commute") (Some "rain")
          200%Z 200%Z.

(** A patch that supplies only the description, as the empty string. *)
Definition blank_description : ExpensePatch.t :=
  ExpensePatch.mk None None None (Some "").

(** The refill of the tests of the refill service: 50 spent over 10. *)
Definition tested_db : Database :=
  fst (createRefill rejects_non_iso empty_database 100%Z
         (RefillInput.mk 50 10 None
                         "2024-01-15T10:00:00.000Z" None)).

(** What a test reads of a returned refill: amount, distance, efficiency,
    or the message of the error. *)
Definition observed (r : result Refill.t)
  : (number * number * option number) + string :=
  match r with
  | Ok e => inl (Refill.amountSpent e, Refill.distanceTraveled e,
                 Refill.efficiency e)
  | Throw e => inr (exn_message e)
  end.

(** The scenario of the mileage series: a trip of 45.5 on 2024-01-15 and a
    refill over a distance of 10 on 2024-01-10. *)
Definition scenario_db : Database :=
  replay rejects_non_iso empty_database
    [(100, OpCreateTrip (TripInput.mk 45.5 "2024-01-15" None None));
     (200, OpCreateRefill
             (RefillInput.mk 50 10 None "2024-01-10" None))]%Z.

(** The refill of the sample history, as it is read back after the
    correction of its distance. *)
Definition sample_refill_read : Refill.t :=
  Refill.mk 1%Z 50 4 None "2024-01-10" (Some "First refill")
            (Some 12.5%float)
            100%Z 400%Z.

(** A patch that supplies only the amount. *)
Definition amount_70 : RefillPatch.t :=
  RefillPatch.mk (Some 70%float) None None None None.

(** A refill whose amount and distance are both Infinity, the number that
    a request body holds for 1e999. *)
Definition infinite_refill : RefillInput.t :=
  RefillInput.mk infinity infinity None "2024-01-10" None.


(** Three trips entered out of order, two of them on one date. *)
Definition out_of_order_db : Database :=
  replay rejects_non_iso empty_database
    [(100, OpCreateTrip (TripInput.mk 7 "2024-01-20" None None));
     (200, OpCreateTrip (TripInput.mk 8 "2024-01-10" None None));
     (300, OpCreateTrip (TripInput.mk 9 "2024-01-20" None None));
     (400, OpCreateTrip (TripInput.mk 3 "2024-01-15" None None))]%Z.

(** An expense, a refill and a trip dated 23:00 on the 15th at five hours
    behind UTC, which is 04:00 UTC on the 16th, and then one of each dated
    01:00 UTC on the 16th. *)
Definition offsets_db : Database :=
  replay rejects_non_iso empty_database
    [(100, OpCreateExpense
             (ExpenseInput.mk "fuel" 20 "2024-01-15T23:00:00-05:00" None));
     (200, OpCreateExpense
             (ExpenseInput.mk "toll" 5 "2024-01-16T01:00:00Z" None));
     (300, OpCreateRefill
             (RefillInput.mk 50 10 None "2024-01-15T23:00:00-05:00" None));
     (400, OpCreateRefill
             (RefillInput.mk 40 8 None "2024-01-16T01:00:00Z" None));
     (500, OpCreateTrip
             (TripInput.mk 12 "2024-01-15T23:00:00-05:00" None None));
     (600, OpCreateTrip (TripInput.mk 30 "2024-01-16T01:00:00Z" None None))]%Z.

(** Two expenses of one instant, midnight UTC on the 15th, the first
    written as a date-time, the second as a date. *)
Definition same_instant_db : Database :=
  replay rejects_non_iso empty_database
    [(100, OpCreateExpense
             (ExpenseInput.mk "fuel" 20 "2024-01-15T00:00:00.000Z" None));
     (200, OpCreateExpense (ExpenseInput.mk "toll" 5 "2024-01-15" None))]%Z.

(** A type that is the no-break space U+00A0 alone. *)
Definition blank_type : string := utf8 [194; 160]%N.

Close Scope string_scope.

(** ** The entity expected after an update

    What the specification says of [update(id, patch)]: a field of the
    patch replaces the stored one (an optional text through [|| null]), a
    field left out keeps the stored value, [createdAt] stays, [updatedAt]
    becomes the time of the call, and the efficiency of a refill is the
    quotient of the effective amount and distance, as the store keeps
    it. *)

Definition expense_patched (updates : ExpensePatch.t) (now : timestamp)
           (before : Expense.t) : Expense.t :=
  Expense.mk (Expense.id before)
    (or_keep (ExpensePatch.type updates) (Expense.type before))
    (or_keep (ExpensePatch.amount updates) (Expense.amount before))
    (or_keep (ExpensePatch.date updates) (Expense.date before))
    (or_keep_text (ExpensePatch.description updates)
                  (Expense.description before))
    (Expense.createdAt before) now.

Definition trip_patched (updates : TripPatch.t) (now : timestamp)
           (before : Trip.t) : Trip.t :=
  Trip.mk (Trip.id before)
    (or_keep (TripPatch.distance updates) (Trip.distance before))
    (or_keep (TripPatch.date updates) (Trip.date before))
    (or_keep_text (TripPatch.purpose updates) (Trip.purpose before))
    (or_keep_text (TripPatch.notes updates) (Trip.notes before))
    (Trip.createdAt before) now.

Definition refill_patched (updates : RefillPatch.t) (now : timestamp)
           (before : Refill.t) : Refill.t :=
  Refill.mk (Refill.id before)
    (or_keep (RefillPatch.amountSpent updates) (Refill.amountSpent before))
    (or_keep (RefillPatch.distanceTraveled updates)
             (Refill.distanceTraveled before))
    (Refill.liters before)
    (or_keep (RefillPatch.date updates) (Refill.date before))
    (or_keep_text (RefillPatch.notes updates) (Refill.notes before))
    (sql_real (or_keep (RefillPatch.amountSpent updates)
                       (Refill.amountSpent before)
               / or_keep (RefillPatch.distanceTraveled updates)
                         (Refill.distanceTraveled before)))
    (Refill.createdAt before) now.

(** ** Invariants of the store *)

(** Row identities grow along the table and never exceed the sequence. *)
Definition ids_ok {R : Type} (rowid : R -> Z) (rows : list R) (seq : Z)
  : Prop :=
  StronglySorted (fun a b => (rowid a < rowid b)%Z) rows
  /\ Forall (fun r => (rowid r <= seq)%Z) rows.

Definition expense_row_ok (clock : timestamp) (r : ExpenseRow.t) : Prop :=
  (ExpenseRow.created_at r <= ExpenseRow.updated_at r)%Z
  /\ (ExpenseRow.updated_at r <= clock)%Z.

Definition trip_row_ok (clock : timestamp) (r : TripRow.t) : Prop :=
  (TripRow.created_at r <= TripRow.updated_at r)%Z
  /\ (TripRow.updated_at r <= clock)%Z.

Definition refill_row_ok (clock : timestamp) (r : RefillRow.t) : Prop :=
  (RefillRow.created_at r <= RefillRow.updated_at r)%Z
  /\ (RefillRow.updated_at r <= clock)%Z
  /\ positive_number (RefillRow.amount_spent r) = true
  /\ positive_number (RefillRow.distance_traveled r) = true
  /\ RefillRow.efficiency r
     = sql_real (RefillRow.amount_spent r / RefillRow.distance_traveled r)
  /\ RefillRow.liters r = None.

Definition invariant (db : Database) (clock : timestamp) : Prop :=
  (ids_ok ExpenseRow.id (expenses db) (expenses_seq db)
   /\ Forall (expense_row_ok clock) (expenses db))
  /\ (ids_ok RefillRow.id (refills db) (refills_seq db)
      /\ Forall (refill_row_ok clock) (refills db))
  /\ (ids_ok TripRow.id (trips db) (trips_seq db)
      /\ Forall (trip_row_ok clock) (trips db)).






(** ** The rest of the services and their callers *)

(** [s.startsWith(p)] *)
Fixpoint starts_with (s p : string) : bool :=
  match p with
  | EmptyString => true
  | String c p' =>
      match s with
      | String d s' => Ascii.eqb c d && starts_with s' p'
      | EmptyString => false
      end
  end.

(** [s.includes(sub)] *)
Fixpoint includes (s sub : string) : bool :=
  starts_with s sub
  || match s with
     | String _ s' => includes s' sub
     | EmptyString => false
     end.

(** A response of a route: [NextResponse.json(body, { status })] with a
    body [{ error }], a payload, or [{ success: true }]. *)
Inductive body (A : Type) : Type :=
| ErrorBody (error : string)
| Payload (a : A)
| SuccessBody.

Arguments ErrorBody {A} error.
Arguments Payload {A} a.
Arguments SuccessBody {A}.

Module Response.
Record t (A : Type) := mk { status : Z; content : body A }.
Arguments mk {A} status content.
Arguments status {A} t.
Arguments content {A} t.
End Response.

(** *** src/lib/auth.ts *)

(** [!token] for the value of the cookie sessionId: a signed token is
    never the empty string. *)
Definition token_falsy (tok : token) : bool :=
  match tok with
  | Malformed raw => str_falsy raw
  | Signed _ _ => false
  end.

Inductive gate : Type :=
| Authorized
| Denied (status : Z) (error : string).

Definition msg_no_session : string := "Unauthorized: No session found".
Definition msg_bad_session : string :=
  "Unauthorized: Invalid or expired session".

(** [validateSession] is called outside of any try block: what it throws
    would leave [validateApiRequest] as it is. *)
Definition validateApiRequest (env : Env) (now : timestamp)
           (cookie : option token) : result gate :=
  match cookie with
  | None => Ok (Denied 401 msg_no_session)
  | Some tok =>
      if token_falsy tok then Ok (Denied 401 msg_no_session)
      else
        isValid <- validateSession env now tok ;;
        if isValid then Ok Authorized else Ok (Denied 401 msg_bad_session)
  end.

(** *** src/middleware.ts *)

Inductive MiddlewareResult : Type :=
| Next
| Redirect (location : string).

(** [publicPaths.some(path => pathname.startsWith(path))] *)
Definition isPublicPath (pathname : string) : bool :=
  existsb (starts_with pathname) ["/login"%string; "/api/auth"%string].

(** The cookie is the raw string that the request carries. *)
Definition middleware (pathname : string) (sessionId : option string)
  : MiddlewareResult :=
  if isPublicPath pathname then Next
  else
    match sessionId with
    | Some value => if str_falsy value then Redirect "/login" else Next
    | None => Redirect "/login"
    end.

(** *** The routes under app/api *)

(** The try block around a create call and its catch: 201 with the entity,
    400 with the message of a validation error of the service, 500 with
    [failure] otherwise. *)
Definition create_response {A : Type} (failure : string) (r : result A)
  : Response.t A :=
  match r with
  | Ok entity => Response.mk 201%Z (Payload entity)
  | Throw e =>
      let message := exn_message e in
      if includes message "Required field missing" then
        Response.mk 400%Z (ErrorBody message)
      else if includes message "must be a positive number" then
        Response.mk 400%Z (ErrorBody message)
      else if includes message "Invalid date format" then
        Response.mk 400%Z (ErrorBody message)
      else Response.mk 500%Z (ErrorBody failure)
  end.

(** The try block around an update call and its catch, in the routes of
    refills and trips. *)
Definition update_response {A : Type} (failure : string) (r : result A)
  : Response.t A :=
  match r with
  | Ok entity => Response.mk 200%Z (Payload entity)
  | Throw e =>
      let message := exn_message e in
      if String.eqb message "Resource not found" then
        Response.mk 404%Z (ErrorBody "Resource not found")
      else if includes message "must be a positive number" then
        Response.mk 400%Z (ErrorBody message)
      else if includes message "Invalid date format" then
        Response.mk 400%Z (ErrorBody message)
      else Response.mk 500%Z (ErrorBody failure)
  end.

(** The same in the route of expenses, which also knows the message of an
    empty type. *)
Definition update_expense_response (r : result Expense.t)
  : Response.t Expense.t :=
  match r with
  | Ok entity => Response.mk 200%Z (Payload entity)
  | Throw e =>
      let message := exn_message e in
      if String.eqb message "Resource not found" then
        Response.mk 404%Z (ErrorBody "Resource not found")
      else if includes message "must be a positive number" then
        Response.mk 400%Z (ErrorBody message)
      else if includes message "Invalid date format" then
        Response.mk 400%Z (ErrorBody message)
      else if includes message "cannot be empty" then
        Response.mk 400%Z (ErrorBody message)
      else Response.mk 500%Z (ErrorBody "Failed to update expense")
  end.

(** A service that takes the id of a row, called with a number: the id
    column is INTEGER PRIMARY KEY, so [WHERE id = ?] finds no row for a
    number that is not an integer, and no other row than that of the
    integer that the number is. *)
Definition delete_where_id (delete : Database -> Z -> Database * bool)
           (db : Database) (id : number) : Database * bool :=
  match integer_of_number id with
  | Some rowId => delete db rowId
  | None => (db, false)
  end.

(** [DELETE /api/{expenses,refills,trips}/[id]]: the session, the id of the
    path, the deletion.  [delete] is the service function, [invalid] the
    message for an id that is not a number. *)
Definition DELETE_by_id (delete : Database -> Z -> Database * bool)
           (invalid : string) (env : Env) (now : timestamp)
           (cookie : option token) (id : string) (db : Database)
  : Database * result (Response.t unit) :=
  match validateApiRequest env now cookie with
  | Throw e => (db, Throw e)
  | Ok (Denied status error) => (db, Ok (Response.mk status (ErrorBody error)))
  | Ok Authorized =>
      let rowId := parseInt10 id in
      if is_nan rowId then (db, Ok (Response.mk 400%Z (ErrorBody invalid)))
      else
        let (db', success) := delete_where_id delete db rowId in
        if success then (db', Ok (Response.mk 200%Z SuccessBody))
        else (db', Ok (Response.mk 404%Z (ErrorBody "Resource not found")))
  end.

Definition DELETE_expense := DELETE_by_id deleteExpense "Invalid expense ID".
Definition DELETE_refill := DELETE_by_id deleteRefill "Invalid refill ID".
Definition DELETE_trip := DELETE_by_id deleteTrip "Invalid trip ID".

(** [GET /api/expenses], [GET /api/refills], [GET /api/trips] and
    [GET /api/trips/mileage]: the session, then the listing. *)
Definition GET_listing {A : Type} (listing : Database -> A) (env : Env)
           (now : timestamp) (cookie : option token) (db : Database)
  : result (Response.t A) :=
  match validateApiRequest env now cookie with
  | Throw e => Throw e
  | Ok (Denied status error) => Ok (Response.mk status (ErrorBody error))
  | Ok Authorized => Ok (Response.mk 200%Z (Payload (listing db)))
  end.

Definition GET_expenses := GET_listing getExpenses.
Definition GET_refills := GET_listing getRefills.
Definition GET_trips := GET_listing getTrips.
Definition GET_mileage := GET_listing getMileageOverTime.

(** ** Further invariants of the store *)

(** What the checks of create and update leave in the tables: positive
    amounts and distances, a type that is not blank, dates that the date
    parser accepts, and optional texts that are NULL rather than empty. *)
Definition text_ok (v : option string) : Prop := v <> Some EmptyString.

Definition expense_row_valid (invalid_date : string -> bool)
           (r : ExpenseRow.t) : Prop :=
  positive_number (ExpenseRow.amount r) = true
  /\ String.eqb (trim (ExpenseRow.type r)) EmptyString = false
  /\ invalid_date (ExpenseRow.date r) = false
  /\ text_ok (ExpenseRow.description r).

Definition trip_row_valid (invalid_date : string -> bool) (r : TripRow.t)
  : Prop :=
  positive_number (TripRow.distance r) = true
  /\ invalid_date (TripRow.date r) = false
  /\ text_ok (TripRow.purpose r)
  /\ text_ok (TripRow.notes r).

Definition refill_row_valid (invalid_date : string -> bool)
           (r : RefillRow.t) : Prop :=
  invalid_date (RefillRow.date r) = false
  /\ text_ok (RefillRow.notes r).

Definition rows_valid (invalid_date : string -> bool) (db : Database)
  : Prop :=
  Forall (expense_row_valid invalid_date) (expenses db)
  /\ Forall (refill_row_valid invalid_date) (refills db)
  /\ Forall (trip_row_valid invalid_date) (trips db).

(** The decimal numeral of a natural number, as a string. *)
Definition decimal (n : nat) : string :=
  NilEmpty.string_of_uint (Nat.to_uint n).

(** The four units of [parseExpirationToSeconds]. *)
Definition is_unit (unit : ascii) : bool :=
  (Ascii.eqb unit "s" || Ascii.eqb unit "m" || Ascii.eqb unit "h"
   || Ascii.eqb unit "d")%char.

(** ** Lemmas on numbers *)

Lemma is_nan_spec (x : number) :
  is_nan x = true <-> Prim2SF x = S754_nan.
Proof.
  unfold is_nan. rewrite FloatAxioms.eqb_spec. unfold SFeqb.
  destruct (Prim2SF x) as [s|s| |s m e]; simpl.
  - split; discriminate.
  - destruct s; split; discriminate.
  - split; reflexivity.
  - rewrite Z.compare_refl, Pos.compare_refl.
    destruct s; simpl; split; discriminate.
Qed.

Lemma positive_intro (x : number) :
  not_positive_number x = false -> is_nan x = false -> positive_number x = true.
Proof.
  unfold not_positive_number, positive_number, is_nan.
  rewrite FloatAxioms.leb_spec, FloatAxioms.ltb_spec, FloatAxioms.eqb_spec.
  change (Prim2SF 0) with (S754_zero false).
  destruct (Prim2SF x) as [s|s| |s m e]; try destruct s; cbn;
    congruence.
Qed.

Lemma positive_guard (x : number) :
  positive_number x = true -> not_positive_number x = false.
Proof.
  unfold not_positive_number, positive_number.
  rewrite FloatAxioms.leb_spec, FloatAxioms.ltb_spec.
  change (Prim2SF 0) with (S754_zero false).
  destruct (Prim2SF x) as [s|s| |s m e]; try destruct s; cbn;
    congruence.
Qed.

Lemma positive_not_nan (x : number) : positive_number x = true -> is_nan x = false.
Proof.
  unfold positive_number. rewrite FloatAxioms.ltb_spec. intros H.
  destruct (is_nan x) eqn:E; [|reflexivity].
  apply is_nan_spec in E. rewrite E in H. discriminate.
Qed.

Lemma positive_if_present_guard (v : option number) :
  positive_if_present v = true -> present not_positive_number v = false.
Proof. destruct v; simpl; [apply positive_guard | reflexivity]. Qed.

Lemma positive_if_present_not_nan (v : option number) :
  positive_if_present v = true -> present is_nan v = false.
Proof. destruct v; simpl; [apply positive_not_nan | reflexivity]. Qed.

Lemma positive_if_present_intro (v : option number) :
  present not_positive_number v = false -> present is_nan v = false ->
  positive_if_present v = true.
Proof. destruct v; simpl; [apply positive_intro | reflexivity]. Qed.

Lemma positive_or_keep (v : option number) (old : number) :
  positive_if_present v = true -> positive_number old = true ->
  positive_number (or_keep v old) = true.
Proof. destruct v; simpl; auto. Qed.

Lemma sql_real_positive (x : number) :
  positive_number x = true -> sql_real x = Some x.
Proof. intros H. unfold sql_real. now rewrite (positive_not_nan H). Qed.

(** A quotient of two positive numbers is NaN only when both are
    infinite: the rounding of the quotient of two finite numbers gives
    zero, a finite number or an infinity. *)
Lemma shr_1_nonneg (mrs : shr_record) :
  (0 <= shr_m mrs)%Z -> (0 <= shr_m (shr_1 mrs))%Z.
Proof.
  destruct mrs as [m r s]. simpl.
  destruct m as [|[p|p|]|[p|p|]]; simpl; lia.
Qed.

Lemma iter_pos_shr_1_nonneg (p : positive) (mrs : shr_record) :
  (0 <= shr_m mrs)%Z -> (0 <= shr_m (SpecFloat.iter_pos shr_1 p mrs))%Z.
Proof.
  revert mrs. induction p as [p IH|p IH|]; intros mrs H; simpl.
  - apply IH, IH. now apply shr_1_nonneg.
  - now apply IH, IH.
  - now apply shr_1_nonneg.
Qed.

Lemma shr_fexp_nonneg (m e : Z) (l : location) :
  (0 <= m)%Z -> (0 <= shr_m (fst (shr_fexp prec emax m e l)))%Z.
Proof.
  intros H. unfold shr_fexp, shr.
  assert (H0 : (0 <= shr_m (shr_record_of_loc m l))%Z).
  { destruct l as [|[| |]]; exact H. }
  destruct (fexp prec emax (Zdigits2 m + e) - e)%Z; simpl; try exact H0.
  now apply iter_pos_shr_1_nonneg.
Qed.

Lemma round_nearest_even_nonneg (m : Z) (l : location) :
  (0 <= m)%Z -> (0 <= round_nearest_even m l)%Z.
Proof.
  intros H. destruct l as [|[| |]]; simpl; try lia.
  destruct (Z.even m); lia.
Qed.

Lemma binary_round_aux_not_nan (s : bool) (m e : Z) (l : location) :
  (0 <= m)%Z -> binary_round_aux prec emax s m e l <> S754_nan.
Proof.
  intros H. unfold binary_round_aux.
  pose proof (shr_fexp_nonneg e l H) as H1.
  destruct (shr_fexp prec emax m e l) as [mrs' e'].
  simpl in H1.
  pose proof (shr_fexp_nonneg e' loc_Exact
                (round_nearest_even_nonneg (loc_of_shr_record mrs') H1)) as H2.
  destruct (shr_fexp prec emax _ e' loc_Exact) as [mrs'' e''].
  simpl in H2.
  destruct (shr_m mrs'') as [|p|p]; [discriminate| |lia].
  destruct (e'' <=? emax - prec)%Z; discriminate.
Qed.

Lemma SFdiv_core_nonneg (m1 m2 : positive) (e1 e2 : Z) :
  (0 <= fst (fst (SFdiv_core_binary prec emax (Z.pos m1) e1 (Z.pos m2) e2)))%Z.
Proof.
  unfold SFdiv_core_binary.
  match goal with |- context [Z.div_eucl ?a ?b] =>
    pose proof (Z.div_pos a b) as Hq;
    unfold Z.div in Hq; destruct (Z.div_eucl a b) as [q r] eqn:E end.
  simpl in *. apply Hq; [|lia].
  match goal with |- (0 <= match ?x with _ => _ end)%Z => destruct x eqn:Es end;
    try lia. apply Z.shiftl_nonneg. lia.
Qed.

Lemma quotient_nan (a d : number) :
  positive_number a = true -> positive_number d = true ->
  is_nan (a / d) = true -> a = infinity /\ d = infinity.
Proof.
  unfold positive_number. intros Ha Hd Hn.
  apply is_nan_spec in Hn. rewrite div_spec in Hn.
  rewrite FloatAxioms.ltb_spec in Ha, Hd.
  change (Prim2SF 0) with (S754_zero false) in Ha, Hd.
  destruct (Prim2SF a) as [sa|sa| |sa ma ea] eqn:Ea;
    try (destruct sa; discriminate Ha); try discriminate Ha;
  destruct (Prim2SF d) as [sd|sd| |sd md ed] eqn:Ed;
    try (destruct sd; discriminate Hd); try discriminate Hd;
    cbn in Hn; try discriminate Hn.
  - destruct sa, sd; try discriminate Ha; try discriminate Hd.
    split; apply Prim2SF_inj; [rewrite Ea | rewrite Ed]; reflexivity.
  - exfalso. unfold SF64div, SFdiv in Hn.
    pose proof (SFdiv_core_nonneg ma md ea ed) as Hq.
    destruct (SFdiv_core_binary prec emax (Z.pos ma) ea (Z.pos md) ed)
      as [[mz ez] lz].
    simpl in Hq. exact (binary_round_aux_not_nan (xorb sa sd) ez lz Hq Hn).
Qed.

(** ** Lemmas on tables *)

Section TableFacts.
Context {R : Type} (rowid : R -> Z).

Lemma select_by_id_some (rows : list R) (i : Z) (r : R) :
  select_by_id rowid rows i = Some r -> In r rows /\ rowid r = i.
Proof.
  unfold select_by_id. intros H. apply find_some in H.
  destruct H as [Hin Heq]. split; [assumption | now apply Z.eqb_eq].
Qed.

Lemma select_by_id_none (rows : list R) (i : Z) :
  select_by_id rowid rows i = None -> Forall (fun r => rowid r <> i) rows.
Proof.
  unfold select_by_id. intros H. apply Forall_forall. intros r Hin Heq.
  apply (find_none _ _ H) in Hin. apply Z.eqb_neq in Hin. contradiction.
Qed.

Lemma select_by_id_fresh (rows : list R) (r : R) :
  Forall (fun x => (rowid x < rowid r)%Z) rows ->
  select_by_id rowid (rows ++ [r]) (rowid r) = Some r.
Proof.
  unfold select_by_id. induction rows as [|x rows IH]; simpl; intros H.
  - now rewrite Z.eqb_refl.
  - inversion H as [|? ? Hx Hrest]; subst.
    destruct (Z.eqb_spec (rowid x) (rowid r)) as [E|_]; [lia | auto].
Qed.

Lemma select_by_id_update (set : R -> R) (rows : list R) (i : Z) :
  (forall r, rowid (set r) = rowid r) ->
  select_by_id rowid (update_by_id rowid set rows i) i
  = option_map set (select_by_id rowid rows i).
Proof.
  intros Hset. unfold select_by_id, update_by_id.
  induction rows as [|x rows IH]; simpl; [reflexivity|].
  destruct (Z.eqb_spec (rowid x) i) as [E|N].
  - rewrite Hset. destruct (Z.eqb_spec (rowid x) i); [reflexivity | contradiction].
  - destruct (Z.eqb_spec (rowid x) i); [contradiction | exact IH].
Qed.

Lemma select_by_id_update_other (set : R -> R) (rows : list R) (i j : Z) :
  (forall r, rowid (set r) = rowid r) -> i <> j ->
  select_by_id rowid (update_by_id rowid set rows i) j
  = select_by_id rowid rows j.
Proof.
  intros Hset Hij. unfold select_by_id, update_by_id.
  induction rows as [|x rows IH]; simpl; [reflexivity|].
  destruct (Z.eqb_spec (rowid x) i) as [E|N].
  - rewrite Hset. destruct (Z.eqb_spec (rowid x) j); [lia | exact IH].
  - destruct (Z.eqb_spec (rowid x) j); [reflexivity | exact IH].
Qed.

Lemma ids_ok_nil (seq : Z) : ids_ok rowid [] seq.
Proof. split; constructor. Qed.

Lemma ids_ok_below (rows : list R) (seq : Z) (r : R) :
  ids_ok rowid rows seq -> (seq < rowid r)%Z ->
  Forall (fun x => (rowid x < rowid r)%Z) rows.
Proof.
  intros [_ Hle] Hlt. eapply Forall_impl; [|exact Hle].
  simpl. intros; lia.
Qed.

Lemma StronglySorted_snoc (lt : R -> R -> Prop) (rows : list R) (r : R) :
  StronglySorted lt rows -> Forall (fun x => lt x r) rows ->
  StronglySorted lt (rows ++ [r]).
Proof.
  induction 1 as [|x rows Hs IH Hx]; simpl; intros Hall.
  - repeat constructor.
  - inversion Hall; subst. constructor; [auto|].
    apply Forall_app. split; [assumption | now constructor].
Qed.

Lemma ids_ok_insert (rows : list R) (seq : Z) (r : R) :
  ids_ok rowid rows seq -> rowid r = (seq + 1)%Z ->
  ids_ok rowid (rows ++ [r]) (seq + 1).
Proof.
  intros Hok Hr. assert (Hbelow : Forall (fun x => (rowid x < rowid r)%Z) rows)
    by (apply ids_ok_below with (seq := seq); [exact Hok | lia]).
  destruct Hok as [Hs Hle]. split.
  - now apply StronglySorted_snoc.
  - apply Forall_app. split.
    + eapply Forall_impl; [|exact Hle]. simpl; intros; lia.
    + constructor; [lia | constructor].
Qed.

Lemma map_ext_keys (f : R -> R) (rows : list R) :
  (forall r, rowid (f r) = rowid r) -> map rowid (map f rows) = map rowid rows.
Proof.
  intros Hf. rewrite map_map. apply map_ext. exact Hf.
Qed.

Lemma StronglySorted_by_key (g : R -> R) (rows : list R) :
  (forall r, rowid (g r) = rowid r) ->
  StronglySorted (fun a b => (rowid a < rowid b)%Z) rows ->
  StronglySorted (fun a b => (rowid a < rowid b)%Z) (map g rows).
Proof.
  intros Hg. induction 1 as [|x rows Hs IH Hx]; simpl; constructor; auto.
  apply Forall_map. eapply Forall_impl; [|exact Hx].
  simpl. intros a Ha. now rewrite !Hg.
Qed.

Lemma ids_ok_update (set : R -> R) (rows : list R) (seq i : Z) :
  (forall r, rowid (set r) = rowid r) ->
  ids_ok rowid rows seq -> ids_ok rowid (update_by_id rowid set rows i) seq.
Proof.
  intros Hset [Hs Hle]. unfold update_by_id.
  assert (Hg : forall r,
             rowid (if (rowid r =? i)%Z then set r else r) = rowid r).
  { intros r. destruct (rowid r =? i)%Z; [apply Hset | reflexivity]. }
  split.
  - now apply StronglySorted_by_key.
  - apply Forall_map. eapply Forall_impl; [|exact Hle].
    simpl. intros a Ha. now rewrite Hg.
Qed.

Lemma StronglySorted_filter (lt : R -> R -> Prop) (p : R -> bool)
      (rows : list R) :
  StronglySorted lt rows -> StronglySorted lt (filter p rows).
Proof.
  induction 1 as [|x rows Hs IH Hx]; simpl; [constructor|].
  destruct (p x); [constructor|]; auto.
  apply Forall_forall. intros y Hy. apply filter_In in Hy.
  rewrite Forall_forall in Hx. now apply Hx.
Qed.

Lemma Forall_filter (P : R -> Prop) (p : R -> bool) (rows : list R) :
  Forall P rows -> Forall P (filter p rows).
Proof.
  rewrite !Forall_forall. intros H y Hy. apply filter_In in Hy. now apply H.
Qed.

Lemma ids_ok_delete (rows : list R) (seq i : Z) :
  ids_ok rowid rows seq -> ids_ok rowid (fst (delete_by_id rowid rows i)) seq.
Proof.
  intros [Hs Hle]. unfold delete_by_id. simpl. split.
  - now apply StronglySorted_filter.
  - now apply Forall_filter.
Qed.

Lemma Forall_update (P : R -> Prop) (set : R -> R) (rows : list R) (i : Z) :
  (forall r, P r -> rowid r = i -> P (set r)) ->
  Forall P rows -> Forall P (update_by_id rowid set rows i).
Proof.
  intros Hset H. unfold update_by_id. apply Forall_map.
  eapply Forall_impl; [|exact H]. simpl. intros a Ha.
  destruct (Z.eqb_spec (rowid a) i); auto.
Qed.

Lemma update_by_id_length (set : R -> R) (rows : list R) (i : Z) :
  List.length (update_by_id rowid set rows i) = List.length rows.
Proof. unfold update_by_id. apply length_map. Qed.

End TableFacts.

Lemma ids_unique {R : Type} (rowid : R -> Z) (rows : list R) (seq : Z)
      (a b : R) :
  ids_ok rowid rows seq -> In a rows -> In b rows -> rowid a = rowid b ->
  a = b.
Proof.
  intros [Hs _]. induction Hs as [|x rows Hs IH Hx]; simpl; [tauto|].
  rewrite Forall_forall in Hx.
  intros [Ha|Ha] [Hb|Hb] E; subst; auto.
  - apply Hx in Hb. lia.
  - apply Hx in Ha. lia.
Qed.

Lemma expense_row_ok_later (clock now : timestamp) (r : ExpenseRow.t) :
  (clock <= now)%Z -> expense_row_ok clock r -> expense_row_ok now r.
Proof. unfold expense_row_ok. intros; lia. Qed.

Lemma trip_row_ok_later (clock now : timestamp) (r : TripRow.t) :
  (clock <= now)%Z -> trip_row_ok clock r -> trip_row_ok now r.
Proof. unfold trip_row_ok. intros; lia. Qed.

Lemma refill_row_ok_later (clock now : timestamp) (r : RefillRow.t) :
  (clock <= now)%Z -> refill_row_ok clock r -> refill_row_ok now r.
Proof.
  unfold refill_row_ok. intros Hle (H1 & H2 & H3). repeat split; try tauto; lia.
Qed.

Lemma invariant_later (db : Database) (clock now : timestamp) :
  (clock <= now)%Z -> invariant db clock -> invariant db now.
Proof.
  intros Hle [[He1 He2] [[Hr1 Hr2] [Ht1 Ht2]]].
  repeat split; try (apply He1 || apply Hr1 || apply Ht1).
  - eapply Forall_impl; [|exact He2]. intros a. now apply expense_row_ok_later.
  - eapply Forall_impl; [|exact Hr2]. intros a. now apply refill_row_ok_later.
  - eapply Forall_impl; [|exact Ht2]. intros a. now apply trip_row_ok_later.
Qed.

Lemma invariant_fresh (clock : timestamp) : invariant empty_database clock.
Proof.
  unfold invariant, empty_database; simpl.
  repeat split; constructor.
Qed.

Lemma present_false {A : Type} (check : A -> bool) (v : option A) (old : A) :
  present check v = false -> check old = false -> check (or_keep v old) = false.
Proof. destruct v; simpl; auto. Qed.

Ltac break_if :=
  repeat match goal with
         | |- context [if ?c then _ else _] =>
             match type of c with bool => destruct c eqn:? end
         end.

Section LedgerFacts.
Variable invalid_date : string -> bool.

Lemma createExpense_invariant db clock now expense :
  invariant db clock -> (clock <= now)%Z ->
  invariant (fst (createExpense invalid_date db now expense)) now.
Proof.
  intros Hinv Hle. apply (invariant_later Hle) in Hinv.
  unfold createExpense. break_if; simpl; try exact Hinv.
  match goal with |- context [match ?s with _ => _ end] => destruct s end;
    simpl; destruct Hinv as [[He1 He2] Hrest];
    (split; [split|exact Hrest]).
  all: try (apply ids_ok_insert; [exact He1 | reflexivity]).
  all: apply Forall_app; split; [exact He2|];
    constructor; [unfold expense_row_ok; simpl; lia | constructor].
Qed.

Lemma createTrip_invariant db clock now trip :
  invariant db clock -> (clock <= now)%Z ->
  invariant (fst (createTrip invalid_date db now trip)) now.
Proof.
  intros Hinv Hle. apply (invariant_later Hle) in Hinv.
  unfold createTrip. break_if; simpl; try exact Hinv.
  match goal with |- context [match ?s with _ => _ end] => destruct s end;
    simpl; destruct Hinv as [He [Hr [Ht1 Ht2]]];
    (split; [exact He | split; [exact Hr | split]]).
  all: try (apply ids_ok_insert; [exact Ht1 | reflexivity]).
  all: apply Forall_app; split; [exact Ht2|];
    constructor; [unfold trip_row_ok; simpl; lia | constructor].
Qed.

Lemma createRefill_invariant db clock now refill :
  invariant db clock -> (clock <= now)%Z ->
  invariant (fst (createRefill invalid_date db now refill)) now.
Proof.
  intros Hinv Hle. apply (invariant_later Hle) in Hinv.
  unfold createRefill, calculateEfficiency.
  destruct (not_positive_number (RefillInput.amountSpent refill)) eqn:Ha;
    [exact Hinv|].
  destruct (not_positive_number (RefillInput.distanceTraveled refill)) eqn:Hd;
    [exact Hinv|].
  destruct (str_falsy (RefillInput.date refill)); [exact Hinv|].
  destruct (invalid_date (RefillInput.date refill)); [exact Hinv|].
  pose proof Hd as Hd'. unfold not_positive_number in Hd'. rewrite Hd'.
  destruct (is_nan (RefillInput.amountSpent refill)) eqn:Na; [exact Hinv|].
  destruct (is_nan (RefillInput.distanceTraveled refill)) eqn:Nd;
    [exact Hinv|].
  pose proof (positive_intro Ha Na) as Pa.
  pose proof (positive_intro Hd Nd) as Pd.
  match goal with |- context [match ?s with _ => _ end] => destruct s end;
    simpl; destruct Hinv as [He [[Hr1 Hr2] Ht]];
    (split; [exact He | split; [split | exact Ht]]).
  all: try (apply ids_ok_insert; [exact Hr1 | reflexivity]).
  all: apply Forall_app; split; [exact Hr2|];
    constructor; [unfold refill_row_ok; simpl; repeat split; auto; lia
                 | constructor].
Qed.

Lemma deleteExpense_invariant db clock id :
  invariant db clock -> invariant (fst (deleteExpense db id)) clock.
Proof.
  intros [[He1 He2] Hrest]. unfold deleteExpense, delete_by_id; simpl.
  split; [split | exact Hrest].
  - exact (ids_ok_delete id He1).
  - now apply Forall_filter.
Qed.

Lemma deleteRefill_invariant db clock id :
  invariant db clock -> invariant (fst (deleteRefill db id)) clock.
Proof.
  intros [He [[Hr1 Hr2] Ht]]. unfold deleteRefill, delete_by_id; simpl.
  split; [exact He | split; [split | exact Ht]].
  - exact (ids_ok_delete id Hr1).
  - now apply Forall_filter.
Qed.

Lemma deleteTrip_invariant db clock id :
  invariant db clock -> invariant (fst (deleteTrip db id)) clock.
Proof.
  intros [He [Hr [Ht1 Ht2]]]. unfold deleteTrip, delete_by_id; simpl.
  split; [exact He | split; [exact Hr | split]].
  - exact (ids_ok_delete id Ht1).
  - now apply Forall_filter.
Qed.

Lemma updateExpense_invariant db clock now id updates :
  invariant db clock -> (clock <= now)%Z ->
  invariant (fst (updateExpense invalid_date db now id updates)) now.
Proof.
  intros Hinv Hle. apply (invariant_later Hle) in Hinv.
  unfold updateExpense, getExpenseById. break_if; simpl; try exact Hinv.
  all: destruct (select_by_id ExpenseRow.id (expenses db) id); simpl;
    try exact Hinv.
  match goal with |- context [match ?s with _ => _ end] => destruct s end;
    simpl; destruct Hinv as [[He1 He2] Hrest];
    (split; [split|exact Hrest]).
  all: try (apply ids_ok_update; [reflexivity | exact He1]).
  all: apply Forall_update; [|exact He2];
    unfold expense_row_ok; simpl; intros; lia.
Qed.

Lemma updateTrip_invariant db clock now id updates :
  invariant db clock -> (clock <= now)%Z ->
  invariant (fst (updateTrip invalid_date db now id updates)) now.
Proof.
  intros Hinv Hle. apply (invariant_later Hle) in Hinv.
  unfold updateTrip, getTripById. break_if; simpl; try exact Hinv.
  all: destruct (select_by_id TripRow.id (trips db) id); simpl;
    try exact Hinv.
  match goal with |- context [match ?s with _ => _ end] => destruct s end;
    simpl; destruct Hinv as [He [Hr [Ht1 Ht2]]];
    (split; [exact He | split; [exact Hr | split]]).
  all: try (apply ids_ok_update; [reflexivity | exact Ht1]).
  all: apply Forall_update; [|exact Ht2];
    unfold trip_row_ok; simpl; intros; lia.
Qed.

Lemma updateRefill_invariant db clock now id updates :
  invariant db clock -> (clock <= now)%Z ->
  invariant (fst (updateRefill invalid_date db now id updates)) now.
Proof.
  intros Hinv Hle. apply (invariant_later Hle) in Hinv.
  unfold updateRefill, getRefillById.
  destruct (present not_positive_number (RefillPatch.amountSpent updates))
    eqn:Hamount; simpl; [exact Hinv|].
  destruct (present not_positive_number (RefillPatch.distanceTraveled updates))
    eqn:Hdistance; simpl; [exact Hinv|].
  destruct (present invalid_date (RefillPatch.date updates));
    simpl; [exact Hinv|].
  destruct (select_by_id RefillRow.id (refills db) id) as [row|] eqn:Hsel;
    simpl; [|exact Hinv].
  unfold calculateEfficiency.
  match goal with |- context [if ?c then _ else _] => destruct c end;
    simpl; [exact Hinv|].
  destruct (present is_nan (RefillPatch.amountSpent updates)) eqn:Na;
    simpl; [exact Hinv|].
  destruct (present is_nan (RefillPatch.distanceTraveled updates)) eqn:Nd;
    simpl; [exact Hinv|].
  apply select_by_id_some in Hsel. destruct Hsel as [Hin Hid].
  assert (Pa : positive_if_present (RefillPatch.amountSpent updates) = true).
  { destruct (RefillPatch.amountSpent updates); simpl in *;
      [now apply positive_intro | reflexivity]. }
  assert (Pd : positive_if_present (RefillPatch.distanceTraveled updates)
               = true).
  { destruct (RefillPatch.distanceTraveled updates); simpl in *;
      [now apply positive_intro | reflexivity]. }
  match goal with |- context [match ?s with _ => _ end] => destruct s end;
    simpl; destruct Hinv as [He [[Hr1 Hr2] Ht]];
    (split; [exact He | split; [split | exact Ht]]).
  all: try (apply ids_ok_update; [reflexivity | exact Hr1]).
  all: apply Forall_forall; intros r' Hin';
    unfold update_by_id in Hin'; apply in_map_iff in Hin';
    destruct Hin' as [r [Hr' Hr]]; subst r';
    pose proof (proj1 (Forall_forall _ _) Hr2 r Hr) as Hok;
    destruct (Z.eqb_spec (RefillRow.id r) id) as [E|N]; [|exact Hok];
    assert (r = row)
      by (eapply ids_unique; [exact Hr1 | exact Hr | exact Hin | congruence]);
    subst r; unfold refill_row_ok in *; simpl;
    destruct Hok as (H1 & H2 & H3 & H4 & H5 & H6);
    repeat split; auto; try lia;
    now apply positive_or_keep.
Qed.

Lemma run_invariant db clock now op :
  invariant db clock -> (clock <= now)%Z ->
  invariant (run invalid_date db now op) now.
Proof.
  intros Hinv Hle. destruct op; simpl.
  - now apply createExpense_invariant with (clock := clock).
  - now apply updateExpense_invariant with (clock := clock).
  - apply deleteExpense_invariant. now apply invariant_later with (clock := clock).
  - now apply createRefill_invariant with (clock := clock).
  - now apply updateRefill_invariant with (clock := clock).
  - apply deleteRefill_invariant. now apply invariant_later with (clock := clock).
  - now apply createTrip_invariant with (clock := clock).
  - now apply updateTrip_invariant with (clock := clock).
  - apply deleteTrip_invariant. now apply invariant_later with (clock := clock).
Qed.

Lemma reachable_invariant db clock :
  reachable invalid_date db clock -> invariant db clock.
Proof.
  induction 1 as [clock | db clock now op Hreach IH Hle].
  - apply invariant_fresh.
  - now apply run_invariant with (clock := clock).
Qed.

Lemma replay_reachable db clock log :
  reachable invalid_date db clock -> ascending_from clock log = true ->
  reachable invalid_date (replay invalid_date db log) (last_clock clock log).
Proof.
  revert db clock. induction log as [|[now op] log IH]; simpl; intros db clock Hr Ha.
  - exact Hr.
  - apply andb_prop in Ha. destruct Ha as [Hle Ha].
    apply IH; [|exact Ha]. apply reachable_run with (clock := clock);
      [exact Hr | now apply Z.leb_le].
Qed.

(** *** What the services return when their checks pass *)

Lemma createExpense_ok db clock now expense :
  invariant db clock ->
  str_falsy (ExpenseInput.type expense) = false ->
  String.eqb (trim (ExpenseInput.type expense)) EmptyString = false ->
  positive_number (ExpenseInput.amount expense) = true ->
  str_falsy (ExpenseInput.date expense) = false ->
  invalid_date (ExpenseInput.date expense) = false ->
  forall row,
    row = ExpenseRow.mk (expenses_seq db + 1) (ExpenseInput.type expense)
            (ExpenseInput.amount expense) (ExpenseInput.date expense)
            (str_or_null (ExpenseInput.description expense)) now now ->
    createExpense invalid_date db now expense
    = (with_expenses db (expenses db ++ [row]) (expenses_seq db + 1),
       Ok (mapRowToExpense row)).
Proof.
  intros [[He _] _] H1 H2 H3 H4 H5 row ->. unfold createExpense.
  rewrite H1, H2, (positive_guard H3), H4, H5, (positive_not_nan H3).
  cbn [orb with_expenses expenses].
  rewrite (select_by_id_fresh ExpenseRow.id); [reflexivity|].
  apply ids_ok_below with (seq := expenses_seq db); [exact He | simpl; lia].
Qed.

Lemma createTrip_ok db clock now trip :
  invariant db clock ->
  positive_number (TripInput.distance trip) = true ->
  str_falsy (TripInput.date trip) = false ->
  invalid_date (TripInput.date trip) = false ->
  forall row,
    row = TripRow.mk (trips_seq db + 1) (TripInput.distance trip)
            (TripInput.date trip) (str_or_null (TripInput.purpose trip))
            (str_or_null (TripInput.notes trip)) now now ->
    createTrip invalid_date db now trip
    = (with_trips db (trips db ++ [row]) (trips_seq db + 1),
       Ok (mapRowToTrip row)).
Proof.
  intros [_ [_ [Ht _]]] H1 H2 H3 row ->. unfold createTrip.
  rewrite (positive_guard H1), H2, H3, (positive_not_nan H1).
  cbn [with_trips trips].
  rewrite (select_by_id_fresh TripRow.id); [reflexivity|].
  apply ids_ok_below with (seq := trips_seq db); [exact Ht | simpl; lia].
Qed.

Lemma createRefill_ok db clock now refill :
  invariant db clock ->
  positive_number (RefillInput.amountSpent refill) = true ->
  positive_number (RefillInput.distanceTraveled refill) = true ->
  str_falsy (RefillInput.date refill) = false ->
  invalid_date (RefillInput.date refill) = false ->
  forall row,
    row = RefillRow.mk (refills_seq db + 1) (RefillInput.amountSpent refill)
            None (RefillInput.distanceTraveled refill)
            (RefillInput.date refill) (str_or_null (RefillInput.notes refill))
            (sql_real (RefillInput.amountSpent refill
                       / RefillInput.distanceTraveled refill)) now now ->
    createRefill invalid_date db now refill
    = (with_refills db (refills db ++ [row]) (refills_seq db + 1),
       Ok (mapRowToRefill row)).
Proof.
  intros [_ [[Hr _] _]] H1 H2 H3 H4 row ->. unfold createRefill.
  rewrite (positive_guard H1), (positive_guard H2), H3, H4.
  unfold calculateEfficiency.
  pose proof (positive_guard H2) as G2. unfold not_positive_number in G2.
  rewrite G2, (positive_not_nan H1), (positive_not_nan H2).
  cbn [with_refills refills].
  rewrite (select_by_id_fresh RefillRow.id); [reflexivity|].
  apply ids_ok_below with (seq := refills_seq db); [exact Hr | simpl; lia].
Qed.

Lemma updateExpense_ok db now id updates row :
  select_by_id ExpenseRow.id (expenses db) id = Some row ->
  positive_if_present (ExpensePatch.amount updates) = true ->
  present invalid_date (ExpensePatch.date updates) = false ->
  present (fun s => String.eqb (trim s) EmptyString)
          (ExpensePatch.type updates) = false ->
  updateExpense invalid_date db now id updates
  = (with_expenses db
       (update_by_id ExpenseRow.id (set_expense updates now) (expenses db) id)
       (expenses_seq db),
     Ok (mapRowToExpense (set_expense updates now row))).
Proof.
  intros Hsel H1 H2 H3. unfold updateExpense, getExpenseById.
  rewrite (positive_if_present_guard _ H1), H2, H3, Hsel,
    (positive_if_present_not_nan _ H1).
  cbn [with_expenses expenses].
  rewrite select_by_id_update by reflexivity. now rewrite Hsel.
Qed.

Lemma updateTrip_ok db now id updates row :
  select_by_id TripRow.id (trips db) id = Some row ->
  positive_if_present (TripPatch.distance updates) = true ->
  present invalid_date (TripPatch.date updates) = false ->
  updateTrip invalid_date db now id updates
  = (with_trips db
       (update_by_id TripRow.id (set_trip updates now) (trips db) id)
       (trips_seq db),
     Ok (mapRowToTrip (set_trip updates now row))).
Proof.
  intros Hsel H1 H2. unfold updateTrip, getTripById.
  rewrite (positive_if_present_guard _ H1), H2, Hsel,
    (positive_if_present_not_nan _ H1).
  cbn [with_trips trips].
  rewrite select_by_id_update by reflexivity. now rewrite Hsel.
Qed.

Lemma updateRefill_ok db clock now id updates row :
  invariant db clock ->
  select_by_id RefillRow.id (refills db) id = Some row ->
  positive_if_present (RefillPatch.amountSpent updates) = true ->
  positive_if_present (RefillPatch.distanceTraveled updates) = true ->
  present invalid_date (RefillPatch.date updates) = false ->
  forall efficiency,
    efficiency
    = (or_keep (RefillPatch.amountSpent updates) (RefillRow.amount_spent row)
       / or_keep (RefillPatch.distanceTraveled updates)
                 (RefillRow.distance_traveled row))%float ->
    updateRefill invalid_date db now id updates
    = (with_refills db
         (update_by_id RefillRow.id (set_refill updates efficiency now)
                       (refills db) id)
         (refills_seq db),
       Ok (mapRowToRefill (set_refill updates efficiency now row))).
Proof.
  intros [_ [[_ Hr] _]] Hsel H1 H2 H3 efficiency ->.
  unfold updateRefill, getRefillById.
  rewrite (positive_if_present_guard _ H1), (positive_if_present_guard _ H2),
    H3, Hsel.
  cbn [mapRowToRefill Refill.amountSpent Refill.distanceTraveled].
  destruct (select_by_id_some _ _ _ Hsel) as [Hin _].
  rewrite Forall_forall in Hr. destruct (Hr row Hin) as (_ & _ & _ & Hd & _).
  unfold calculateEfficiency.
  pose proof (positive_guard (positive_or_keep _ H2 Hd)) as Hpos.
  unfold not_positive_number in Hpos. rewrite Hpos.
  rewrite (positive_if_present_not_nan _ H1),
    (positive_if_present_not_nan _ H2).
  cbn [with_refills refills].
  rewrite select_by_id_update by reflexivity. now rewrite Hsel.
Qed.

End LedgerFacts.

(** ** The order on dates and ORDER BY *)








Section OrderByFacts.
Context {R : Type} (key : R -> string).

Lemma insert_row_perm (x : R) (l : list R) :
  Permutation (insert_row key x l) (x :: l).
Proof.
  induction l as [|y l IH]; simpl; [reflexivity|].
  destruct (String.leb (key x) (key y)); [reflexivity|].
  rewrite IH. apply perm_swap.
Qed.

Lemma order_by_perm (l : list R) : Permutation (order_by key l) l.
Proof.
  induction l as [|x l IH]; simpl; [reflexivity|].
  rewrite insert_row_perm. now constructor.
Qed.

Lemma order_by_length (l : list R) :
  List.length (order_by key l) = List.length l.
Proof. apply Permutation_length, order_by_perm. Qed.



Context (rowid : R -> Z).



End OrderByFacts.

(** ** Running sums *)





(** ** Properties of the specification *)


Lemma sample_db_reachable : reachable rejects_non_iso sample_db 400%Z.
Proof.
  exact (@replay_reachable rejects_non_iso empty_database 0%Z sample_log
           (reachable_fresh rejects_non_iso 0%Z) eq_refl).
Qed.


Lemma offsets_db_reachable : reachable rejects_non_iso offsets_db 600%Z.
Proof.
  unfold offsets_db.
  refine (@replay_reachable rejects_non_iso empty_database 0%Z _
            (reachable_fresh rejects_non_iso 0%Z) _).
  reflexivity.
Qed.





Section LedgerProperties.
Variable invalid_date : string -> bool.

(** C1, as the code has it.  On every row that the services can produce
    and on every refill they return, both operands are positive and the
    efficiency is amountSpent / distanceTraveled, the quotient of double
    precision, as the store keeps it: the quotient itself when it is a
    number, and no efficiency (NULL) when it is NaN.  The quotient of two
    positive numbers is NaN only when both are Infinity, which the checks
    let through.
    [createRefill] on an input with positive amount and distance and a
    date that parses stores and returns that efficiency of the two
    inputs; [updateRefill] on a patch that passes its checks stores and
    returns the efficiency of the effective values: the value of the patch
    where it supplies one, the stored value where it leaves the field out
    (so also for a patch with neither field). *)
Theorem refill_efficiency_invariant (db : Database) (clock : timestamp) :
  reachable invalid_date db clock ->
  (forall row, In row (refills db) ->
     positive_number (RefillRow.amount_spent row) = true
     /\ positive_number (RefillRow.distance_traveled row) = true
     /\ RefillRow.efficiency row
        = sql_real (RefillRow.amount_spent row
                    / RefillRow.distance_traveled row))
  /\ (forall id e, getRefillById db id = Some e ->
        Refill.efficiency e
        = sql_real (Refill.amountSpent e / Refill.distanceTraveled e))
  /\ (forall e, In e (getRefills db) ->
        Refill.efficiency e
        = sql_real (Refill.amountSpent e / Refill.distanceTraveled e))
  /\ (forall now refill,
        positive_number (RefillInput.amountSpent refill) = true ->
        positive_number (RefillInput.distanceTraveled refill) = true ->
        str_falsy (RefillInput.date refill) = false ->
        invalid_date (RefillInput.date refill) = false ->
        exists created,
          snd (createRefill invalid_date db now refill) = Ok created
          /\ getRefillById (fst (createRefill invalid_date db now refill))
                           (Refill.id created) = Some created
          /\ Refill.amountSpent created = RefillInput.amountSpent refill
          /\ Refill.distanceTraveled created
             = RefillInput.distanceTraveled refill
          /\ Refill.efficiency created
             = sql_real (RefillInput.amountSpent refill
                         / RefillInput.distanceTraveled refill))
  /\ (forall now id updates existing,
        getRefillById db id = Some existing ->
        positive_if_present (RefillPatch.amountSpent updates) = true ->
        positive_if_present (RefillPatch.distanceTraveled updates) = true ->
        present invalid_date (RefillPatch.date updates) = false ->
        exists updated,
          snd (updateRefill invalid_date db now id updates) = Ok updated
          /\ getRefillById (fst (updateRefill invalid_date db now id updates))
                           id = Some updated
          /\ Refill.amountSpent updated
             = match RefillPatch.amountSpent updates with
               | Some amountSpent => amountSpent
               | None => Refill.amountSpent existing
               end
          /\ Refill.distanceTraveled updated
             = match RefillPatch.distanceTraveled updates with
               | Some distanceTraveled => distanceTraveled
               | None => Refill.distanceTraveled existing
               end
          /\ Refill.efficiency updated
             = sql_real (Refill.amountSpent updated
                         / Refill.distanceTraveled updated))
  /\ (forall amountSpent distanceTraveled : number,
        positive_number amountSpent = true ->
        positive_number distanceTraveled = true ->
        sql_real (amountSpent / distanceTraveled)
        = Some (amountSpent / distanceTraveled)%float
        \/ (amountSpent = infinity /\ distanceTraveled = infinity
            /\ sql_real (amountSpent / distanceTraveled) = None)).
Proof.
  intros Hreach. pose proof (reachable_invariant Hreach) as Hinv.
  assert (Hrows : forall row, In row (refills db) ->
            positive_number (RefillRow.amount_spent row) = true
            /\ positive_number (RefillRow.distance_traveled row) = true
            /\ RefillRow.efficiency row
               = sql_real (RefillRow.amount_spent row
                           / RefillRow.distance_traveled row)).
  { destruct Hinv as [_ [[_ Hr] _]]. rewrite Forall_forall in Hr.
    intros row Hin.
    now destruct (Hr row Hin) as (_ & _ & Ha & Hd & He & _). }
  split; [exact Hrows|]. split; [|split; [|split; [|split]]].
  - intros id e. unfold getRefillById.
    destruct (select_by_id RefillRow.id (refills db) id) as [row|] eqn:Hsel;
      [|discriminate].
    intros [= <-]. apply select_by_id_some in Hsel. simpl.
    now apply Hrows.
  - intros e. unfold getRefills. rewrite in_map_iff.
    intros [row [<- Hin]]. simpl. apply Hrows.
    eapply Permutation_in; [apply order_by_perm | exact Hin].
  - intros now refill H1 H2 H3 H4.
    rewrite (@createRefill_ok invalid_date db clock now refill Hinv H1 H2 H3 H4
               _ eq_refl).
    eexists. split; [reflexivity|]. cbn [fst snd]. split; [|now simpl].
    unfold getRefillById. cbn [with_refills refills mapRowToRefill Refill.id
                               RefillRow.id].
    rewrite (select_by_id_fresh RefillRow.id); [reflexivity|].
    destruct Hinv as [_ [[Hr _] _]].
    apply ids_ok_below with (seq := refills_seq db); [exact Hr | simpl; lia].
  - intros now id updates existing Hget H1 H2 H3.
    unfold getRefillById in Hget.
    destruct (select_by_id RefillRow.id (refills db) id) as [row|] eqn:Hsel;
      [|discriminate].
    injection Hget as <-.
    rewrite (@updateRefill_ok invalid_date db clock now id updates row Hinv Hsel
               H1 H2 H3 _ eq_refl).
    eexists. split; [reflexivity|]. cbn [fst snd]. split.
    + unfold getRefillById. cbn [with_refills refills].
      rewrite select_by_id_update by reflexivity. now rewrite Hsel.
    + simpl. destruct (RefillPatch.amountSpent updates),
        (RefillPatch.distanceTraveled updates); repeat split; reflexivity.
  - intros a d Ha Hd. unfold sql_real.
    destruct (is_nan (a / d)) eqn:Hn; [right | now left].
    destruct (quotient_nan Ha Hd Hn) as [-> ->]. repeat split.
Qed.

Lemma str_or_null_or_keep_text (v old : option string) :
  str_or_null (or_keep_text v old) = or_keep_text v (str_or_null old).
Proof.
  destruct v as [s|]; [|reflexivity]. simpl.
  destruct (str_falsy s) eqn:E; simpl; [reflexivity | now rewrite E].
Qed.

Lemma updateExpense_frame (db : Database) (clock now : timestamp) (id : Z)
      (updates : ExpensePatch.t) (before : Expense.t) :
  reachable invalid_date db clock -> (clock <= now)%Z ->
  getExpenseById db id = Some before ->
  positive_if_present (ExpensePatch.amount updates) = true ->
  present invalid_date (ExpensePatch.date updates) = false ->
  present (fun s => String.eqb (trim s) EmptyString)
          (ExpensePatch.type updates) = false ->
  snd (updateExpense invalid_date db now id updates)
  = Ok (expense_patched updates now before)
  /\ getExpenseById (fst (updateExpense invalid_date db now id updates)) id
     = Some (expense_patched updates now before)
  /\ (Expense.createdAt before <= Expense.updatedAt before <= now)%Z
  /\ (forall j, j <> id ->
        getExpenseById (fst (updateExpense invalid_date db now id updates)) j
        = getExpenseById db j)
  /\ refills (fst (updateExpense invalid_date db now id updates)) = refills db
  /\ trips (fst (updateExpense invalid_date db now id updates)) = trips db.
Proof.
  intros Hreach Hle Hget H1 H2 H3.
  pose proof (reachable_invariant Hreach) as [[_ Hok] _].
  unfold getExpenseById in Hget.
  destruct (select_by_id ExpenseRow.id (expenses db) id) as [row|] eqn:Hsel;
    [|discriminate].
  injection Hget as <-.
  rewrite (@updateExpense_ok invalid_date db now id updates row Hsel H1 H2 H3).
  destruct (select_by_id_some _ _ _ Hsel) as [Hin _].
  rewrite Forall_forall in Hok. destruct (Hok row Hin) as [Hc Hu].
  assert (E : mapRowToExpense (set_expense updates now row)
              = expense_patched updates now (mapRowToExpense row)).
  { unfold mapRowToExpense, set_expense, expense_patched; simpl.
    now rewrite str_or_null_or_keep_text. }
  rewrite E. cbn [fst snd]. repeat split; try (simpl; lia).
  - unfold getExpenseById. cbn [with_expenses expenses].
    rewrite select_by_id_update by reflexivity. rewrite Hsel. simpl.
    now rewrite E.
  - intros j Hj. unfold getExpenseById. cbn [with_expenses expenses].
    rewrite select_by_id_update_other by (auto; reflexivity). reflexivity.
Qed.

Lemma updateTrip_frame (db : Database) (clock now : timestamp) (id : Z)
      (updates : TripPatch.t) (before : Trip.t) :
  reachable invalid_date db clock -> (clock <= now)%Z ->
  getTripById db id = Some before ->
  positive_if_present (TripPatch.distance updates) = true ->
  present invalid_date (TripPatch.date updates) = false ->
  snd (updateTrip invalid_date db now id updates)
  = Ok (trip_patched updates now before)
  /\ getTripById (fst (updateTrip invalid_date db now id updates)) id
     = Some (trip_patched updates now before)
  /\ (Trip.createdAt before <= Trip.updatedAt before <= now)%Z
  /\ (forall j, j <> id ->
        getTripById (fst (updateTrip invalid_date db now id updates)) j
        = getTripById db j)
  /\ expenses (fst (updateTrip invalid_date db now id updates)) = expenses db
  /\ refills (fst (updateTrip invalid_date db now id updates)) = refills db.
Proof.
  intros Hreach Hle Hget H1 H2.
  pose proof (reachable_invariant Hreach) as [_ [_ [_ Hok]]].
  unfold getTripById in Hget.
  destruct (select_by_id TripRow.id (trips db) id) as [row|] eqn:Hsel;
    [|discriminate].
  injection Hget as <-.
  rewrite (@updateTrip_ok invalid_date db now id updates row Hsel H1 H2).
  destruct (select_by_id_some _ _ _ Hsel) as [Hin _].
  rewrite Forall_forall in Hok. destruct (Hok row Hin) as [Hc Hu].
  assert (E : mapRowToTrip (set_trip updates now row)
              = trip_patched updates now (mapRowToTrip row)).
  { unfold mapRowToTrip, set_trip, trip_patched; simpl.
    now rewrite !str_or_null_or_keep_text. }
  rewrite E. cbn [fst snd]. repeat split; try (simpl; lia).
  - unfold getTripById. cbn [with_trips trips].
    rewrite select_by_id_update by reflexivity. rewrite Hsel. simpl.
    now rewrite E.
  - intros j Hj. unfold getTripById. cbn [with_trips trips].
    rewrite select_by_id_update_other by (auto; reflexivity). reflexivity.
Qed.

Lemma updateRefill_frame (db : Database) (clock now : timestamp) (id : Z)
      (updates : RefillPatch.t) (before : Refill.t) :
  reachable invalid_date db clock -> (clock <= now)%Z ->
  getRefillById db id = Some before ->
  positive_if_present (RefillPatch.amountSpent updates) = true ->
  positive_if_present (RefillPatch.distanceTraveled updates) = true ->
  present invalid_date (RefillPatch.date updates) = false ->
  snd (updateRefill invalid_date db now id updates)
  = Ok (refill_patched updates now before)
  /\ getRefillById (fst (updateRefill invalid_date db now id updates)) id
     = Some (refill_patched updates now before)
  /\ (Refill.createdAt before <= Refill.updatedAt before <= now)%Z
  /\ Refill.efficiency before
     = sql_real (Refill.amountSpent before / Refill.distanceTraveled before)
  /\ (forall j, j <> id ->
        getRefillById (fst (updateRefill invalid_date db now id updates)) j
        = getRefillById db j)
  /\ expenses (fst (updateRefill invalid_date db now id updates))
     = expenses db
  /\ trips (fst (updateRefill invalid_date db now id updates)) = trips db.
Proof.
  intros Hreach Hle Hget H1 H2 H3.
  pose proof (reachable_invariant Hreach) as Hinv.
  pose proof Hinv as [_ [[_ Hok] _]].
  unfold getRefillById in Hget.
  destruct (select_by_id RefillRow.id (refills db) id) as [row|] eqn:Hsel;
    [|discriminate].
  injection Hget as <-.
  rewrite (@updateRefill_ok invalid_date db clock now id updates row Hinv Hsel
             H1 H2 H3 _ eq_refl).
  destruct (select_by_id_some _ _ _ Hsel) as [Hin _].
  rewrite Forall_forall in Hok.
  destruct (Hok row Hin) as (Hc & Hu & _ & _ & He & _).
  match goal with
  | |- context [mapRowToRefill (set_refill updates ?e now row)] =>
      assert (E : mapRowToRefill (set_refill updates e now row)
                  = refill_patched updates now (mapRowToRefill row))
  end.
  { unfold mapRowToRefill, set_refill, refill_patched; simpl.
    now rewrite str_or_null_or_keep_text. }
  rewrite E. cbn [fst snd]. repeat split; try (simpl; lia).
  - unfold getRefillById. cbn [with_refills refills].
    rewrite select_by_id_update by reflexivity. rewrite Hsel. simpl.
    now rewrite E.
  - exact He.
  - intros j Hj. unfold getRefillById. cbn [with_refills refills].
    rewrite select_by_id_update_other by (auto; reflexivity). reflexivity.
Qed.

(** C7. Frame of update, for expenses, refills and trips.  In a store
    that the services produced, with a clock that does not run backwards,
    an update of an existing entity by a patch that passes its checks
    returns and stores the entity expected by the specification
    ([expense_patched], [refill_patched], [trip_patched]): [createdAt] as
    before, every field left out of the patch as before, the efficiency of
    a refill the quotient of its effective amount and distance as the
    store keeps it,
    [updatedAt] the time of the call, which is not earlier than the former
    [updatedAt] and [createdAt].  The other rows and the other tables are
    not touched.  With the empty patch only [updatedAt] changes. *)
Theorem update_frame (db : Database) (clock now : timestamp) :
  reachable invalid_date db clock -> (clock <= now)%Z ->
  (forall id updates before,
      getExpenseById db id = Some before ->
      positive_if_present (ExpensePatch.amount updates) = true ->
      present invalid_date (ExpensePatch.date updates) = false ->
      present (fun s => String.eqb (trim s) EmptyString)
              (ExpensePatch.type updates) = false ->
      let result := updateExpense invalid_date db now id updates in
      let after := expense_patched updates now before in
      snd result = Ok after
      /\ getExpenseById (fst result) id = Some after
      /\ Expense.createdAt after = Expense.createdAt before
      /\ Expense.updatedAt after = now
      /\ (Expense.updatedAt before <= Expense.updatedAt after)%Z
      /\ (Expense.createdAt before <= Expense.updatedAt after)%Z
      /\ (forall j, j <> id ->
            getExpenseById (fst result) j = getExpenseById db j)
      /\ refills (fst result) = refills db
      /\ trips (fst result) = trips db)
  /\ (forall id before,
        getExpenseById db id = Some before ->
        snd (updateExpense invalid_date db now id ExpensePatch.empty)
        = Ok (Expense.mk (Expense.id before) (Expense.type before)
                (Expense.amount before) (Expense.date before)
                (Expense.description before) (Expense.createdAt before) now))
  /\ (forall id updates before,
        getRefillById db id = Some before ->
        positive_if_present (RefillPatch.amountSpent updates) = true ->
        positive_if_present (RefillPatch.distanceTraveled updates)
        = true ->
        present invalid_date (RefillPatch.date updates) = false ->
        let result := updateRefill invalid_date db now id updates in
        let after := refill_patched updates now before in
        snd result = Ok after
        /\ getRefillById (fst result) id = Some after
        /\ Refill.createdAt after = Refill.createdAt before
        /\ Refill.efficiency after
           = sql_real (Refill.amountSpent after
                       / Refill.distanceTraveled after)
        /\ Refill.updatedAt after = now
        /\ (Refill.updatedAt before <= Refill.updatedAt after)%Z
        /\ (Refill.createdAt before <= Refill.updatedAt after)%Z
        /\ (forall j, j <> id ->
              getRefillById (fst result) j = getRefillById db j)
        /\ expenses (fst result) = expenses db
        /\ trips (fst result) = trips db)
  /\ (forall id before,
        getRefillById db id = Some before ->
        snd (updateRefill invalid_date db now id RefillPatch.empty)
        = Ok (Refill.mk (Refill.id before) (Refill.amountSpent before)
                (Refill.distanceTraveled before) (Refill.liters before)
                (Refill.date before) (Refill.notes before)
                (Refill.efficiency before) (Refill.createdAt before) now))
  /\ (forall id updates before,
        getTripById db id = Some before ->
        positive_if_present (TripPatch.distance updates) = true ->
        present invalid_date (TripPatch.date updates) = false ->
        let result := updateTrip invalid_date db now id updates in
        let after := trip_patched updates now before in
        snd result = Ok after
        /\ getTripById (fst result) id = Some after
        /\ Trip.createdAt after = Trip.createdAt before
        /\ Trip.updatedAt after = now
        /\ (Trip.updatedAt before <= Trip.updatedAt after)%Z
        /\ (Trip.createdAt before <= Trip.updatedAt after)%Z
        /\ (forall j, j <> id -> getTripById (fst result) j = getTripById db j)
        /\ expenses (fst result) = expenses db
        /\ refills (fst result) = refills db)
  /\ (forall id before,
        getTripById db id = Some before ->
        snd (updateTrip invalid_date db now id TripPatch.empty)
        = Ok (Trip.mk (Trip.id before) (Trip.distance before)
                (Trip.date before) (Trip.purpose before) (Trip.notes before)
                (Trip.createdAt before) now)).
Proof.
  intros Hreach Hle. repeat apply conj.
  - intros id updates before Hget H1 H2 H3 result after.
    destruct (@updateExpense_frame db clock now id updates before
                Hreach Hle Hget H1 H2 H3)
      as (R1 & R2 & R3 & R4 & R5 & R6).
    subst result after. repeat split; auto; simpl; lia.
  - intros id before Hget.
    destruct (@updateExpense_frame db clock now id ExpensePatch.empty before
                Hreach Hle Hget eq_refl eq_refl eq_refl) as (R1 & _).
    exact R1.
  - intros id updates before Hget H1 H2 H3 result after.
    destruct (@updateRefill_frame db clock now id updates before
                Hreach Hle Hget H1 H2 H3)
      as (R1 & R2 & R3 & R4 & R5 & R6 & R7).
    subst result after. repeat split; auto; simpl; lia.
  - intros id before Hget.
    destruct (@updateRefill_frame db clock now id RefillPatch.empty before
                Hreach Hle Hget eq_refl eq_refl eq_refl) as (R1 & _ & _ & R4 & _).
    rewrite R1. unfold refill_patched. simpl. now rewrite R4.
  - intros id updates before Hget H1 H2 result after.
    destruct (@updateTrip_frame db clock now id updates before
                Hreach Hle Hget H1 H2)
      as (R1 & R2 & R3 & R4 & R5 & R6).
    subst result after. repeat split; auto; simpl; lia.
  - intros id before Hget.
    destruct (@updateTrip_frame db clock now id TripPatch.empty before
                Hreach Hle Hget eq_refl eq_refl) as (R1 & _).
    exact R1.
Qed.


(** C6, as the code has it.  An update that supplies an optional text
    field (description of an expense, purpose or notes of a trip, notes of
    a refill) as the empty string clears the field: NULL is stored and the
    entity read back has the field absent, which is also what create makes
    of an empty string.  A patch that leaves the field out keeps the stored
    text. *)
Theorem empty_text_update_clears (db : Database) (clock : timestamp) :
  reachable invalid_date db clock ->
  (forall now id updates before,
      getExpenseById db id = Some before ->
      positive_if_present (ExpensePatch.amount updates) = true ->
      present invalid_date (ExpensePatch.date updates) = false ->
      present (fun s => String.eqb (trim s) EmptyString)
              (ExpensePatch.type updates) = false ->
      let result := updateExpense invalid_date db now id updates in
      exists after row,
        snd result = Ok after
        /\ getExpenseById (fst result) id = Some after
        /\ select_by_id ExpenseRow.id (expenses (fst result)) id = Some row
        /\ (ExpensePatch.description updates = Some EmptyString ->
            Expense.description after = None
            /\ ExpenseRow.description row = None)
        /\ (ExpensePatch.description updates = None ->
            Expense.description after = Expense.description before))
  /\ (forall now id updates before,
        getTripById db id = Some before ->
        positive_if_present (TripPatch.distance updates) = true ->
        present invalid_date (TripPatch.date updates) = false ->
        let result := updateTrip invalid_date db now id updates in
        exists after row,
          snd result = Ok after
          /\ getTripById (fst result) id = Some after
          /\ select_by_id TripRow.id (trips (fst result)) id = Some row
          /\ (TripPatch.purpose updates = Some EmptyString ->
              Trip.purpose after = None /\ TripRow.purpose row = None)
          /\ (TripPatch.purpose updates = None ->
              Trip.purpose after = Trip.purpose before)
          /\ (TripPatch.notes updates = Some EmptyString ->
              Trip.notes after = None /\ TripRow.notes row = None)
          /\ (TripPatch.notes updates = None ->
              Trip.notes after = Trip.notes before))
  /\ (forall now id updates before,
        getRefillById db id = Some before ->
        positive_if_present (RefillPatch.amountSpent updates) = true ->
        positive_if_present (RefillPatch.distanceTraveled updates)
        = true ->
        present invalid_date (RefillPatch.date updates) = false ->
        let result := updateRefill invalid_date db now id updates in
        exists after row,
          snd result = Ok after
          /\ getRefillById (fst result) id = Some after
          /\ select_by_id RefillRow.id (refills (fst result)) id = Some row
          /\ (RefillPatch.notes updates = Some EmptyString ->
              Refill.notes after = None /\ RefillRow.notes row = None)
          /\ (RefillPatch.notes updates = None ->
              Refill.notes after = Refill.notes before))
  /\ (forall now type amount date,
        createExpense invalid_date db now
          (ExpenseInput.mk type amount date (Some EmptyString))
        = createExpense invalid_date db now
            (ExpenseInput.mk type amount date None))
  /\ (forall now distance date,
        createTrip invalid_date db now
          (TripInput.mk distance date (Some EmptyString) (Some EmptyString))
        = createTrip invalid_date db now
            (TripInput.mk distance date None None))
  /\ (forall now amount distance liters date,
        createRefill invalid_date db now
          (RefillInput.mk amount distance liters date (Some EmptyString))
        = createRefill invalid_date db now
            (RefillInput.mk amount distance liters date None)).
Proof.
  intros Hreach. pose proof (reachable_invariant Hreach) as Hinv.
  repeat apply conj; try reflexivity.
  - intros now id updates before Hget H1 H2 H3 result. subst result.
    unfold getExpenseById in Hget.
    destruct (select_by_id ExpenseRow.id (expenses db) id) as [row|] eqn:Hsel;
      [|discriminate].
    injection Hget as <-.
    rewrite (@updateExpense_ok invalid_date db now id updates row Hsel H1 H2 H3).
    cbn [fst snd]. unfold getExpenseById. cbn [with_expenses expenses].
    rewrite select_by_id_update by reflexivity. rewrite Hsel. simpl option_map.
    do 2 eexists. repeat apply conj; try reflexivity; intros E; simpl;
      rewrite E; try split; reflexivity.
  - intros now id updates before Hget H1 H2 result. subst result.
    unfold getTripById in Hget.
    destruct (select_by_id TripRow.id (trips db) id) as [row|] eqn:Hsel;
      [|discriminate].
    injection Hget as <-.
    rewrite (@updateTrip_ok invalid_date db now id updates row Hsel H1 H2).
    cbn [fst snd]. unfold getTripById. cbn [with_trips trips].
    rewrite select_by_id_update by reflexivity. rewrite Hsel. simpl option_map.
    do 2 eexists. repeat apply conj; try reflexivity; intros E; simpl;
      rewrite E; try split; reflexivity.
  - intros now id updates before Hget H1 H2 H3 result. subst result.
    unfold getRefillById in Hget.
    destruct (select_by_id RefillRow.id (refills db) id) as [row|] eqn:Hsel;
      [|discriminate].
    injection Hget as <-.
    rewrite (@updateRefill_ok invalid_date db clock now id updates row Hinv
               Hsel H1 H2 H3 _ eq_refl).
    cbn [fst snd]. unfold getRefillById. cbn [with_refills refills].
    rewrite select_by_id_update by reflexivity. rewrite Hsel. simpl option_map.
    do 2 eexists. repeat apply conj; try reflexivity; intros E; simpl;
      rewrite E; try split; reflexivity.
Qed.

Lemma refill_liters_never_stored (db : Database) (clock : timestamp) :
  reachable invalid_date db clock ->
  Forall (fun row => RefillRow.liters row = None) (refills db)
  /\ Forall (fun e => Refill.liters e = None) (getRefills db).
Proof.
  intros Hreach. destruct (reachable_invariant Hreach) as [_ [[_ Hr] _]].
  split.
  - eapply Forall_impl; [|exact Hr]. intros a Ha. apply Ha.
  - unfold getRefills. apply Forall_map. apply Forall_forall. reflexivity.
Qed.

End LedgerProperties.

(** ** The session mechanism *)

Lemma str_falsy_true (s : string) : str_falsy s = true <-> s = EmptyString.
Proof. unfold str_falsy. apply String.eqb_eq. Qed.

Lemma str_falsy_false (s : string) : str_falsy s = false <-> s <> EmptyString.
Proof. unfold str_falsy. apply String.eqb_neq. Qed.

(** C3. [validateSession] answers [true] exactly for a token whose
    signature verifies against the configured signing secret, that has not
    expired and whose payload has [authenticated === true]; for every other
    token and configuration it answers [false].  It never throws: its
    result is always a boolean. *)
Theorem validateSession_true_iff (env : Env) (now : timestamp) (tok : token) :
  let accepted :=
    exists secret payload,
      JWT_SECRET env = Some secret /\ secret <> EmptyString
      /\ tok = Signed payload secret
      /\ (forall e, JwtPayload.exp payload = Some e ->
                    (clock_seconds now < e)%Z)
      /\ JwtPayload.authenticated payload = JBool true in
  (validateSession env now tok = Ok true <-> accepted)
  /\ (validateSession env now tok = Ok false <-> ~ accepted)
  /\ (exists b, validateSession env now tok = Ok b).
Proof.
  intros accepted.
  assert (Hdec : (validateSession env now tok = Ok true /\ accepted)
                 \/ (validateSession env now tok = Ok false /\ ~ accepted)).
  { unfold accepted, validateSession, getJwtSecret, try_catch, bind, jwt_verify.
    destruct (JWT_SECRET env) as [secret|];
      [|right; split; [reflexivity|];
        intros (s & p & A & _); discriminate].
    destruct (str_falsy secret) eqn:Hfalsy.
    { right. split; [reflexivity|]. intros (s & p & A & B & _).
      injection A as <-. now apply str_falsy_true in Hfalsy. }
    apply str_falsy_false in Hfalsy.
    destruct tok as [raw|payload key];
      [right; split; [reflexivity|];
       intros (s & p & _ & _ & C & _); discriminate|].
    destruct (String.eqb_spec key secret) as [->|Hkey].
    2:{ right. split; [reflexivity|]. intros (s & p & A & _ & C & _).
        injection A as <-. injection C as _ E. contradiction. }
    destruct (JwtPayload.exp payload) as [e|] eqn:Hexp.
    - destruct (Z.leb_spec e (clock_seconds now)) as [Hle|Hlt].
      + right. split; [reflexivity|]. intros (s & p & _ & _ & C & D & _).
        injection C as <- _. specialize (D e Hexp). lia.
      + destruct (JwtPayload.authenticated payload) as [|[|]| |] eqn:Hauth;
          simpl;
          try (right; split; [reflexivity|];
               intros (sk & pl & _ & _ & C & _ & E);
               injection C as <- _; congruence).
        left. split; [reflexivity|]. exists secret, payload.
        repeat split; auto. intros e' He'. rewrite Hexp in He'.
        injection He' as <-. exact Hlt.
    - destruct (JwtPayload.authenticated payload) as [|[|]| |] eqn:Hauth;
        simpl;
        try (right; split; [reflexivity|];
             intros (sk & pl & _ & _ & C & _ & E);
             injection C as <- _; congruence).
      left. split; [reflexivity|]. exists secret, payload.
      repeat split; auto. intros e' He'. rewrite Hexp in He'.
      discriminate. }
  destruct Hdec as [[Hv Ha]|[Hv Ha]]; rewrite Hv; repeat split;
    try (intros; assumption); try discriminate; try (now eexists).
  - intros Hacc. contradiction.
  - intros Hacc. contradiction.
Qed.

Lemma env_missing_cases (v : option string) :
  env_missing v = true -> v = None \/ v = Some EmptyString.
Proof.
  destruct v as [s|]; simpl; [|now left].
  intros H. apply str_falsy_true in H. subst. now right.
Qed.

(** C10. When the signing secret is not configured, [getJwtSecret] throws,
    and [validateSession] turns that into the answer [false] for every
    token: the same answer as for a malformed token under a configured
    secret, so the caller cannot tell the misconfiguration from a bad
    token.  [createSession] lets the same error through. *)
Theorem validateSession_hides_missing_secret (env : Env) :
  env_missing (JWT_SECRET env) = true ->
  getJwtSecret env = Throw (Error msg_no_jwt_secret)
  /\ (forall now tok, validateSession env now tok = Ok false)
  /\ (forall configured now raw,
        validateSession configured now (Malformed raw) = Ok false)
  /\ (forall ms now,
        createSession ms env now = Throw (Error msg_no_jwt_secret)).
Proof.
  intros Hmissing.
  assert (Hsecret : getJwtSecret env = Throw (Error msg_no_jwt_secret)).
  { unfold getJwtSecret.
    destruct (env_missing_cases _ Hmissing) as [-> | ->]; reflexivity. }
  repeat split.
  - exact Hsecret.
  - intros now tok. unfold validateSession. now rewrite Hsecret.
  - intros configured now raw. unfold validateSession.
    destruct (getJwtSecret configured); reflexivity.
  - intros ms now. unfold createSession. now rewrite Hsecret.
Qed.

(** C9. [verifyPassword] without a configured reference secret throws a
    configuration error, which is not the answer [false] given to a wrong
    password: the login route answers 500 to the first and 401 to the
    second.  With a configured secret the answer is the exact equality of
    the candidate and the secret.  The function reads the configuration
    and writes nothing. *)
Theorem verifyPassword_spec (env : Env) (candidate : string) :
  (env_missing (APP_PASSWORD env) = true ->
   verifyPassword env candidate = Throw (Error msg_no_app_password)
   /\ verifyPassword env candidate <> Ok false
   /\ (candidate <> EmptyString ->
       forall ms now,
         LoginResponse.status (POST_login ms env now (Some candidate))
         = 500%Z))
  /\ (forall configured,
        APP_PASSWORD env = Some configured -> configured <> EmptyString ->
        verifyPassword env candidate = Ok (String.eqb candidate configured)
        /\ (verifyPassword env candidate = Ok true <-> candidate = configured)
        /\ (verifyPassword env candidate = Ok false
            <-> candidate <> configured)
        /\ (candidate <> EmptyString -> candidate <> configured ->
            forall ms now,
              LoginResponse.status (POST_login ms env now (Some candidate))
              = 401%Z)).
Proof.
  split.
  - intros Hmissing.
    assert (Hthrow : verifyPassword env candidate
                     = Throw (Error msg_no_app_password)).
    { unfold verifyPassword.
      destruct (env_missing_cases _ Hmissing) as [-> | ->]; reflexivity. }
    repeat split.
    + exact Hthrow.
    + rewrite Hthrow. discriminate.
    + intros Hcand ms now. unfold POST_login.
      apply str_falsy_false in Hcand. now rewrite Hcand, Hthrow.
  - intros configured Hconf Hne.
    assert (Hok : verifyPassword env candidate
                  = Ok (String.eqb candidate configured)).
    { unfold verifyPassword. rewrite Hconf.
      apply str_falsy_false in Hne. now rewrite Hne. }
    rewrite Hok. repeat split.
    + intros [= E]. now apply String.eqb_eq.
    + intros ->. now rewrite String.eqb_refl.
    + intros [= E]. now apply String.eqb_neq.
    + intros E. apply String.eqb_neq in E. now rewrite E.
    + intros Hcand Hwrong ms now. unfold POST_login.
      apply str_falsy_false in Hcand. rewrite Hcand, Hok.
      apply String.eqb_neq in Hwrong. now rewrite Hwrong.
Qed.

(** ** Worked examples *)

(** The scenario of the specification for the mileage series. *)
Example getMileageOverTime_scenario :
  getMileageOverTime scenario_db
  = [MileagePoint.mk "2024-01-10" 10; MileagePoint.mk "2024-01-15" 55.5].
Proof. vm_compute. reflexivity. Qed.



(** C1 at a concrete input.  A refill created with amount and distance
    both Infinity passes the checks; its quotient is NaN, the row holds
    NULL in the column efficiency, and the refill returned has no
    efficiency, so not the quotient of its amount and its distance. *)
Lemma refill_efficiency_absent :
  positive_number (RefillInput.amountSpent infinite_refill) = true
  /\ positive_number (RefillInput.distanceTraveled infinite_refill) = true
  /\ (exists created,
        snd (createRefill rejects_non_iso empty_database 100%Z infinite_refill)
        = Ok created
        /\ Refill.amountSpent created = infinity
        /\ Refill.distanceTraveled created = infinity
        /\ Refill.efficiency created = None
        /\ Refill.efficiency created
           <> Some (Refill.amountSpent created
                    / Refill.distanceTraveled created)%float)
  /\ map RefillRow.efficiency
       (refills
          (fst (createRefill rejects_non_iso empty_database 100%Z
                  infinite_refill)))
     = [None].
Proof.
  split; [reflexivity|]. split; [reflexivity|]. split; [|reflexivity].
  eexists. split; [reflexivity|]. repeat split. discriminate.
Qed.

Lemma refill_efficiency_invariant_witness :
  reachable rejects_non_iso sample_db 400%Z
  /\ getRefillById sample_db 1%Z = Some sample_refill_read
  /\ exists updated,
       snd (updateRefill rejects_non_iso sample_db 500%Z 1%Z amount_70)
       = Ok updated
       /\ getRefillById
            (fst (updateRefill rejects_non_iso sample_db 500%Z 1%Z amount_70))
            1%Z
          = Some updated
       /\ Refill.amountSpent updated = 70%float
       /\ Refill.distanceTraveled updated = 4%float
       /\ Refill.efficiency updated
          = sql_real (Refill.amountSpent updated
                      / Refill.distanceTraveled updated).
Proof.
  split; [exact sample_db_reachable|]. split; [reflexivity|].
  exact (proj1 (proj2 (proj2 (proj2 (proj2
           (@refill_efficiency_invariant rejects_non_iso sample_db 400%Z
              sample_db_reachable)))))
           500%Z 1%Z amount_70 sample_refill_read
           eq_refl eq_refl eq_refl eq_refl).
Defined.

(** The refill of the sample history after its update: 50 spent over the
    corrected distance 4 gives 12.5; then 70 spent over 4 gives 17.5. *)
Example sample_refill_efficiency :
  getRefills sample_db = [sample_refill_read]
  /\ snd (updateRefill rejects_non_iso sample_db 500%Z 1%Z amount_70)
     = Ok (Refill.mk 1%Z 70 4 None "2024-01-10" (Some "First refill"%string)
                     (Some 17.5%float) 100%Z 500%Z).
Proof. split; vm_compute; reflexivity. Qed.

(** C5 at a concrete input: a refill created with liters = 5 comes back
    from [createRefill], [getRefillById] and [getRefills] without liters,
    and its row holds NULL in the column liters. *)
Lemma createRefill_drops_liters :
  RefillInput.liters sample_refill = Some 5%float
  /\ (exists created,
        snd (createRefill rejects_non_iso empty_database 100%Z sample_refill)
        = Ok created
        /\ Refill.liters created = None)
  /\ option_map Refill.liters
       (getRefillById
          (fst (createRefill rejects_non_iso empty_database 100%Z
                  sample_refill)) 1%Z)
     = Some None
  /\ map Refill.liters
       (getRefills
          (fst (createRefill rejects_non_iso empty_database 100%Z
                  sample_refill)))
     = [None]
  /\ map RefillRow.liters
       (refills
          (fst (createRefill rejects_non_iso empty_database 100%Z
                  sample_refill)))
     = [None].
Proof.
  split; [reflexivity|]. split.
  - eexists. split; reflexivity.
  - repeat split; reflexivity.
Qed.

(** C6 at a concrete input: the description "full tank" of an expense is
    updated to the empty string; the entity read back has no description
    and the row holds NULL, not the empty string. *)
Lemma empty_text_update_not_persisted :
  option_map Expense.description (getExpenseById sample_db 1%Z)
  = Some (Some "full tank"%string)
  /\ ExpensePatch.description blank_description = Some EmptyString
  /\ option_map Expense.description
       (getExpenseById
          (fst (updateExpense rejects_non_iso sample_db 500%Z 1%Z
                  blank_description)) 1%Z)
     <> Some (Some EmptyString)
  /\ option_map Expense.description
       (getExpenseById
          (fst (updateExpense rejects_non_iso sample_db 500%Z 1%Z
                  blank_description)) 1%Z)
     = Some None
  /\ map ExpenseRow.description
       (expenses
          (fst (updateExpense rejects_non_iso sample_db 500%Z 1%Z
                  blank_description)))
     = [None].
Proof.
  repeat split; try reflexivity. vm_compute. discriminate.
Qed.

Lemma empty_text_update_clears_witness :
  reachable rejects_non_iso sample_db 400%Z
  /\ exists after row,
      snd (updateExpense rejects_non_iso sample_db 500%Z 1%Z blank_description)
      = Ok after
      /\ getExpenseById
           (fst (updateExpense rejects_non_iso sample_db 500%Z 1%Z
                   blank_description)) 1%Z
         = Some after
      /\ select_by_id ExpenseRow.id
           (expenses
              (fst (updateExpense rejects_non_iso sample_db 500%Z 1%Z
                      blank_description))) 1%Z
         = Some row
      /\ (ExpensePatch.description blank_description = Some EmptyString ->
          Expense.description after = None /\ ExpenseRow.description row = None)
      /\ (ExpensePatch.description blank_description = None ->
          Expense.description after
          = Expense.description
              sample_expense_read).
Proof.
  split; [exact sample_db_reachable|].
  exact (proj1 (@empty_text_update_clears rejects_non_iso sample_db 400%Z
                  sample_db_reachable)
               500%Z 1%Z blank_description
               sample_expense_read
               eq_refl eq_refl eq_refl eq_refl).
Defined.

Lemma update_frame_witness :
  reachable rejects_non_iso sample_db 400%Z /\ (400 <= 500)%Z
  /\ snd (updateTrip rejects_non_iso sample_db 500%Z 1%Z TripPatch.empty)
     = Ok (Trip.mk 1%Z 45.5 "2024-01-15" (Some "commute"%string)
                   (Some "rain"%string) 200%Z 500%Z).
Proof.
  split; [exact sample_db_reachable|].
  split; [discriminate|].
  exact (proj2 (proj2 (proj2 (proj2 (proj2
           (@update_frame rejects_non_iso sample_db 400%Z 500%Z
              sample_db_reachable ltac:(discriminate))))))
           1%Z
           sample_trip_read
           eq_refl).
Defined.

(** Three trips entered out of order, two of them on one date. *)
Example getTrips_out_of_order :
  map (fun t => (Trip.date t, Trip.id t)) (getTrips out_of_order_db)
  = [("2024-01-10"%string, 2); ("2024-01-15"%string, 4);
     ("2024-01-20"%string, 1); ("2024-01-20"%string, 3)]%Z.
Proof. vm_compute. reflexivity. Qed.

(** C8 at a concrete input.  The listing follows the bytes of the stored
    date text, not the dates.  Of two expenses, two refills and two trips
    the first is dated 2024-01-15T23:00:00-05:00 and the second
    2024-01-16T01:00:00Z: each listing has the first before the second,
    although the second is three hours earlier.  Of two expenses of one
    instant, created as 2024-01-15T00:00:00.000Z and then as 2024-01-15,
    the listing has the second before the first. *)
Lemma listing_not_by_date :
  map (fun e => (Expense.id e, Expense.date e, Date_parse (Expense.date e)))
      (getExpenses offsets_db)
  = [(1%Z, "2024-01-15T23:00:00-05:00"%string, Some 1705377600000%Z);
     (2%Z, "2024-01-16T01:00:00Z"%string, Some 1705366800000%Z)]
  /\ map (fun e => (Refill.id e, Refill.date e, Date_parse (Refill.date e)))
         (getRefills offsets_db)
     = [(1%Z, "2024-01-15T23:00:00-05:00"%string, Some 1705377600000%Z);
        (2%Z, "2024-01-16T01:00:00Z"%string, Some 1705366800000%Z)]
  /\ map (fun e => (Trip.id e, Trip.date e, Date_parse (Trip.date e)))
         (getTrips offsets_db)
     = [(1%Z, "2024-01-15T23:00:00-05:00"%string, Some 1705377600000%Z);
        (2%Z, "2024-01-16T01:00:00Z"%string, Some 1705366800000%Z)]
  /\ (1705366800000 < 1705377600000)%Z
  /\ map (fun e => (Expense.id e, Expense.date e, Date_parse (Expense.date e)))
         (getExpenses same_instant_db)
     = [(2%Z, "2024-01-15"%string, Some 1705276800000%Z);
        (1%Z, "2024-01-15T00:00:00.000Z"%string, Some 1705276800000%Z)].
Proof. repeat split; vm_compute; reflexivity. Qed.

Lemma validateSession_true_iff_witness :
  validateSession sample_env 5000%Z (Signed sample_payload "test-secret-key")
  = Ok true.
Proof.
  apply (proj1 (@validateSession_true_iff sample_env 5000%Z
                  (Signed sample_payload "test-secret-key"))).
  exists "test-secret-key"%string, sample_payload.
  repeat split; try reflexivity; try discriminate.
  intros e [= <-]. reflexivity.
Defined.

(** The scenarios of the specification: a token signed with another
    secret, a token one hour past its expiry, a string that is no token. *)
Example validateSession_scenarios :
  validateSession sample_env 5000%Z (Signed sample_payload "other-secret")
  = Ok false
  /\ validateSession sample_env ((86405 + 3600) * 1000)%Z
       (Signed sample_payload "test-secret-key")
     = Ok false
  /\ validateSession sample_env 5000%Z (Malformed "invalid-token") = Ok false
  /\ createSession ms_documented sample_env 5000%Z
     = Ok (Signed sample_payload "test-secret-key").
Proof. repeat split; reflexivity. Qed.

Lemma validateSession_hides_missing_secret_witness :
  env_missing (JWT_SECRET no_secret_env) = true
  /\ validateSession no_secret_env 5000%Z
       (Signed sample_payload "test-secret-key")
     = Ok false.
Proof.
  split; [reflexivity|].
  exact (proj1 (proj2 (@validateSession_hides_missing_secret no_secret_env
                         eq_refl))
               5000%Z (Signed sample_payload "test-secret-key")).
Defined.

Lemma verifyPassword_spec_witness :
  env_missing (APP_PASSWORD no_password_env) = true
  /\ verifyPassword no_password_env "test-password-123"
     = Throw (Error msg_no_app_password)
  /\ verifyPassword sample_env "wrong-password" = Ok false
  /\ verifyPassword sample_env "test-password-123" = Ok true.
Proof.
  split; [reflexivity|]. split; [|split].
  - exact (proj1 (proj1 (@verifyPassword_spec no_password_env
                           "test-password-123") eq_refl)).
  - exact (proj1 (proj2 (@verifyPassword_spec sample_env "wrong-password")
                        "test-password-123"%string eq_refl
                        ltac:(discriminate))).
  - exact (proj1 (proj2 (@verifyPassword_spec sample_env "test-password-123")
                        "test-password-123"%string eq_refl
                        ltac:(discriminate))).
Defined.

(** C4 at a concrete input.  With JWT_EXPIRES_IN = soon, which is not an
    integer with a unit, the duration parser of the token library gives no
    duration and [createSession] throws the error of [jwt.sign]: it
    returns no token, so none that expires 24 hours after its issue, and
    the login answers 500 to the right password.  On the same string
    [parseExpirationToSeconds], which the login route uses for the max-age
    of the cookie, falls back to the 86400 seconds of 24 hours; for the
    absent and for the empty string both use 24h. *)
Lemma createSession_no_fallback :
  JWT_EXPIRES_IN bad_duration_env = Some "soon"%string
  /\ ms_documented "soon" = None
  /\ createSession ms_documented bad_duration_env 5000%Z
     = Throw (Error msg_bad_timespan)
  /\ ~ (exists payload key,
         createSession ms_documented bad_duration_env 5000%Z
         = Ok (Signed payload key)
         /\ JwtPayload.exp payload = Some (JwtPayload.iat payload + 86400)%Z)
  /\ POST_login ms_documented bad_duration_env 5000%Z
                (Some "test-password-123"%string)
     = LoginResponse.mk 500 None None
  /\ parseExpirationToSeconds "soon" = 86400%float
  /\ createSession ms_documented sample_env 5000%Z
     = Ok (Signed (JwtPayload.mk (JBool true) (Some 5000%Z) 5%Z
                                 (Some (5 + 86400)%Z))
                  "test-secret-key")
  /\ getJwtExpiresIn (mkEnv None None None) = "24h"%string
  /\ getJwtExpiresIn (mkEnv None None (Some EmptyString)) = "24h"%string.
Proof.
  repeat split; try reflexivity.
  intros (payload & key & H & _). vm_compute in H. discriminate.
Qed.

(** Cases of the tests of the refill service: the efficiency recomputed
    when only the amount or only the distance changes, the errors for a
    distance of zero, for an unknown id, for a missing and for a malformed
    date. *)
Example refill_service_tests :
  observed (snd (updateRefill rejects_non_iso tested_db 200%Z 1%Z
                   (RefillPatch.mk (Some 70%float) None None None None)))
  = inl (70, 10, Some 7)%float
  /\ observed (snd (updateRefill rejects_non_iso tested_db 200%Z 1%Z
                      (RefillPatch.mk None (Some 5%float) None None None)))
     = inl (50, 5, Some 10)%float
  /\ observed (snd (updateRefill rejects_non_iso tested_db 200%Z 1%Z
                      (RefillPatch.mk None (Some 0%float) None None None)))
     = inr msg_positive_distance
  /\ observed (snd (updateRefill rejects_non_iso tested_db 200%Z 999%Z
                      (RefillPatch.mk (Some 60%float) None None None None)))
     = inr msg_not_found
  /\ observed (snd (createRefill rejects_non_iso empty_database 100%Z
                      (RefillInput.mk 50 10 None EmptyString None)))
     = inr msg_missing_date
  /\ observed (snd (createRefill rejects_non_iso empty_database 100%Z
                      (RefillInput.mk 50 10 None "invalid-date" None)))
     = inr msg_invalid_date
  /\ refills (fst (createRefill rejects_non_iso empty_database 100%Z
                     (RefillInput.mk 50 0 None "2024-01-01" None)))
     = [].
Proof. vm_compute. repeat split; reflexivity. Qed.

(** What [trim] removes: white space of the ASCII range and of the rest of
    Unicode, at both ends and not inside. *)
Example trim_examples :
  trim ("  fuel" ++ utf8 [9]%N) = "fuel"%string
  /\ trim blank_type = EmptyString
  /\ trim (blank_type ++ "road toll" ++ utf8 [227; 128; 128; 10]%N)
     = "road toll"%string
  /\ trim (utf8 [226; 128; 139]%N) = utf8 [226; 128; 139]%N.
Proof. repeat split; vm_compute; reflexivity. Qed.

(** * The rest of the code

    Properties of the functions that the specification does not single
    out: the outcome of create, update and delete, further invariants of
    the store, the session round trip, the login, the numerals, the
    gate of the routes and the middleware. *)

Section MoreTableFacts.
Context {R : Type} (rowid : R -> Z).

Lemma select_by_id_app_old (rows : list R) (r : R) (j : Z) (found : R) :
  select_by_id rowid rows j = Some found ->
  select_by_id rowid (rows ++ [r]) j = Some found.
Proof.
  unfold select_by_id. induction rows as [|x rows IH]; simpl; [discriminate|].
  destruct (rowid x =? j)%Z; auto.
Qed.

Lemma select_by_id_absent (rows : list R) (j : Z) :
  Forall (fun x => (rowid x < j)%Z) rows -> select_by_id rowid rows j = None.
Proof.
  unfold select_by_id. induction 1 as [|x rows Hx _ IH]; simpl; [reflexivity|].
  destruct (Z.eqb_spec (rowid x) j); [lia | exact IH].
Qed.

Lemma select_by_id_in (rows : list R) (seq : Z) (r : R) :
  ids_ok rowid rows seq -> In r rows ->
  select_by_id rowid rows (rowid r) = Some r.
Proof.
  intros [Hs _]. unfold select_by_id.
  induction Hs as [|x rows Hs IH Hx]; simpl; [tauto|].
  intros [-> | Hin].
  - now rewrite Z.eqb_refl.
  - rewrite Forall_forall in Hx. specialize (Hx r Hin).
    destruct (Z.eqb_spec (rowid x) (rowid r)); [lia | auto].
Qed.

Lemma delete_absent (rows : list R) (j : Z) :
  select_by_id rowid rows j = None ->
  delete_by_id rowid rows j = (rows, 0%Z).
Proof.
  intros H. apply select_by_id_none in H. unfold delete_by_id.
  induction H as [|x rows Hx _ IH]; simpl; [reflexivity|].
  destruct (Z.eqb_spec (rowid x) j); [contradiction|]. simpl.
  injection IH as E1 E2. rewrite E1. f_equal.
  assert (Hlen : List.length (filter (fun r => (rowid r =? j)%Z) rows) = 0%nat)
    by lia.
  now rewrite Hlen.
Qed.

Lemma filter_absent (rows : list R) (j : Z) :
  Forall (fun x => rowid x <> j) rows ->
  filter (fun r => negb (rowid r =? j)%Z) rows = rows
  /\ filter (fun r => (rowid r =? j)%Z) rows = [].
Proof.
  induction 1 as [|x rows Hx _ [IH1 IH2]]; simpl; [split; reflexivity|].
  destruct (Z.eqb_spec (rowid x) j); [contradiction|]. simpl.
  now rewrite IH1, IH2.
Qed.

Lemma delete_present (rows : list R) (seq j : Z) (r : R) :
  ids_ok rowid rows seq -> select_by_id rowid rows j = Some r ->
  snd (delete_by_id rowid rows j) = 1%Z
  /\ S (List.length (fst (delete_by_id rowid rows j))) = List.length rows
  /\ Permutation rows (r :: fst (delete_by_id rowid rows j)).
Proof.
  intros [Hs _] Hsel. unfold delete_by_id, select_by_id in *. simpl.
  induction Hs as [|x rows Hs IH Hx]; simpl in *; [discriminate|].
  destruct (Z.eqb_spec (rowid x) j) as [E|N]; simpl.
  - injection Hsel as <-.
    assert (Hrest : Forall (fun y => rowid y <> j) rows).
    { eapply Forall_impl; [|exact Hx]. simpl. intros; lia. }
    destruct (filter_absent Hrest) as [F1 F2]. rewrite F1, F2.
    repeat split; reflexivity.
  - destruct (IH Hsel) as (I1 & I2 & I3). repeat split; auto.
    eapply Permutation_trans; [apply perm_skip; exact I3 | apply perm_swap].
Qed.

Lemma select_after_delete (rows : list R) (i j : Z) :
  select_by_id rowid (fst (delete_by_id rowid rows i)) j
  = if (j =? i)%Z then None else select_by_id rowid rows j.
Proof.
  unfold delete_by_id, select_by_id. simpl.
  induction rows as [|x rows IH]; simpl.
  - now destruct (j =? i)%Z.
  - destruct (Z.eqb_spec (rowid x) i) as [E|N]; simpl.
    + rewrite IH. destruct (Z.eqb_spec j i) as [Ej|Nj]; [reflexivity|].
      destruct (Z.eqb_spec (rowid x) j); [lia | reflexivity].
    + destruct (Z.eqb_spec (rowid x) j) as [Ej|Nj].
      * destruct (Z.eqb_spec j i); [lia | reflexivity].
      * exact IH.
Qed.

End MoreTableFacts.

Lemma str_or_null_idem (v : option string) :
  str_or_null (str_or_null v) = str_or_null v.
Proof.
  destruct v as [t|]; [|reflexivity]. simpl.
  destruct (str_falsy t) eqn:E; simpl; [reflexivity | now rewrite E].
Qed.

Lemma str_or_null_text_ok (v : option string) : text_ok (str_or_null v).
Proof.
  unfold text_ok. destruct v as [t|]; simpl; [|discriminate].
  destruct (str_falsy t) eqn:E; [discriminate|].
  intros [= ->]. discriminate.
Qed.

Section MoreLedgerProperties.
Variable invalid_date : string -> bool.

(** X1. Round trip of [createTrip].  In a store that the services
    produced, a trip that passes the checks is returned with the next
    identity of the table, its optional texts through [|| null], and both
    time stamps equal to the time of the call; [getTripById] on the new
    store gives the same entity back, [getTrips] lists it, one entity more
    than before; the identity was not in use, every trip that could be
    read before reads the same, and the other tables are as they were. *)
Theorem createTrip_round_trip (db : Database) (clock now : timestamp)
        (trip : TripInput.t) :
  reachable invalid_date db clock ->
  positive_number (TripInput.distance trip) = true ->
  str_falsy (TripInput.date trip) = false ->
  invalid_date (TripInput.date trip) = false ->
  let created :=
    Trip.mk (trips_seq db + 1) (TripInput.distance trip) (TripInput.date trip)
            (str_or_null (TripInput.purpose trip))
            (str_or_null (TripInput.notes trip)) now now in
  let db' := fst (createTrip invalid_date db now trip) in
  snd (createTrip invalid_date db now trip) = Ok created
  /\ getTripById db' (Trip.id created) = Some created
  /\ getTripById db (Trip.id created) = None
  /\ In created (getTrips db')
  /\ List.length (getTrips db') = S (List.length (getTrips db))
  /\ (forall j e, getTripById db j = Some e -> getTripById db' j = Some e)
  /\ expenses db' = expenses db
  /\ refills db' = refills db.
Proof.
  intros Hreach H1 H2 H3 created db'.
  pose proof (reachable_invariant Hreach) as Hinv.
  pose proof Hinv as [_ [_ [Hids _]]].
  subst db'.
  rewrite (@createTrip_ok invalid_date db clock now trip Hinv H1 H2 H3
             _ eq_refl).
  cbn [fst snd].
  assert (Hentity :
            mapRowToTrip
              (TripRow.mk (trips_seq db + 1) (TripInput.distance trip)
                 (TripInput.date trip) (str_or_null (TripInput.purpose trip))
                 (str_or_null (TripInput.notes trip)) now now) = created).
  { unfold mapRowToTrip, created; simpl. now rewrite !str_or_null_idem. }
  rewrite Hentity.
  assert (Hbelow : Forall (fun x => (TripRow.id x < trips_seq db + 1)%Z)
                          (trips db)).
  { destruct Hids as [_ Hle]. eapply Forall_impl; [|exact Hle].
    simpl. intros; lia. }
  repeat split.
  - unfold getTripById. cbn [with_trips trips].
    change (Trip.id created) with
      (TripRow.id (TripRow.mk (trips_seq db + 1) (TripInput.distance trip)
                     (TripInput.date trip)
                     (str_or_null (TripInput.purpose trip))
                     (str_or_null (TripInput.notes trip)) now now)).
    rewrite (select_by_id_fresh TripRow.id) by exact Hbelow.
    now rewrite Hentity.
  - unfold getTripById.
    now rewrite (select_by_id_absent TripRow.id (j := Trip.id created) Hbelow).
  - unfold getTrips. cbn [with_trips trips]. rewrite <- Hentity.
    apply in_map. eapply Permutation_in; [symmetry; apply order_by_perm|].
    apply in_or_app. right. now left.
  - unfold getTrips. cbn [with_trips trips].
    rewrite !length_map, !order_by_length, length_app. simpl. lia.
  - intros j e. unfold getTripById. cbn [with_trips trips].
    destruct (select_by_id TripRow.id (trips db) j) as [row|] eqn:Hsel;
      [|discriminate].
    intros [= <-].
    now rewrite (@select_by_id_app_old _ TripRow.id (trips db) _ j row Hsel).
Qed.

(** X2. Round trip of [createExpense], as for trips. *)
Theorem createExpense_round_trip (db : Database) (clock now : timestamp)
        (expense : ExpenseInput.t) :
  reachable invalid_date db clock ->
  str_falsy (ExpenseInput.type expense) = false ->
  String.eqb (trim (ExpenseInput.type expense)) EmptyString = false ->
  positive_number (ExpenseInput.amount expense) = true ->
  str_falsy (ExpenseInput.date expense) = false ->
  invalid_date (ExpenseInput.date expense) = false ->
  let created :=
    Expense.mk (expenses_seq db + 1) (ExpenseInput.type expense)
               (ExpenseInput.amount expense) (ExpenseInput.date expense)
               (str_or_null (ExpenseInput.description expense)) now now in
  let db' := fst (createExpense invalid_date db now expense) in
  snd (createExpense invalid_date db now expense) = Ok created
  /\ getExpenseById db' (Expense.id created) = Some created
  /\ getExpenseById db (Expense.id created) = None
  /\ In created (getExpenses db')
  /\ List.length (getExpenses db') = S (List.length (getExpenses db))
  /\ (forall j e,
        getExpenseById db j = Some e -> getExpenseById db' j = Some e)
  /\ refills db' = refills db
  /\ trips db' = trips db.
Proof.
  intros Hreach H0 H1 H2 H3 H4 created db'.
  pose proof (reachable_invariant Hreach) as Hinv.
  pose proof Hinv as [[Hids _] _].
  subst db'.
  rewrite (@createExpense_ok invalid_date db clock now expense Hinv
             H0 H1 H2 H3 H4 _ eq_refl).
  cbn [fst snd].
  assert (Hentity :
            mapRowToExpense
              (ExpenseRow.mk (expenses_seq db + 1) (ExpenseInput.type expense)
                 (ExpenseInput.amount expense) (ExpenseInput.date expense)
                 (str_or_null (ExpenseInput.description expense)) now now)
            = created).
  { unfold mapRowToExpense, created; simpl. now rewrite !str_or_null_idem. }
  rewrite Hentity.
  assert (Hbelow : Forall (fun x => (ExpenseRow.id x < expenses_seq db + 1)%Z)
                          (expenses db)).
  { destruct Hids as [_ Hle]. eapply Forall_impl; [|exact Hle].
    simpl. intros; lia. }
  repeat split.
  - unfold getExpenseById. cbn [with_expenses expenses].
    change (Expense.id created) with
      (ExpenseRow.id
         (ExpenseRow.mk (expenses_seq db + 1) (ExpenseInput.type expense)
            (ExpenseInput.amount expense) (ExpenseInput.date expense)
            (str_or_null (ExpenseInput.description expense)) now now)).
    rewrite (select_by_id_fresh ExpenseRow.id) by exact Hbelow.
    now rewrite Hentity.
  - unfold getExpenseById.
    now rewrite (select_by_id_absent ExpenseRow.id (j := Expense.id created)
                   Hbelow).
  - unfold getExpenses. cbn [with_expenses expenses]. rewrite <- Hentity.
    apply in_map. eapply Permutation_in; [symmetry; apply order_by_perm|].
    apply in_or_app. right. now left.
  - unfold getExpenses. cbn [with_expenses expenses].
    rewrite !length_map, !order_by_length, length_app. simpl. lia.
  - intros j e. unfold getExpenseById. cbn [with_expenses expenses].
    destruct (select_by_id ExpenseRow.id (expenses db) j) as [row|] eqn:Hsel;
      [|discriminate].
    intros [= <-].
    now rewrite (@select_by_id_app_old _ ExpenseRow.id (expenses db) _ j row Hsel).
Qed.

(** X3. Round trip of [createRefill]: as for trips, with the efficiency
    computed from the input, the quotient of double precision as the store
    keeps it (no efficiency when the quotient is NaN), and without the
    liters of the input. *)
Theorem createRefill_round_trip (db : Database) (clock now : timestamp)
        (refill : RefillInput.t) :
  reachable invalid_date db clock ->
  positive_number (RefillInput.amountSpent refill) = true ->
  positive_number (RefillInput.distanceTraveled refill) = true ->
  str_falsy (RefillInput.date refill) = false ->
  invalid_date (RefillInput.date refill) = false ->
  let created :=
    Refill.mk (refills_seq db + 1) (RefillInput.amountSpent refill)
              (RefillInput.distanceTraveled refill) None
              (RefillInput.date refill)
              (str_or_null (RefillInput.notes refill))
              (sql_real (RefillInput.amountSpent refill
                         / RefillInput.distanceTraveled refill)) now now in
  let db' := fst (createRefill invalid_date db now refill) in
  snd (createRefill invalid_date db now refill) = Ok created
  /\ getRefillById db' (Refill.id created) = Some created
  /\ getRefillById db (Refill.id created) = None
  /\ In created (getRefills db')
  /\ List.length (getRefills db') = S (List.length (getRefills db))
  /\ (forall j e, getRefillById db j = Some e -> getRefillById db' j = Some e)
  /\ expenses db' = expenses db
  /\ trips db' = trips db.
Proof.
  intros Hreach H1 H2 H3 H4 created db'.
  pose proof (reachable_invariant Hreach) as Hinv.
  pose proof Hinv as [_ [[Hids _] _]].
  subst db'.
  rewrite (@createRefill_ok invalid_date db clock now refill Hinv H1 H2 H3 H4
             _ eq_refl).
  cbn [fst snd].
  assert (Hentity :
            mapRowToRefill
              (RefillRow.mk (refills_seq db + 1)
                 (RefillInput.amountSpent refill) None
                 (RefillInput.distanceTraveled refill)
                 (RefillInput.date refill)
                 (str_or_null (RefillInput.notes refill))
                 (sql_real (RefillInput.amountSpent refill
                            / RefillInput.distanceTraveled refill)) now now)
            = created).
  { unfold mapRowToRefill, created; simpl. now rewrite !str_or_null_idem. }
  rewrite Hentity.
  assert (Hbelow : Forall (fun x => (RefillRow.id x < refills_seq db + 1)%Z)
                          (refills db)).
  { destruct Hids as [_ Hle]. eapply Forall_impl; [|exact Hle].
    simpl. intros; lia. }
  repeat split.
  - unfold getRefillById. cbn [with_refills refills].
    change (Refill.id created) with
      (RefillRow.id
         (RefillRow.mk (refills_seq db + 1)
            (RefillInput.amountSpent refill) None
            (RefillInput.distanceTraveled refill)
            (RefillInput.date refill)
            (str_or_null (RefillInput.notes refill))
            (sql_real (RefillInput.amountSpent refill
                       / RefillInput.distanceTraveled refill)) now now)).
    rewrite (select_by_id_fresh RefillRow.id) by exact Hbelow.
    now rewrite Hentity.
  - unfold getRefillById.
    now rewrite (select_by_id_absent RefillRow.id (j := Refill.id created)
                   Hbelow).
  - unfold getRefills. cbn [with_refills refills]. rewrite <- Hentity.
    apply in_map. eapply Permutation_in; [symmetry; apply order_by_perm|].
    apply in_or_app. right. now left.
  - unfold getRefills. cbn [with_refills refills].
    rewrite !length_map, !order_by_length, length_app. simpl. lia.
  - intros j e. unfold getRefillById. cbn [with_refills refills].
    destruct (select_by_id RefillRow.id (refills db) j) as [row|] eqn:Hsel;
      [|discriminate].
    intros [= <-].
    now rewrite (@select_by_id_app_old _ RefillRow.id (refills db) _ j row Hsel).
Qed.

(** X4. Outcome of [createTrip] and of the route that calls it.  In a store
    that the services produced, either the input passes the three checks
    with a distance that is a number, the trip is returned and the route
    answers 201 with it; or it passes them with a distance that is NaN,
    which the store refuses as NULL, and the route answers 500; or the
    first failing check decides the message of the error (distance, then
    missing date, then date format) and the route answers 400 with that
    message.  Nothing is written in the last two cases. *)
Theorem createTrip_outcome (db : Database) (clock now : timestamp)
        (trip : TripInput.t) :
  reachable invalid_date db clock ->
  let r := createTrip invalid_date db now trip in
  let valid :=
    negb (not_positive_number (TripInput.distance trip))
    && negb (str_falsy (TripInput.date trip))
    && negb (invalid_date (TripInput.date trip)) in
  (valid = true /\ is_nan (TripInput.distance trip) = false
   /\ exists e, snd r = Ok e
        /\ create_response "Failed to create trip" (snd r)
           = Response.mk 201%Z (Payload e))
  \/ (valid = true /\ is_nan (TripInput.distance trip) = true /\ fst r = db
      /\ snd r = Throw (not_null_failed "trips.distance")
      /\ create_response "Failed to create trip" (snd r)
         = Response.mk 500%Z (ErrorBody "Failed to create trip"))
  \/ (valid = false /\ fst r = db
      /\ exists m, snd r = Throw (Error m)
           /\ create_response "Failed to create trip" (snd r)
              = Response.mk 400%Z (ErrorBody m)
           /\ m = if not_positive_number (TripInput.distance trip)
                  then msg_positive_distance
                  else if str_falsy (TripInput.date trip)
                       then msg_missing_date else msg_invalid_date).
Proof.
  intros Hreach r valid. subst r valid.
  pose proof (reachable_invariant Hreach) as Hinv.
  destruct (not_positive_number (TripInput.distance trip)) eqn:H1;
    [right; right; unfold createTrip; rewrite H1; simpl;
     split; [reflexivity|]; split; [reflexivity|];
     eexists; repeat split; reflexivity|].
  destruct (str_falsy (TripInput.date trip)) eqn:H2;
    [right; right; unfold createTrip; rewrite H1, H2; simpl;
     split; [reflexivity|]; split; [reflexivity|];
     eexists; repeat split; reflexivity|].
  destruct (invalid_date (TripInput.date trip)) eqn:H3;
    [right; right; unfold createTrip; rewrite H1, H2, H3; simpl;
     split; [reflexivity|]; split; [reflexivity|];
     eexists; repeat split; reflexivity|].
  destruct (is_nan (TripInput.distance trip)) eqn:Hn.
  - right; left. unfold createTrip. rewrite H1, H2, H3, Hn.
    repeat split; reflexivity.
  - left. split; [reflexivity|]. split; [reflexivity|].
    rewrite (@createTrip_ok invalid_date db clock now trip Hinv
               (positive_intro H1 Hn) H2 H3 _ eq_refl).
    eexists. split; reflexivity.
Qed.

(** X5. Outcome of [createExpense] and of the route that calls it: 201
    with the expense when the four checks pass and the amount is a number;
    500 when they pass with an amount that is NaN, which the store refuses
    as NULL; otherwise the message of the first failing check (type,
    amount, missing date, date format) and 400 with that message.  Nothing
    is written unless the answer is 201. *)
Theorem createExpense_outcome (db : Database) (clock now : timestamp)
        (expense : ExpenseInput.t) :
  reachable invalid_date db clock ->
  let r := createExpense invalid_date db now expense in
  let blank :=
    str_falsy (ExpenseInput.type expense)
    || String.eqb (trim (ExpenseInput.type expense)) EmptyString in
  let valid :=
    negb blank
    && negb (not_positive_number (ExpenseInput.amount expense))
    && negb (str_falsy (ExpenseInput.date expense))
    && negb (invalid_date (ExpenseInput.date expense)) in
  (valid = true /\ is_nan (ExpenseInput.amount expense) = false
   /\ exists e, snd r = Ok e
        /\ create_response "Failed to create expense" (snd r)
           = Response.mk 201%Z (Payload e))
  \/ (valid = true /\ is_nan (ExpenseInput.amount expense) = true
      /\ fst r = db
      /\ snd r = Throw (not_null_failed "expenses.amount")
      /\ create_response "Failed to create expense" (snd r)
         = Response.mk 500%Z (ErrorBody "Failed to create expense"))
  \/ (valid = false /\ fst r = db
      /\ exists m, snd r = Throw (Error m)
           /\ create_response "Failed to create expense" (snd r)
              = Response.mk 400%Z (ErrorBody m)
           /\ m = if blank then msg_missing_type
                  else if not_positive_number (ExpenseInput.amount expense)
                       then msg_positive_amount
                       else if str_falsy (ExpenseInput.date expense)
                            then msg_missing_date else msg_invalid_date).
Proof.
  intros Hreach r blank valid. subst r blank valid.
  pose proof (reachable_invariant Hreach) as Hinv.
  destruct (str_falsy (ExpenseInput.type expense)
            || String.eqb (trim (ExpenseInput.type expense)) EmptyString)
    eqn:H0;
    [right; right; unfold createExpense; rewrite H0; simpl;
     split; [reflexivity|]; split; [reflexivity|];
     eexists; repeat split; reflexivity|].
  destruct (not_positive_number (ExpenseInput.amount expense)) eqn:H1;
    [right; right; unfold createExpense; rewrite H0, H1; simpl;
     split; [reflexivity|]; split; [reflexivity|];
     eexists; repeat split; reflexivity|].
  destruct (str_falsy (ExpenseInput.date expense)) eqn:H2;
    [right; right; unfold createExpense; rewrite H0, H1, H2; simpl;
     split; [reflexivity|]; split; [reflexivity|];
     eexists; repeat split; reflexivity|].
  destruct (invalid_date (ExpenseInput.date expense)) eqn:H3;
    [right; right; unfold createExpense; rewrite H0, H1, H2, H3; simpl;
     split; [reflexivity|]; split; [reflexivity|];
     eexists; repeat split; reflexivity|].
  destruct (is_nan (ExpenseInput.amount expense)) eqn:Hn.
  - right; left. unfold createExpense. rewrite H0, H1, H2, H3, Hn.
    repeat split; reflexivity.
  - left. split; [reflexivity|]. split; [reflexivity|].
    apply orb_false_elim in H0. destruct H0 as [H0a H0b].
    rewrite (@createExpense_ok invalid_date db clock now expense Hinv
               H0a H0b (positive_intro H1 Hn) H2 H3 _ eq_refl).
    eexists. split; reflexivity.
Qed.

(** X6. Outcome of [createRefill] and of the route that calls it: 201
    with the refill when the four checks pass and amount and distance are
    numbers; 500 when they pass with an amount or a distance that is NaN,
    which the store refuses as NULL; otherwise the message of the first
    failing check (amount, distance, missing date, date format) and 400
    with that message.  Nothing is written unless the answer is 201.  The
    check of [calculateEfficiency] never fires, the distance being checked
    before. *)
Theorem createRefill_outcome (db : Database) (clock now : timestamp)
        (refill : RefillInput.t) :
  reachable invalid_date db clock ->
  let r := createRefill invalid_date db now refill in
  let valid :=
    negb (not_positive_number (RefillInput.amountSpent refill))
    && negb (not_positive_number (RefillInput.distanceTraveled refill))
    && negb (str_falsy (RefillInput.date refill))
    && negb (invalid_date (RefillInput.date refill)) in
  let not_a_number :=
    is_nan (RefillInput.amountSpent refill)
    || is_nan (RefillInput.distanceTraveled refill) in
  (valid = true /\ not_a_number = false
   /\ exists e, snd r = Ok e
        /\ create_response "Failed to create refill" (snd r)
           = Response.mk 201%Z (Payload e))
  \/ (valid = true /\ not_a_number = true /\ fst r = db
      /\ snd r
         = Throw (not_null_failed
                    (if is_nan (RefillInput.amountSpent refill)
                     then "refills.amount_spent"
                     else "refills.distance_traveled"))
      /\ create_response "Failed to create refill" (snd r)
         = Response.mk 500%Z (ErrorBody "Failed to create refill"))
  \/ (valid = false /\ fst r = db
      /\ exists m, snd r = Throw (Error m)
           /\ create_response "Failed to create refill" (snd r)
              = Response.mk 400%Z (ErrorBody m)
           /\ m = if not_positive_number (RefillInput.amountSpent refill)
                  then msg_positive_amount
                  else if not_positive_number
                            (RefillInput.distanceTraveled refill)
                       then msg_positive_distance
                       else if str_falsy (RefillInput.date refill)
                            then msg_missing_date else msg_invalid_date).
Proof.
  intros Hreach r valid not_a_number. subst r valid not_a_number.
  pose proof (reachable_invariant Hreach) as Hinv.
  destruct (not_positive_number (RefillInput.amountSpent refill)) eqn:H1;
    [right; right; unfold createRefill; rewrite H1; simpl;
     split; [reflexivity|]; split; [reflexivity|];
     eexists; repeat split; reflexivity|].
  destruct (not_positive_number (RefillInput.distanceTraveled refill)) eqn:H2;
    [right; right; unfold createRefill; rewrite H1, H2; simpl;
     split; [reflexivity|]; split; [reflexivity|];
     eexists; repeat split; reflexivity|].
  destruct (str_falsy (RefillInput.date refill)) eqn:H3;
    [right; right; unfold createRefill; rewrite H1, H2, H3; simpl;
     split; [reflexivity|]; split; [reflexivity|];
     eexists; repeat split; reflexivity|].
  destruct (invalid_date (RefillInput.date refill)) eqn:H4;
    [right; right; unfold createRefill; rewrite H1, H2, H3, H4; simpl;
     split; [reflexivity|]; split; [reflexivity|];
     eexists; repeat split; reflexivity|].
  pose proof H2 as G2. unfold not_positive_number in G2.
  destruct (is_nan (RefillInput.amountSpent refill)) eqn:Na;
    [right; left; unfold createRefill, calculateEfficiency;
     rewrite H1, H2, H3, H4, G2, Na; repeat split; reflexivity|].
  destruct (is_nan (RefillInput.distanceTraveled refill)) eqn:Nd;
    [right; left; unfold createRefill, calculateEfficiency;
     rewrite H1, H2, H3, H4, G2, Na, Nd; repeat split; reflexivity|].
  left. split; [reflexivity|]. split; [reflexivity|].
  rewrite (@createRefill_ok invalid_date db clock now refill Hinv
             (positive_intro H1 Na) (positive_intro H2 Nd) H3 H4 _ eq_refl).
  eexists. split; reflexivity.
Qed.

(** X7. Outcome of [updateTrip] and of the route that calls it, for any
    store.  The patch is checked before the trip is looked up: a distance
    that is not positive, then a date that does not parse, give their
    error and the answer 400 even for an id without a row.  A patch that
    passes on an id without a row gives the error Resource not found and
    the answer 404.  A patch that passes with a distance that is NaN, on
    an id with a row, is refused by the store and the answer is 500.  In
    these cases nothing is written.  Otherwise the trip is returned and
    the route answers 200. *)
Theorem updateTrip_outcome (db : Database) (now : timestamp) (id : Z)
        (updates : TripPatch.t) :
  let r := updateTrip invalid_date db now id updates in
  let valid :=
    negb (present not_positive_number (TripPatch.distance updates))
    && negb (present invalid_date (TripPatch.date updates)) in
  let not_a_number := present is_nan (TripPatch.distance updates) in
  (valid = true /\ not_a_number = false
   /\ exists before after,
        getTripById db id = Some before /\ snd r = Ok after
        /\ update_response "Failed to update trip" (snd r)
           = Response.mk 200%Z (Payload after))
  \/ (valid = true /\ getTripById db id = None /\ fst r = db
      /\ snd r = Throw (Error msg_not_found)
      /\ update_response "Failed to update trip" (snd r)
         = Response.mk 404%Z (ErrorBody msg_not_found))
  \/ (valid = true /\ not_a_number = true
      /\ (exists before, getTripById db id = Some before) /\ fst r = db
      /\ snd r = Throw (not_null_failed "trips.distance")
      /\ update_response "Failed to update trip" (snd r)
         = Response.mk 500%Z (ErrorBody "Failed to update trip"))
  \/ (valid = false /\ fst r = db
      /\ exists m, snd r = Throw (Error m)
           /\ update_response "Failed to update trip" (snd r)
              = Response.mk 400%Z (ErrorBody m)
           /\ m = if present not_positive_number (TripPatch.distance updates)
                  then msg_positive_distance else msg_invalid_date).
Proof.
  intros r valid not_a_number. subst r valid not_a_number.
  destruct (present not_positive_number (TripPatch.distance updates)) eqn:H1;
    [right; right; right; unfold updateTrip; rewrite H1; simpl;
     split; [reflexivity|]; split; [reflexivity|];
     eexists; repeat split; reflexivity|].
  destruct (present invalid_date (TripPatch.date updates)) eqn:H2;
    [right; right; right; unfold updateTrip; rewrite H1, H2; simpl;
     split; [reflexivity|]; split; [reflexivity|];
     eexists; repeat split; reflexivity|].
  destruct (getTripById db id) as [before|] eqn:Hget.
  - destruct (present is_nan (TripPatch.distance updates)) eqn:Hn.
    + right; right; left. unfold updateTrip. rewrite H1, H2, Hget, Hn.
      repeat split; try reflexivity. now exists before.
    + left. split; [reflexivity|]. split; [reflexivity|].
      unfold getTripById in Hget.
      destruct (select_by_id TripRow.id (trips db) id) as [row|] eqn:Hsel;
        [|discriminate].
      rewrite (@updateTrip_ok invalid_date db now id updates row Hsel
                 (positive_if_present_intro _ H1 Hn) H2).
      do 2 eexists. repeat split; reflexivity.
  - right; left. unfold updateTrip. rewrite H1, H2, Hget. simpl.
    repeat split; reflexivity.
Qed.

(** X8. Outcome of [updateExpense] and of the route that calls it, for any
    store: the checks of the patch come first (amount, date format, then a
    type that is blank) and give 400, also for an id without a row; a
    patch that passes on an id without a row gives Resource not found and
    404; a patch that passes with an amount that is NaN, on an id with a
    row, is refused by the store and gives 500; in these cases nothing is
    written; otherwise 200 with the expense. *)
Theorem updateExpense_outcome (db : Database) (now : timestamp) (id : Z)
        (updates : ExpensePatch.t) :
  let r := updateExpense invalid_date db now id updates in
  let blank :=
    present (fun s => String.eqb (trim s) EmptyString)
            (ExpensePatch.type updates) in
  let valid :=
    negb (present not_positive_number (ExpensePatch.amount updates))
    && negb (present invalid_date (ExpensePatch.date updates))
    && negb blank in
  let not_a_number := present is_nan (ExpensePatch.amount updates) in
  (valid = true /\ not_a_number = false
   /\ exists before after,
        getExpenseById db id = Some before /\ snd r = Ok after
        /\ update_expense_response (snd r) = Response.mk 200%Z (Payload after))
  \/ (valid = true /\ getExpenseById db id = None /\ fst r = db
      /\ snd r = Throw (Error msg_not_found)
      /\ update_expense_response (snd r)
         = Response.mk 404%Z (ErrorBody msg_not_found))
  \/ (valid = true /\ not_a_number = true
      /\ (exists before, getExpenseById db id = Some before) /\ fst r = db
      /\ snd r = Throw (not_null_failed "expenses.amount")
      /\ update_expense_response (snd r)
         = Response.mk 500%Z (ErrorBody "Failed to update expense"))
  \/ (valid = false /\ fst r = db
      /\ exists m, snd r = Throw (Error m)
           /\ update_expense_response (snd r)
              = Response.mk 400%Z (ErrorBody m)
           /\ m = if present not_positive_number (ExpensePatch.amount updates)
                  then msg_positive_amount
                  else if present invalid_date (ExpensePatch.date updates)
                       then msg_invalid_date else msg_empty_type).
Proof.
  intros r blank valid not_a_number. subst r blank valid not_a_number.
  destruct (present not_positive_number (ExpensePatch.amount updates)) eqn:H1;
    [right; right; right; unfold updateExpense; rewrite H1; simpl;
     split; [reflexivity|]; split; [reflexivity|];
     eexists; repeat split; reflexivity|].
  destruct (present invalid_date (ExpensePatch.date updates)) eqn:H2;
    [right; right; right; unfold updateExpense; rewrite H1, H2; simpl;
     split; [reflexivity|]; split; [reflexivity|];
     eexists; repeat split; reflexivity|].
  destruct (present (fun s => String.eqb (trim s) EmptyString)
                    (ExpensePatch.type updates)) eqn:H3;
    [right; right; right; unfold updateExpense; rewrite H1, H2, H3; simpl;
     split; [reflexivity|]; split; [reflexivity|];
     eexists; repeat split; reflexivity|].
  destruct (getExpenseById db id) as [before|] eqn:Hget.
  - destruct (present is_nan (ExpensePatch.amount updates)) eqn:Hn.
    + right; right; left. unfold updateExpense.
      rewrite H1, H2, H3, Hget, Hn.
      repeat split; try reflexivity. now exists before.
    + left. split; [reflexivity|]. split; [reflexivity|].
      unfold getExpenseById in Hget.
      destruct (select_by_id ExpenseRow.id (expenses db) id) as [row|]
        eqn:Hsel; [|discriminate].
      rewrite (@updateExpense_ok invalid_date db now id updates row Hsel
                 (positive_if_present_intro _ H1 Hn) H2 H3).
      do 2 eexists. repeat split; reflexivity.
  - right; left. unfold updateExpense. rewrite H1, H2, H3, Hget. simpl.
    repeat split; reflexivity.
Qed.

(** X9. Outcome of [updateRefill] and of the route that calls it, in a
    store that the services produced: the checks of the patch come first
    (amount, distance, date format) and give 400, also for an id without a
    row; a patch that passes on an id without a row gives Resource not
    found and 404; a patch that passes with an amount or a distance that
    is NaN, on an id with a row, is refused by the store and gives 500; in
    these cases nothing is written; otherwise 200 with the refill.  The
    check inside [calculateEfficiency] never fires. *)
Theorem updateRefill_outcome (db : Database) (clock now : timestamp) (id : Z)
        (updates : RefillPatch.t) :
  reachable invalid_date db clock ->
  let r := updateRefill invalid_date db now id updates in
  let valid :=
    negb (present not_positive_number (RefillPatch.amountSpent updates))
    && negb (present not_positive_number
                     (RefillPatch.distanceTraveled updates))
    && negb (present invalid_date (RefillPatch.date updates)) in
  let not_a_number :=
    present is_nan (RefillPatch.amountSpent updates)
    || present is_nan (RefillPatch.distanceTraveled updates) in
  (valid = true /\ not_a_number = false
   /\ exists before after,
        getRefillById db id = Some before /\ snd r = Ok after
        /\ update_response "Failed to update refill" (snd r)
           = Response.mk 200%Z (Payload after))
  \/ (valid = true /\ getRefillById db id = None /\ fst r = db
      /\ snd r = Throw (Error msg_not_found)
      /\ update_response "Failed to update refill" (snd r)
         = Response.mk 404%Z (ErrorBody msg_not_found))
  \/ (valid = true /\ not_a_number = true
      /\ (exists before, getRefillById db id = Some before) /\ fst r = db
      /\ snd r
         = Throw (not_null_failed
                    (if present is_nan (RefillPatch.amountSpent updates)
                     then "refills.amount_spent"
                     else "refills.distance_traveled"))
      /\ update_response "Failed to update refill" (snd r)
         = Response.mk 500%Z (ErrorBody "Failed to update refill"))
  \/ (valid = false /\ fst r = db
      /\ exists m, snd r = Throw (Error m)
           /\ update_response "Failed to update refill" (snd r)
              = Response.mk 400%Z (ErrorBody m)
           /\ m = if present not_positive_number
                          (RefillPatch.amountSpent updates)
                  then msg_positive_amount
                  else if present not_positive_number
                                  (RefillPatch.distanceTraveled updates)
                       then msg_positive_distance else msg_invalid_date).
Proof.
  intros Hreach r valid not_a_number. subst r valid not_a_number.
  pose proof (reachable_invariant Hreach) as Hinv.
  destruct (present not_positive_number (RefillPatch.amountSpent updates))
    eqn:H1;
    [right; right; right; unfold updateRefill; rewrite H1; simpl;
     split; [reflexivity|]; split; [reflexivity|];
     eexists; repeat split; reflexivity|].
  destruct (present not_positive_number
                    (RefillPatch.distanceTraveled updates)) eqn:H2;
    [right; right; right; unfold updateRefill; rewrite H1, H2; simpl;
     split; [reflexivity|]; split; [reflexivity|];
     eexists; repeat split; reflexivity|].
  destruct (present invalid_date (RefillPatch.date updates)) eqn:H3;
    [right; right; right; unfold updateRefill; rewrite H1, H2, H3; simpl;
     split; [reflexivity|]; split; [reflexivity|];
     eexists; repeat split; reflexivity|].
  destruct (getRefillById db id) as [before|] eqn:Hget;
    [|right; left; unfold updateRefill; rewrite H1, H2, H3, Hget; simpl;
      repeat split; reflexivity].
  pose proof Hget as Hrow. unfold getRefillById in Hrow.
  destruct (select_by_id RefillRow.id (refills db) id) as [row|] eqn:Hsel;
    [|discriminate].
  injection Hrow as Hbefore.
  assert (Hguard : (or_keep (RefillPatch.distanceTraveled updates)
                            (Refill.distanceTraveled before) <=? 0)%float
                   = false).
  { subst before. cbn [mapRowToRefill Refill.distanceTraveled].
    destruct Hinv as [_ [[_ Hr] _]]. rewrite Forall_forall in Hr.
    destruct (select_by_id_some _ _ _ Hsel) as [Hin _].
    destruct (Hr row Hin) as (_ & _ & _ & Hd & _).
    destruct (RefillPatch.distanceTraveled updates) as [d|]; simpl in *;
      [exact H2 | exact (positive_guard Hd)]. }
  destruct (present is_nan (RefillPatch.amountSpent updates)) eqn:Na;
    [right; right; left; unfold updateRefill, calculateEfficiency;
     rewrite H1, H2, H3, Hget, Hguard, Na;
     repeat split; try reflexivity; now exists before|].
  destruct (present is_nan (RefillPatch.distanceTraveled updates)) eqn:Nd;
    [right; right; left; unfold updateRefill, calculateEfficiency;
     rewrite H1, H2, H3, Hget, Hguard, Na, Nd;
     repeat split; try reflexivity; now exists before|].
  left. split; [reflexivity|]. split; [reflexivity|].
  rewrite (@updateRefill_ok invalid_date db clock now id updates row Hinv
             Hsel (positive_if_present_intro _ H1 Na)
             (positive_if_present_intro _ H2 Nd) H3 _ eq_refl).
  do 2 eexists. repeat split; reflexivity.
Qed.

(** X10. [deleteTrip] in a store that the services produced.  It answers
    [true] exactly when a row has the id; then the listing is one entity
    shorter.  When it answers [false] the store is unchanged.  In both
    cases the id reads as absent afterwards, every other id reads as
    before, a second deletion answers [false], and the sequence of the
    table and the other tables are not touched. *)
Theorem deleteTrip_spec (db : Database) (clock : timestamp) (id : Z) :
  reachable invalid_date db clock ->
  let db' := fst (deleteTrip db id) in
  let deleted := snd (deleteTrip db id) in
  (deleted = true <-> exists e, getTripById db id = Some e)
  /\ (deleted = false -> db' = db)
  /\ (deleted = true ->
      S (List.length (getTrips db')) = List.length (getTrips db))
  /\ getTripById db' id = None
  /\ (forall j, j <> id -> getTripById db' j = getTripById db j)
  /\ snd (deleteTrip db' id) = false
  /\ trips_seq db' = trips_seq db
  /\ expenses db' = expenses db
  /\ refills db' = refills db.
Proof.
  intros Hreach db' deleted.
  pose proof (reachable_invariant Hreach) as Hinv.
  assert (Hids : ids_ok TripRow.id (trips db) (trips_seq db)) by apply Hinv.
  assert (Hafter : forall j,
             select_by_id TripRow.id (trips db') j
             = if (j =? id)%Z then None
               else select_by_id TripRow.id (trips db) j).
  { intros j. subst db'. unfold deleteTrip.
    rewrite (surjective_pairing (delete_by_id TripRow.id (trips db) id)).
    cbn [fst with_trips trips]. apply select_after_delete. }
  assert (Hgone : getTripById db' id = None).
  { unfold getTripById. rewrite Hafter. now rewrite Z.eqb_refl. }
  assert (Hcases :
            (select_by_id TripRow.id (trips db) id = None
             /\ deleted = false /\ db' = db)
            \/ (exists row, select_by_id TripRow.id (trips db) id = Some row
                /\ deleted = true
                /\ S (List.length (getTrips db')) = List.length (getTrips db))).
  { subst db' deleted. unfold deleteTrip.
    destruct (select_by_id TripRow.id (trips db) id) as [row|] eqn:Hsel.
    - right. exists row. split; [reflexivity|].
      destruct (@delete_present _ TripRow.id (trips db) (trips_seq db) id row
                  Hids Hsel) as (D1 & D2 & _).
      rewrite (surjective_pairing (delete_by_id TripRow.id (trips db) id)).
      cbn [fst snd]. rewrite D1. split; [reflexivity|].
      unfold getTrips. cbn [with_trips trips].
      rewrite !length_map, !order_by_length. exact D2.
    - left. split; [reflexivity|].
      rewrite (@delete_absent _ TripRow.id (trips db) id Hsel).
      cbn [fst snd]. split; [reflexivity|]. now destruct db. }
  repeat split.
  - intros Hd. destruct Hcases as [(_ & Hf & _) | (row & Hsel & _)];
      [congruence|].
    exists (mapRowToTrip row). unfold getTripById. now rewrite Hsel.
  - intros [e He]. destruct Hcases as [(Hsel & _) | (_ & _ & Ht & _)];
      [|exact Ht].
    unfold getTripById in He. rewrite Hsel in He. discriminate.
  - intros Hd. destruct Hcases as [(_ & _ & Heq) | (_ & _ & Ht & _)];
      [exact Heq | congruence].
  - intros Hd. destruct Hcases as [(_ & Hf & _) | (_ & _ & _ & Hlen)];
      [congruence | exact Hlen].
  - exact Hgone.
  - intros j Hj. unfold getTripById. rewrite Hafter.
    destruct (Z.eqb_spec j id); [contradiction | reflexivity].
  - unfold getTripById in Hgone. unfold deleteTrip.
    destruct (select_by_id TripRow.id (trips db') id) eqn:Hsel; [discriminate|].
    now rewrite (@delete_absent _ TripRow.id (trips db') id Hsel).
  all: subst db'; unfold deleteTrip;
    now rewrite (surjective_pairing (delete_by_id TripRow.id (trips db) id)).
Qed.

(** X11. [deleteExpense] in a store that the services produced.  It answers
    [true] exactly when a row has the id; then the listing is one entity
    shorter.  When it answers [false] the store is unchanged.  In both
    cases the id reads as absent afterwards, every other id reads as
    before, a second deletion answers [false], and the sequence of the
    table and the other tables are not touched. *)
Theorem deleteExpense_spec (db : Database) (clock : timestamp) (id : Z) :
  reachable invalid_date db clock ->
  let db' := fst (deleteExpense db id) in
  let deleted := snd (deleteExpense db id) in
  (deleted = true <-> exists e, getExpenseById db id = Some e)
  /\ (deleted = false -> db' = db)
  /\ (deleted = true ->
      S (List.length (getExpenses db')) = List.length (getExpenses db))
  /\ getExpenseById db' id = None
  /\ (forall j, j <> id -> getExpenseById db' j = getExpenseById db j)
  /\ snd (deleteExpense db' id) = false
  /\ expenses_seq db' = expenses_seq db
  /\ refills db' = refills db
  /\ trips db' = trips db.
Proof.
  intros Hreach db' deleted.
  pose proof (reachable_invariant Hreach) as Hinv.
  assert (Hids : ids_ok ExpenseRow.id (expenses db) (expenses_seq db)) by apply Hinv.
  assert (Hafter : forall j,
             select_by_id ExpenseRow.id (expenses db') j
             = if (j =? id)%Z then None
               else select_by_id ExpenseRow.id (expenses db) j).
  { intros j. subst db'. unfold deleteExpense.
    rewrite (surjective_pairing (delete_by_id ExpenseRow.id (expenses db) id)).
    cbn [fst with_expenses expenses]. apply select_after_delete. }
  assert (Hgone : getExpenseById db' id = None).
  { unfold getExpenseById. rewrite Hafter. now rewrite Z.eqb_refl. }
  assert (Hcases :
            (select_by_id ExpenseRow.id (expenses db) id = None
             /\ deleted = false /\ db' = db)
            \/ (exists row, select_by_id ExpenseRow.id (expenses db) id = Some row
                /\ deleted = true
                /\ S (List.length (getExpenses db')) = List.length (getExpenses db))).
  { subst db' deleted. unfold deleteExpense.
    destruct (select_by_id ExpenseRow.id (expenses db) id) as [row|] eqn:Hsel.
    - right. exists row. split; [reflexivity|].
      destruct (@delete_present _ ExpenseRow.id (expenses db) (expenses_seq db) id row
                  Hids Hsel) as (D1 & D2 & _).
      rewrite (surjective_pairing (delete_by_id ExpenseRow.id (expenses db) id)).
      cbn [fst snd]. rewrite D1. split; [reflexivity|].
      unfold getExpenses. cbn [with_expenses expenses].
      rewrite !length_map, !order_by_length. exact D2.
    - left. split; [reflexivity|].
      rewrite (@delete_absent _ ExpenseRow.id (expenses db) id Hsel).
      cbn [fst snd]. split; [reflexivity|]. now destruct db. }
  repeat split.
  - intros Hd. destruct Hcases as [(_ & Hf & _) | (row & Hsel & _)];
      [congruence|].
    exists (mapRowToExpense row). unfold getExpenseById. now rewrite Hsel.
  - intros [e He]. destruct Hcases as [(Hsel & _) | (_ & _ & Ht & _)];
      [|exact Ht].
    unfold getExpenseById in He. rewrite Hsel in He. discriminate.
  - intros Hd. destruct Hcases as [(_ & _ & Heq) | (_ & _ & Ht & _)];
      [exact Heq | congruence].
  - intros Hd. destruct Hcases as [(_ & Hf & _) | (_ & _ & _ & Hlen)];
      [congruence | exact Hlen].
  - exact Hgone.
  - intros j Hj. unfold getExpenseById. rewrite Hafter.
    destruct (Z.eqb_spec j id); [contradiction | reflexivity].
  - unfold getExpenseById in Hgone. unfold deleteExpense.
    destruct (select_by_id ExpenseRow.id (expenses db') id) eqn:Hsel; [discriminate|].
    now rewrite (@delete_absent _ ExpenseRow.id (expenses db') id Hsel).
  all: subst db'; unfold deleteExpense;
    now rewrite (surjective_pairing (delete_by_id ExpenseRow.id (expenses db) id)).
Qed.

(** X12. [deleteRefill] in a store that the services produced.  It answers
    [true] exactly when a row has the id; then the listing is one entity
    shorter.  When it answers [false] the store is unchanged.  In both
    cases the id reads as absent afterwards, every other id reads as
    before, a second deletion answers [false], and the sequence of the
    table and the other tables are not touched. *)
Theorem deleteRefill_spec (db : Database) (clock : timestamp) (id : Z) :
  reachable invalid_date db clock ->
  let db' := fst (deleteRefill db id) in
  let deleted := snd (deleteRefill db id) in
  (deleted = true <-> exists e, getRefillById db id = Some e)
  /\ (deleted = false -> db' = db)
  /\ (deleted = true ->
      S (List.length (getRefills db')) = List.length (getRefills db))
  /\ getRefillById db' id = None
  /\ (forall j, j <> id -> getRefillById db' j = getRefillById db j)
  /\ snd (deleteRefill db' id) = false
  /\ refills_seq db' = refills_seq db
  /\ expenses db' = expenses db
  /\ trips db' = trips db.
Proof.
  intros Hreach db' deleted.
  pose proof (reachable_invariant Hreach) as Hinv.
  assert (Hids : ids_ok RefillRow.id (refills db) (refills_seq db)) by apply Hinv.
  assert (Hafter : forall j,
             select_by_id RefillRow.id (refills db') j
             = if (j =? id)%Z then None
               else select_by_id RefillRow.id (refills db) j).
  { intros j. subst db'. unfold deleteRefill.
    rewrite (surjective_pairing (delete_by_id RefillRow.id (refills db) id)).
    cbn [fst with_refills refills]. apply select_after_delete. }
  assert (Hgone : getRefillById db' id = None).
  { unfold getRefillById. rewrite Hafter. now rewrite Z.eqb_refl. }
  assert (Hcases :
            (select_by_id RefillRow.id (refills db) id = None
             /\ deleted = false /\ db' = db)
            \/ (exists row, select_by_id RefillRow.id (refills db) id = Some row
                /\ deleted = true
                /\ S (List.length (getRefills db')) = List.length (getRefills db))).
  { subst db' deleted. unfold deleteRefill.
    destruct (select_by_id RefillRow.id (refills db) id) as [row|] eqn:Hsel.
    - right. exists row. split; [reflexivity|].
      destruct (@delete_present _ RefillRow.id (refills db) (refills_seq db) id row
                  Hids Hsel) as (D1 & D2 & _).
      rewrite (surjective_pairing (delete_by_id RefillRow.id (refills db) id)).
      cbn [fst snd]. rewrite D1. split; [reflexivity|].
      unfold getRefills. cbn [with_refills refills].
      rewrite !length_map, !order_by_length. exact D2.
    - left. split; [reflexivity|].
      rewrite (@delete_absent _ RefillRow.id (refills db) id Hsel).
      cbn [fst snd]. split; [reflexivity|]. now destruct db. }
  repeat split.
  - intros Hd. destruct Hcases as [(_ & Hf & _) | (row & Hsel & _)];
      [congruence|].
    exists (mapRowToRefill row). unfold getRefillById. now rewrite Hsel.
  - intros [e He]. destruct Hcases as [(Hsel & _) | (_ & _ & Ht & _)];
      [|exact Ht].
    unfold getRefillById in He. rewrite Hsel in He. discriminate.
  - intros Hd. destruct Hcases as [(_ & _ & Heq) | (_ & _ & Ht & _)];
      [exact Heq | congruence].
  - intros Hd. destruct Hcases as [(_ & Hf & _) | (_ & _ & _ & Hlen)];
      [congruence | exact Hlen].
  - exact Hgone.
  - intros j Hj. unfold getRefillById. rewrite Hafter.
    destruct (Z.eqb_spec j id); [contradiction | reflexivity].
  - unfold getRefillById in Hgone. unfold deleteRefill.
    destruct (select_by_id RefillRow.id (refills db') id) eqn:Hsel; [discriminate|].
    now rewrite (@delete_absent _ RefillRow.id (refills db') id Hsel).
  all: subst db'; unfold deleteRefill;
    now rewrite (surjective_pairing (delete_by_id RefillRow.id (refills db) id)).
Qed.

End MoreLedgerProperties.

Ltac break_match :=
  repeat match goal with
         | |- context [match ?x with _ => _ end] => destruct x eqn:?
         end.

Section Sequences.
Variable invalid_date : string -> bool.

Lemma run_seq_monotone (db : Database) (now : timestamp) (op : operation) :
  (expenses_seq db <= expenses_seq (run invalid_date db now op))%Z
  /\ (refills_seq db <= refills_seq (run invalid_date db now op))%Z
  /\ (trips_seq db <= trips_seq (run invalid_date db now op))%Z.
Proof.
  destruct op; simpl;
    unfold createExpense, updateExpense, deleteExpense, createRefill,
      updateRefill, deleteRefill, createTrip, updateTrip, deleteTrip,
      delete_by_id, calculateEfficiency;
    break_match; simpl; lia.
Qed.

Lemma replay_seq_monotone (db : Database) (log : list (timestamp * operation)) :
  (expenses_seq db <= expenses_seq (replay invalid_date db log))%Z
  /\ (refills_seq db <= refills_seq (replay invalid_date db log))%Z
  /\ (trips_seq db <= trips_seq (replay invalid_date db log))%Z.
Proof.
  revert db. induction log as [|[now op] log IH]; intros db; simpl;
    [lia|].
  pose proof (run_seq_monotone db now op).
  pose proof (IH (run invalid_date db now op)). lia.
Qed.

Lemma created_trip_id (db : Database) (now : timestamp) (trip : TripInput.t)
      (created : Trip.t) :
  snd (createTrip invalid_date db now trip) = Ok created ->
  Trip.id created = (trips_seq db + 1)%Z.
Proof.
  unfold createTrip. break_if; simpl; try discriminate.
  match goal with |- context [select_by_id ?f ?l ?i] =>
    destruct (select_by_id f l i) as [row|] eqn:Hsel end;
    simpl; [|discriminate].
  intros [= <-]. apply select_by_id_some in Hsel. now destruct Hsel.
Qed.

Lemma created_expense_id (db : Database) (now : timestamp)
      (expense : ExpenseInput.t) (created : Expense.t) :
  snd (createExpense invalid_date db now expense) = Ok created ->
  Expense.id created = (expenses_seq db + 1)%Z.
Proof.
  unfold createExpense. break_if; simpl; try discriminate.
  match goal with |- context [select_by_id ?f ?l ?i] =>
    destruct (select_by_id f l i) as [row|] eqn:Hsel end;
    simpl; [|discriminate].
  intros [= <-]. apply select_by_id_some in Hsel. now destruct Hsel.
Qed.

Lemma created_refill_id (db : Database) (now : timestamp)
      (refill : RefillInput.t) (created : Refill.t) :
  snd (createRefill invalid_date db now refill) = Ok created ->
  Refill.id created = (refills_seq db + 1)%Z.
Proof.
  unfold createRefill, calculateEfficiency. break_if; simpl; try discriminate.
  match goal with |- context [select_by_id ?f ?l ?i] =>
    destruct (select_by_id f l i) as [row|] eqn:Hsel end;
    simpl; [|discriminate].
  intros [= <-]. apply select_by_id_some in Hsel. now destruct Hsel.
Qed.

(** X15. Identities are never used twice.  Take a store that the services
    produced and any further calls, deletions included: an entity created
    after them has an identity above every identity that could be read in
    the first store, whether its row is still there or not. *)
Theorem ids_never_reused (db : Database) (clock : timestamp)
        (log : list (timestamp * operation)) :
  reachable invalid_date db clock ->
  let later := replay invalid_date db log in
  (forall now expense created j e,
      snd (createExpense invalid_date later now expense) = Ok created ->
      getExpenseById db j = Some e -> (j < Expense.id created)%Z)
  /\ (forall now refill created j e,
        snd (createRefill invalid_date later now refill) = Ok created ->
        getRefillById db j = Some e -> (j < Refill.id created)%Z)
  /\ (forall now trip created j e,
        snd (createTrip invalid_date later now trip) = Ok created ->
        getTripById db j = Some e -> (j < Trip.id created)%Z).
Proof.
  intros Hreach later.
  destruct (reachable_invariant Hreach)
    as [[[_ He] _] [[[_ Hr] _] [[_ Ht] _]]].
  destruct (replay_seq_monotone db log) as (Me & Mr & Mt).
  fold later in Me, Mr, Mt.
  rewrite Forall_forall in He, Hr, Ht.
  repeat split.
  - intros now expense created j e Hc. rewrite (created_expense_id _ _ _ Hc).
    unfold getExpenseById.
    destruct (select_by_id ExpenseRow.id (expenses db) j) as [row|] eqn:Hsel;
      [|discriminate].
    intros _. apply select_by_id_some in Hsel. destruct Hsel as [Hin <-].
    specialize (He row Hin). simpl in He. lia.
  - intros now refill created j e Hc. rewrite (created_refill_id _ _ _ Hc).
    unfold getRefillById.
    destruct (select_by_id RefillRow.id (refills db) j) as [row|] eqn:Hsel;
      [|discriminate].
    intros _. apply select_by_id_some in Hsel. destruct Hsel as [Hin <-].
    specialize (Hr row Hin). simpl in Hr. lia.
  - intros now trip created j e Hc. rewrite (created_trip_id _ _ _ Hc).
    unfold getTripById.
    destruct (select_by_id TripRow.id (trips db) j) as [row|] eqn:Hsel;
      [|discriminate].
    intros _. apply select_by_id_some in Hsel. destruct Hsel as [Hin <-].
    specialize (Ht row Hin). simpl in Ht. lia.
Qed.

End Sequences.

Lemma or_keep_text_ok (v old : option string) :
  text_ok old -> text_ok (or_keep_text v old).
Proof.
  destruct v as [t|]; simpl; [intros _ | auto].
  apply (str_or_null_text_ok (Some t)).
Qed.

Section ValidRows.
Variable invalid_date : string -> bool.

Lemma createExpense_rows_valid db now expense :
  rows_valid invalid_date db ->
  rows_valid invalid_date (fst (createExpense invalid_date db now expense)).
Proof.
  intros Hv. unfold createExpense. break_if; simpl; try exact Hv.
  match goal with H : (_ || _) = false |- _ =>
    apply orb_false_elim in H; destruct H end.
  match goal with |- context [select_by_id ?f ?l ?i] =>
    destruct (select_by_id f l i) end;
    simpl; destruct Hv as (He & Hr & Ht); (split; [|split; assumption]);
    (apply Forall_app; split; [exact He|]);
    (constructor; [|constructor]);
    unfold expense_row_valid; simpl; repeat split; auto;
    try (apply positive_intro; assumption);
    apply str_or_null_text_ok.
Qed.

Lemma createTrip_rows_valid db now trip :
  rows_valid invalid_date db ->
  rows_valid invalid_date (fst (createTrip invalid_date db now trip)).
Proof.
  intros Hv. unfold createTrip. break_if; simpl; try exact Hv.
  match goal with |- context [select_by_id ?f ?l ?i] =>
    destruct (select_by_id f l i) end;
    simpl; destruct Hv as (He & Hr & Ht);
    (split; [assumption|split; [assumption|]]);
    (apply Forall_app; split; [exact Ht|]);
    (constructor; [|constructor]);
    unfold trip_row_valid; simpl; repeat split; auto;
    try (apply positive_intro; assumption);
    apply str_or_null_text_ok.
Qed.

Lemma createRefill_rows_valid db now refill :
  rows_valid invalid_date db ->
  rows_valid invalid_date (fst (createRefill invalid_date db now refill)).
Proof.
  intros Hv. unfold createRefill, calculateEfficiency.
  break_if; simpl; try exact Hv.
  match goal with |- context [select_by_id ?f ?l ?i] =>
    destruct (select_by_id f l i) end;
    simpl; destruct Hv as (He & Hr & Ht);
    (split; [assumption|split; [|assumption]]);
    (apply Forall_app; split; [exact Hr|]);
    (constructor; [|constructor]);
    unfold refill_row_valid; simpl; repeat split; auto;
    apply str_or_null_text_ok.
Qed.

Lemma updateExpense_rows_valid db now id updates :
  rows_valid invalid_date db ->
  rows_valid invalid_date (fst (updateExpense invalid_date db now id updates)).
Proof.
  intros Hv. unfold updateExpense.
  destruct (present not_positive_number (ExpensePatch.amount updates)) eqn:H1;
    simpl; [exact Hv|].
  destruct (present invalid_date (ExpensePatch.date updates)) eqn:H2;
    simpl; [exact Hv|].
  destruct (present (fun s => String.eqb (trim s) EmptyString)
                    (ExpensePatch.type updates)) eqn:H3;
    simpl; [exact Hv|].
  destruct (getExpenseById db id); simpl; [|exact Hv].
  destruct (present is_nan (ExpensePatch.amount updates)) eqn:Hn;
    simpl; [exact Hv|].
  pose proof (positive_if_present_intro _ H1 Hn) as Hp.
  match goal with |- context [getExpenseById ?d ?i] =>
    destruct (getExpenseById d i) end;
    simpl; destruct Hv as (He & Hr & Ht); (split; [|split; assumption]);
    (apply Forall_update; [|exact He]);
    intros r (V1 & V2 & V3 & V4) _; unfold expense_row_valid; simpl;
    repeat split;
    [ exact (positive_or_keep _ Hp V1)
    | exact (@present_false _ (fun s => String.eqb (trim s) EmptyString)
               _ _ H3 V2)
    | exact (@present_false _ invalid_date _ _ H2 V3)
    | now apply or_keep_text_ok
    | exact (positive_or_keep _ Hp V1)
    | exact (@present_false _ (fun s => String.eqb (trim s) EmptyString)
               _ _ H3 V2)
    | exact (@present_false _ invalid_date _ _ H2 V3)
    | now apply or_keep_text_ok ].
Qed.

Lemma updateTrip_rows_valid db now id updates :
  rows_valid invalid_date db ->
  rows_valid invalid_date (fst (updateTrip invalid_date db now id updates)).
Proof.
  intros Hv. unfold updateTrip.
  destruct (present not_positive_number (TripPatch.distance updates)) eqn:H1;
    simpl; [exact Hv|].
  destruct (present invalid_date (TripPatch.date updates)) eqn:H2;
    simpl; [exact Hv|].
  destruct (getTripById db id); simpl; [|exact Hv].
  destruct (present is_nan (TripPatch.distance updates)) eqn:Hn;
    simpl; [exact Hv|].
  pose proof (positive_if_present_intro _ H1 Hn) as Hp.
  match goal with |- context [getTripById ?d ?i] =>
    destruct (getTripById d i) end;
    simpl; destruct Hv as (He & Hr & Ht);
    (split; [assumption|split; [assumption|]]);
    (apply Forall_update; [|exact Ht]);
    intros r (V1 & V2 & V3 & V4) _; unfold trip_row_valid; simpl;
    repeat split;
    [ exact (positive_or_keep _ Hp V1)
    | exact (@present_false _ invalid_date _ _ H2 V2)
    | now apply or_keep_text_ok
    | now apply or_keep_text_ok
    | exact (positive_or_keep _ Hp V1)
    | exact (@present_false _ invalid_date _ _ H2 V2)
    | now apply or_keep_text_ok
    | now apply or_keep_text_ok ].
Qed.

Lemma updateRefill_rows_valid db now id updates :
  rows_valid invalid_date db ->
  rows_valid invalid_date (fst (updateRefill invalid_date db now id updates)).
Proof.
  intros Hv. unfold updateRefill.
  destruct (present not_positive_number (RefillPatch.amountSpent updates));
    simpl; [exact Hv|].
  destruct (present not_positive_number
                    (RefillPatch.distanceTraveled updates));
    simpl; [exact Hv|].
  destruct (present invalid_date (RefillPatch.date updates)) eqn:H3;
    simpl; [exact Hv|].
  destruct (getRefillById db id); simpl; [|exact Hv].
  destruct (calculateEfficiency _ _); simpl; [|exact Hv].
  destruct (present is_nan (RefillPatch.amountSpent updates));
    simpl; [exact Hv|].
  destruct (present is_nan (RefillPatch.distanceTraveled updates));
    simpl; [exact Hv|].
  match goal with |- context [getRefillById ?d ?i] =>
    destruct (getRefillById d i) end;
    simpl; destruct Hv as (He & Hr & Ht);
    (split; [assumption|split; [|assumption]]);
    (apply Forall_update; [|exact Hr]);
    intros r (V1 & V2) _; unfold refill_row_valid; simpl;
    (split; [exact (@present_false _ invalid_date _ _ H3 V1)
            | now apply or_keep_text_ok]).
Qed.

Lemma run_rows_valid db now op :
  rows_valid invalid_date db ->
  rows_valid invalid_date (run invalid_date db now op).
Proof.
  intros Hv. destruct op; simpl.
  - now apply createExpense_rows_valid.
  - now apply updateExpense_rows_valid.
  - destruct Hv as (He & Hr & Ht). unfold deleteExpense, delete_by_id; simpl.
    split; [now apply Forall_filter | split; assumption].
  - now apply createRefill_rows_valid.
  - now apply updateRefill_rows_valid.
  - destruct Hv as (He & Hr & Ht). unfold deleteRefill, delete_by_id; simpl.
    split; [assumption | split; [now apply Forall_filter | assumption]].
  - now apply createTrip_rows_valid.
  - now apply updateTrip_rows_valid.
  - destruct Hv as (He & Hr & Ht). unfold deleteTrip, delete_by_id; simpl.
    split; [assumption | split; [assumption | now apply Forall_filter]].
Qed.

Lemma reachable_rows_valid db clock :
  reachable invalid_date db clock -> rows_valid invalid_date db.
Proof.
  induction 1 as [clock | db clock now op _ IH _].
  - repeat split; constructor.
  - now apply run_rows_valid.
Qed.

(** X16. What the checks leave in the store.  In a store that the services
    produced every expense has a positive amount, a type that is not blank
    and a date that the date parser accepts; every trip a positive
    distance and such a date; every refill such a date; and no optional
    text column holds the empty string, it is NULL instead. *)
Theorem stored_rows_valid (db : Database) (clock : timestamp) :
  reachable invalid_date db clock ->
  Forall (fun r =>
            (0 <? ExpenseRow.amount r)%float = true
            /\ trim (ExpenseRow.type r) <> EmptyString
            /\ invalid_date (ExpenseRow.date r) = false
            /\ ExpenseRow.description r <> Some EmptyString)
         (expenses db)
  /\ Forall (fun r =>
               (0 <? TripRow.distance r)%float = true
               /\ invalid_date (TripRow.date r) = false
               /\ TripRow.purpose r <> Some EmptyString
               /\ TripRow.notes r <> Some EmptyString)
            (trips db)
  /\ Forall (fun r =>
               invalid_date (RefillRow.date r) = false
               /\ RefillRow.notes r <> Some EmptyString)
            (refills db).
Proof.
  intros Hreach. destruct (reachable_rows_valid Hreach) as (He & Hr & Ht).
  repeat split.
  - eapply Forall_impl; [|exact He]. intros r (V1 & V2 & V3 & V4).
    repeat split; auto. now apply String.eqb_neq.
  - eapply Forall_impl; [|exact Ht]. intros r (V1 & V2 & V3 & V4).
    repeat split; auto.
  - eapply Forall_impl; [|exact Hr]. intros r (V1 & V2). now split.
Qed.

End ValidRows.

Lemma getJwtSecret_configured (env : Env) (secret : string) :
  JWT_SECRET env = Some secret -> secret <> EmptyString ->
  getJwtSecret env = Ok secret.
Proof.
  intros H Hne. unfold getJwtSecret. rewrite H.
  apply str_falsy_false in Hne. now rewrite Hne.
Qed.

Lemma getJwtSecret_other (env : Env) (secret : string) :
  JWT_SECRET env <> Some secret ->
  getJwtSecret env = Throw (Error msg_no_jwt_secret)
  \/ exists other, other <> secret /\ getJwtSecret env = Ok other.
Proof.
  intros H. unfold getJwtSecret. destruct (JWT_SECRET env) as [s|]; [|now left].
  destruct (str_falsy s); [now left|]. right. exists s. split; [|reflexivity].
  intros ->. now apply H.
Qed.

Lemma session_round_trip_helper (ms : string -> option Z) (env : Env)
      (now : timestamp) (secret : string) (milliseconds : Z) :
  JWT_SECRET env = Some secret -> secret <> EmptyString ->
  ms (getJwtExpiresIn env) = Some milliseconds ->
  exists tok,
    createSession ms env now = Ok tok
    /\ (forall later,
          validateSession env later tok
          = Ok (clock_seconds later
                <? clock_seconds now + milliseconds / 1000)%Z)
    /\ token_falsy tok = false.
Proof.
  intros Hsecret Hne Hms.
  pose proof (@getJwtSecret_configured env secret Hsecret Hne) as Hget.
  eexists. split; [|split].
  - unfold createSession, jwt_sign. rewrite Hget. simpl. rewrite Hms.
    reflexivity.
  - intros later. unfold validateSession. rewrite Hget. simpl.
    rewrite String.eqb_refl. rewrite Z.ltb_antisym.
    now destruct (_ <=? _)%Z.
  - reflexivity.
Qed.

(** X18. Round trip of the session token.  With a configured signing
    secret and a duration that the token library reads, [createSession]
    returns a token that [validateSession] accepts under the same
    configuration exactly as long as the clock, in seconds, is below the
    issue time plus the duration, and that it rejects at any time under a
    configuration with another signing secret or with none. *)
Theorem session_round_trip (ms : string -> option Z) (env : Env)
        (now : timestamp) (secret : string) (milliseconds : Z) :
  JWT_SECRET env = Some secret -> secret <> EmptyString ->
  ms (getJwtExpiresIn env) = Some milliseconds ->
  exists tok,
    createSession ms env now = Ok tok
    /\ (forall later,
          validateSession env later tok
          = Ok (clock_seconds later
                <? clock_seconds now + milliseconds / 1000)%Z)
    /\ (forall other later,
          JWT_SECRET other <> Some secret ->
          validateSession other later tok = Ok false).
Proof.
  intros Hsecret Hne Hms.
  pose proof (@getJwtSecret_configured env secret Hsecret Hne) as Hget.
  eexists. split; [|split].
  - unfold createSession, jwt_sign. rewrite Hget. simpl. rewrite Hms.
    reflexivity.
  - intros later. unfold validateSession. rewrite Hget. simpl.
    rewrite String.eqb_refl. rewrite Z.ltb_antisym.
    now destruct (_ <=? _)%Z.
  - intros other later Hother. unfold validateSession.
    destruct (@getJwtSecret_other other secret Hother) as [-> | (s & Hs & ->)];
      [reflexivity|].
    simpl. destruct (String.eqb_spec secret s) as [E|_]; [|reflexivity].
    now subst.
Qed.

(** X19. Outcome of the login route.  It answers 400 without a password,
    500 when no reference password is configured, 401 for a password that
    differs from the configured one, 500 when the password is right but the
    signing secret is missing or the duration is not read by the token
    library; in all these cases no cookie is set.  Otherwise it answers
    200 with a cookie whose token passes the gate of the routes exactly
    until it expires, and whose max-age comes from
    [parseExpirationToSeconds]. *)
Theorem login_outcome (ms : string -> option Z) (env : Env) (now : timestamp)
        (password : option string) :
  let response := POST_login ms env now password in
  ((password = None \/ password = Some EmptyString)
   /\ response = LoginResponse.mk 400 None None)
  \/ (exists p, password = Some p /\ p <> EmptyString
      /\ ((env_missing (APP_PASSWORD env) = true
           /\ response = LoginResponse.mk 500 None None)
          \/ (exists configured,
                APP_PASSWORD env = Some configured
                /\ configured <> EmptyString
                /\ ((p <> configured
                     /\ response = LoginResponse.mk 401 None None)
                    \/ (p = configured
                        /\ (env_missing (JWT_SECRET env) = true
                            \/ ms (getJwtExpiresIn env) = None)
                        /\ response = LoginResponse.mk 500 None None)
                    \/ (p = configured
                        /\ exists tok milliseconds,
                            ms (getJwtExpiresIn env) = Some milliseconds
                            /\ response
                               = LoginResponse.mk 200 (Some tok)
                                   (Some (parseExpirationToSeconds
                                            (getJwtExpiresIn env)))
                            /\ forall later,
                                validateApiRequest env later (Some tok)
                                = Ok (if (clock_seconds later
                                          <? clock_seconds now
                                             + milliseconds / 1000)%Z
                                      then Authorized
                                      else Denied 401 msg_bad_session)))))).
Proof.
  intros response. subst response. unfold POST_login.
  destruct password as [p|]; [|left; split; [now left | reflexivity]].
  destruct (str_falsy p) eqn:Hp.
  { left. apply str_falsy_true in Hp. subst. split; [now right | reflexivity]. }
  right. exists p. apply str_falsy_false in Hp.
  split; [reflexivity|]. split; [exact Hp|].
  unfold verifyPassword.
  destruct (APP_PASSWORD env) as [configured|] eqn:Hconf;
    [|left; split; reflexivity].
  destruct (str_falsy configured) eqn:Hc; [left; split; [exact Hc|reflexivity]|].
  right. exists configured. apply str_falsy_false in Hc.
  split; [reflexivity|]. split; [exact Hc|].
  destruct (String.eqb_spec p configured) as [->|Hwrong];
    [|left; split; [exact Hwrong | reflexivity]].
  right.
  destruct (JWT_SECRET env) as [secret|] eqn:Hsecret.
  2:{ left. split; [reflexivity|]. split; [now left|].
      unfold createSession, getJwtSecret. now rewrite Hsecret. }
  destruct (str_falsy secret) eqn:Hs.
  { left. split; [reflexivity|]. split; [left; exact Hs|].
    unfold createSession, getJwtSecret. now rewrite Hsecret, Hs. }
  apply str_falsy_false in Hs.
  destruct (ms (getJwtExpiresIn env)) as [milliseconds|] eqn:Hms.
  2:{ left. split; [reflexivity|]. split; [now right|].
      unfold createSession, jwt_sign.
      rewrite (@getJwtSecret_configured env secret Hsecret Hs). simpl.
      now rewrite Hms. }
  right. split; [reflexivity|].
  destruct (@session_round_trip_helper ms env now secret milliseconds
              Hsecret Hs Hms)
    as (tok & Hcreate & Hvalid & Hsigned).
  exists tok, milliseconds. split; [reflexivity|].
  rewrite Hcreate. split; [reflexivity|].
  intros later. unfold validateApiRequest. rewrite Hsigned, Hvalid. simpl.
  now destruct (_ <? _)%Z.
Qed.

(** ** Numerals *)

Lemma span_digits_uint (d : Decimal.uint) (rest : string) :
  match rest with String c _ => is_digit c = false | EmptyString => True end ->
  span_digits (NilEmpty.string_of_uint d ++ rest)
  = (NilEmpty.string_of_uint d, rest).
Proof.
  intros Hrest.
  induction d as [|d IH|d IH|d IH|d IH|d IH|d IH|d IH|d IH|d IH|d IH].
  1:{ simpl. destruct rest as [|c rest]; [reflexivity|].
      simpl. now rewrite Hrest. }
  all: cbn [NilEmpty.string_of_uint String.append];
    match goal with
    | |- span_digits (String ?c ?s) = _ =>
        change (span_digits (String c s))
          with (let (digits, rest) := span_digits s in
                (String c digits, rest))
    end;
    now rewrite IH.
Qed.

Lemma decimal_from_uint (d : Decimal.uint) (acc : nat) :
  decimal_from (Z.of_nat acc) (NilEmpty.string_of_uint d)
  = Z.of_nat (Nat.of_uint_acc d acc).
Proof.
  revert acc.
  induction d as [|d IH|d IH|d IH|d IH|d IH|d IH|d IH|d IH|d IH|d IH];
    intros acc; [reflexivity| ..].
  all: cbn [NilEmpty.string_of_uint Nat.of_uint_acc decimal_from];
    rewrite Nat.tail_mul_spec;
    match goal with
    | |- decimal_from (_ + digit_value ?c)%Z _
         = Z.of_nat (Nat.of_uint_acc _ ?n) =>
        replace (Z.of_nat acc * 10 + digit_value c)%Z with (Z.of_nat n)
          by (let v := eval vm_compute in (digit_value c) in
              change (digit_value c) with v; lia)
    end;
    apply IH.
Qed.

Lemma to_uint_nonnil (n : nat) : Nat.to_uint n <> Decimal.Nil.
Proof.
  rewrite <- (DecimalNat.Unsigned.of_to n) at 1.
  rewrite DecimalNat.Unsigned.to_of. apply DecimalFacts.unorm_nonnil.
Qed.

Lemma span_digits_decimal (n : nat) (rest : string) :
  match rest with String c _ => is_digit c = false | EmptyString => True end ->
  span_digits (decimal n ++ rest) = (decimal n, rest).
Proof. apply span_digits_uint. Qed.

Lemma decimal_value_decimal (n : nat) :
  decimal_value (decimal n) = Z.of_nat n.
Proof.
  unfold decimal_value, decimal.
  change 0%Z with (Z.of_nat 0).
  rewrite (decimal_from_uint (Nat.to_uint n) 0).
  change (Nat.of_uint_acc (Nat.to_uint n) 0) with (Nat.of_uint (Nat.to_uint n)).
  now rewrite DecimalNat.Unsigned.of_to.
Qed.

Lemma append_empty (s : string) : (s ++ EmptyString)%string = s.
Proof. induction s as [|c s IH]; simpl; [reflexivity | now rewrite IH]. Qed.

Lemma decimal_head (n : nat) :
  exists c s, decimal n = String c s /\ is_digit c = true.
Proof.
  unfold decimal. pose proof (to_uint_nonnil n) as H.
  destruct (Nat.to_uint n); [contradiction| ..]; simpl;
    do 2 eexists; split; reflexivity.
Qed.

(** A digit is no white space and no sign: [parseInt] on a string that
    starts with one reads the digits from its first character on. *)
Lemma parseInt10_digit (c : ascii) (s : string) :
  is_digit c = true ->
  parseInt10 (String c s)
  = number_of_Z (decimal_value (fst (span_digits (String c s)))).
Proof.
  intros Hdigit.
  destruct c as [b0 b1 b2 b3 b4 b5 b6 b7].
  destruct b0, b1, b2, b3, b4, b5, b6, b7;
    try (vm_compute in Hdigit; discriminate Hdigit);
    unfold parseInt10, trim_start;
    cbn [String.length strip_all];
    match goal with
    | |- context [strip_one white_spaces ?t] =>
        change (strip_one white_spaces t) with (@None string)
    end;
    cbv beta iota;
    match goal with
    | |- context [span_digits (String ?d s)] =>
        change (span_digits (String d s))
          with (let (digits, rest) := span_digits s in
                (String d digits, rest))
    end;
    destruct (span_digits s); reflexivity.
Qed.

Lemma parseInt10_decimal (n : nat) :
  parseInt10 (decimal n) = number_of_Z (Z.of_nat n).
Proof.
  destruct (decimal_head n) as (c & s & Hd & Hdigit).
  pose proof (@span_digits_decimal n EmptyString I) as Hspan.
  rewrite append_empty in Hspan.
  rewrite Hd, (@parseInt10_digit c s Hdigit), <- Hd, Hspan.
  cbn [fst]. now rewrite decimal_value_decimal.
Qed.

Lemma is_unit_cases (unit : ascii) :
  is_unit unit = true ->
  unit = "s"%char \/ unit = "m"%char \/ unit = "h"%char \/ unit = "d"%char.
Proof.
  unfold is_unit.
  destruct (Ascii.eqb_spec unit "s"); [auto|].
  destruct (Ascii.eqb_spec unit "m"); [auto|].
  destruct (Ascii.eqb_spec unit "h"); [auto|].
  destruct (Ascii.eqb_spec unit "d"); [auto|].
  discriminate.
Qed.

Lemma match_expiration_decimal (n : nat) (unit : ascii) :
  is_digit unit = false ->
  match_expiration (decimal n ++ String unit EmptyString)
  = if is_unit unit then Some (decimal n, String unit EmptyString) else None.
Proof.
  intros Hnd. unfold match_expiration.
  rewrite (@span_digits_decimal n (String unit EmptyString) Hnd).
  destruct (decimal_head n) as (c & s & -> & _). reflexivity.
Qed.

(** X20. [parseExpirationToSeconds] on numerals.  The decimal numeral of
    any natural number followed by s, m, h or d gives the number that
    [parseInt] reads, the double nearest to the numeral, times 1, 60,
    60 * 60 or 60 * 60 * 24 in the arithmetic of doubles.  The numeral
    alone, the numeral followed by any other character that is not a
    digit, and the numeral followed by a character that is not a digit and
    more text all give the 86400 seconds of the fall back. *)
Theorem parseExpirationToSeconds_decimal (n : nat) (unit : ascii) :
  let value := number_of_Z (Z.of_nat n) in
  parseExpirationToSeconds (decimal n ++ "s") = value
  /\ parseExpirationToSeconds (decimal n ++ "m") = (value * 60)%float
  /\ parseExpirationToSeconds (decimal n ++ "h") = (value * 60 * 60)%float
  /\ parseExpirationToSeconds (decimal n ++ "d")
     = (value * 60 * 60 * 24)%float
  /\ (is_unit unit = false -> is_digit unit = false ->
      parseExpirationToSeconds (decimal n ++ String unit EmptyString)
      = 86400%float)
  /\ parseExpirationToSeconds (decimal n) = 86400%float
  /\ (is_digit unit = false ->
      forall c rest,
        parseExpirationToSeconds (decimal n ++ String unit (String c rest))
        = 86400%float).
Proof.
  intros value. subst value. unfold parseExpirationToSeconds.
  repeat split.
  1-4: rewrite match_expiration_decimal by reflexivity;
    cbn [is_unit Ascii.eqb Bool.eqb orb String.eqb];
    now rewrite parseInt10_decimal.
  - intros Hu Hnd. rewrite (@match_expiration_decimal n unit Hnd), Hu.
    reflexivity.
  - unfold match_expiration.
    pose proof (@span_digits_decimal n EmptyString I) as Hspan.
    rewrite append_empty in Hspan. rewrite Hspan.
    destruct (decimal n); reflexivity.
  - intros Hnd c rest. unfold match_expiration.
    rewrite (@span_digits_decimal n (String unit (String c rest)) Hnd).
    destruct (decimal n); reflexivity.
Qed.

(** ** The gate of the routes and the middleware *)

Lemma validateSession_total (env : Env) (now : timestamp) (tok : token) :
  exists b, validateSession env now tok = Ok b.
Proof.
  unfold validateSession, try_catch.
  match goal with |- context [match ?r with _ => _ end] => destruct r end;
    eexists; reflexivity.
Qed.

Lemma validateApiRequest_cases (env : Env) (now : timestamp)
      (cookie : option token) :
  (validateApiRequest env now cookie = Ok Authorized
   /\ exists tok, cookie = Some tok /\ validateSession env now tok = Ok true)
  \/ (validateApiRequest env now cookie = Ok (Denied 401 msg_no_session)
      /\ (cookie = None \/ cookie = Some (Malformed EmptyString)))
  \/ (validateApiRequest env now cookie = Ok (Denied 401 msg_bad_session)
      /\ exists tok, cookie = Some tok /\ token_falsy tok = false
                     /\ validateSession env now tok = Ok false).
Proof.
  unfold validateApiRequest. destruct cookie as [tok|];
    [|right; left; split; [reflexivity | now left]].
  destruct (token_falsy tok) eqn:Hf.
  - right; left. split; [reflexivity|]. right.
    destruct tok as [raw|]; [|discriminate]. simpl in Hf.
    apply str_falsy_true in Hf. now subst.
  - destruct (validateSession_total env now tok) as [[|] Hb]; rewrite Hb; simpl.
    + left. split; [reflexivity|]. now exists tok.
    + right; right. split; [reflexivity|]. now exists tok.
Qed.

(** X21. The gate of the routes.  [validateApiRequest] never throws.  It
    lets a request through exactly when the cookie holds a token that
    [validateSession] accepts.  Otherwise it answers 401, with one message
    for a missing or empty cookie and another for a token that is not
    accepted; then the three DELETE routes answer that 401 and leave the
    store as it was, and the four GET routes answer it without a listing.
    A request that is let through gets 200 and the listing from GET. *)
Theorem api_gate (env : Env) (now : timestamp) (cookie : option token)
        (db : Database) :
  (validateApiRequest env now cookie = Ok Authorized
   /\ (exists tok, cookie = Some tok /\ validateSession env now tok = Ok true)
   /\ GET_expenses env now cookie db
      = Ok (Response.mk 200 (Payload (getExpenses db)))
   /\ GET_refills env now cookie db
      = Ok (Response.mk 200 (Payload (getRefills db)))
   /\ GET_trips env now cookie db
      = Ok (Response.mk 200 (Payload (getTrips db)))
   /\ GET_mileage env now cookie db
      = Ok (Response.mk 200 (Payload (getMileageOverTime db))))
  \/ (exists message,
        validateApiRequest env now cookie = Ok (Denied 401 message)
        /\ ((message = msg_no_session
             /\ (cookie = None \/ cookie = Some (Malformed EmptyString)))
            \/ (message = msg_bad_session
                /\ exists tok, cookie = Some tok
                               /\ validateSession env now tok = Ok false))
        /\ (forall id,
              DELETE_expense env now cookie id db
              = (db, Ok (Response.mk 401 (ErrorBody message)))
              /\ DELETE_refill env now cookie id db
                 = (db, Ok (Response.mk 401 (ErrorBody message)))
              /\ DELETE_trip env now cookie id db
                 = (db, Ok (Response.mk 401 (ErrorBody message))))
        /\ GET_expenses env now cookie db
           = Ok (Response.mk 401 (ErrorBody message))
        /\ GET_refills env now cookie db
           = Ok (Response.mk 401 (ErrorBody message))
        /\ GET_trips env now cookie db
           = Ok (Response.mk 401 (ErrorBody message))
        /\ GET_mileage env now cookie db
           = Ok (Response.mk 401 (ErrorBody message))).
Proof.
  unfold DELETE_expense, DELETE_refill, DELETE_trip, DELETE_by_id,
    GET_expenses, GET_refills, GET_trips, GET_mileage, GET_listing.
  destruct (validateApiRequest_cases env now cookie)
    as [[Hv Htok] | [[Hv Hc] | [Hv (tok & Hc & _ & Hs)]]]; rewrite Hv.
  - left. repeat split; try reflexivity. exact Htok.
  - right. exists msg_no_session. repeat split; try reflexivity.
    left. split; [reflexivity | exact Hc].
  - right. exists msg_bad_session. repeat split; try reflexivity.
    right. split; [reflexivity|]. now exists tok.
Qed.

Section DeleteRoutes.
Variable invalid_date : string -> bool.

Lemma delete_flag {R : Type} (rowid : R -> Z) (rows : list R) (seq id : Z) :
  ids_ok rowid rows seq ->
  match select_by_id rowid rows id with
  | Some _ => (0 <? snd (delete_by_id rowid rows id))%Z = true
  | None => delete_by_id rowid rows id = (rows, 0%Z)
  end.
Proof.
  intros Hids. destruct (select_by_id rowid rows id) as [row|] eqn:Hsel.
  - destruct (@delete_present _ rowid rows seq id row Hids Hsel) as (D & _).
    now rewrite D.
  - now apply delete_absent.
Qed.

(** X22. The DELETE routes for a request that passes the gate, in a store
    that the services produced.  An id for which [parseInt] gives NaN gives
    400, an id read as a number that is no integer (the infinity of a
    numeral beyond the doubles) gives 404, and so does an id without a
    row, all without a change of the store; an id with a row gives 200,
    and afterwards the id reads as absent.  The decimal numeral of a
    natural number is read as the double nearest to it. *)
Theorem DELETE_outcome (env : Env) (now : timestamp) (cookie : option token)
        (id : string) (db : Database) (clock : timestamp) :
  reachable invalid_date db clock ->
  validateApiRequest env now cookie = Ok Authorized ->
  (forall n : nat, parseInt10 (decimal n) = number_of_Z (Z.of_nat n))
  /\ (is_nan (parseInt10 id) = true ->
      DELETE_expense env now cookie id db
      = (db, Ok (Response.mk 400 (ErrorBody "Invalid expense ID")))
      /\ DELETE_refill env now cookie id db
         = (db, Ok (Response.mk 400 (ErrorBody "Invalid refill ID")))
      /\ DELETE_trip env now cookie id db
         = (db, Ok (Response.mk 400 (ErrorBody "Invalid trip ID"))))
  /\ (is_nan (parseInt10 id) = false ->
      integer_of_number (parseInt10 id) = None ->
      DELETE_expense env now cookie id db
      = (db, Ok (Response.mk 404 (ErrorBody "Resource not found")))
      /\ DELETE_refill env now cookie id db
         = (db, Ok (Response.mk 404 (ErrorBody "Resource not found")))
      /\ DELETE_trip env now cookie id db
         = (db, Ok (Response.mk 404 (ErrorBody "Resource not found"))))
  /\ (forall rowId,
        is_nan (parseInt10 id) = false ->
        integer_of_number (parseInt10 id) = Some rowId ->
        (match getExpenseById db rowId with
         | None =>
             DELETE_expense env now cookie id db
             = (db, Ok (Response.mk 404 (ErrorBody "Resource not found")))
         | Some _ =>
             snd (DELETE_expense env now cookie id db)
             = Ok (Response.mk 200 SuccessBody)
             /\ getExpenseById (fst (DELETE_expense env now cookie id db))
                               rowId = None
         end)
        /\ (match getRefillById db rowId with
            | None =>
                DELETE_refill env now cookie id db
                = (db, Ok (Response.mk 404 (ErrorBody "Resource not found")))
            | Some _ =>
                snd (DELETE_refill env now cookie id db)
                = Ok (Response.mk 200 SuccessBody)
                /\ getRefillById (fst (DELETE_refill env now cookie id db))
                                 rowId = None
            end)
        /\ (match getTripById db rowId with
            | None =>
                DELETE_trip env now cookie id db
                = (db, Ok (Response.mk 404 (ErrorBody "Resource not found")))
            | Some _ =>
                snd (DELETE_trip env now cookie id db)
                = Ok (Response.mk 200 SuccessBody)
                /\ getTripById (fst (DELETE_trip env now cookie id db))
                               rowId = None
            end)).
Proof.
  intros Hreach Hgate.
  destruct (reachable_invariant Hreach) as [[He _] [[Hr _] [Ht _]]].
  unfold DELETE_expense, DELETE_refill, DELETE_trip, DELETE_by_id,
    delete_where_id.
  rewrite Hgate. split; [exact parseInt10_decimal|]. split; [|split].
  - intros ->. repeat split; reflexivity.
  - intros -> ->. repeat split; reflexivity.
  - intros rowId -> ->. repeat split.
    + unfold getExpenseById, deleteExpense.
      pose proof (@delete_flag _ ExpenseRow.id (expenses db) (expenses_seq db)
                    rowId He) as Hflag.
      pose proof (select_after_delete ExpenseRow.id (expenses db) rowId rowId)
        as Hgone. rewrite Z.eqb_refl in Hgone.
      destruct (select_by_id ExpenseRow.id (expenses db) rowId).
      * rewrite (surjective_pairing
                   (delete_by_id ExpenseRow.id (expenses db) rowId)).
        rewrite Hflag. cbn [fst snd with_expenses expenses].
        now rewrite Hgone.
      * rewrite Hflag. simpl. now destruct db.
    + unfold getRefillById, deleteRefill.
      pose proof (@delete_flag _ RefillRow.id (refills db) (refills_seq db)
                    rowId Hr) as Hflag.
      pose proof (select_after_delete RefillRow.id (refills db) rowId rowId)
        as Hgone. rewrite Z.eqb_refl in Hgone.
      destruct (select_by_id RefillRow.id (refills db) rowId).
      * rewrite (surjective_pairing
                   (delete_by_id RefillRow.id (refills db) rowId)).
        rewrite Hflag. cbn [fst snd with_refills refills].
        now rewrite Hgone.
      * rewrite Hflag. simpl. now destruct db.
    + unfold getTripById, deleteTrip.
      pose proof (@delete_flag _ TripRow.id (trips db) (trips_seq db)
                    rowId Ht) as Hflag.
      pose proof (select_after_delete TripRow.id (trips db) rowId rowId)
        as Hgone. rewrite Z.eqb_refl in Hgone.
      destruct (select_by_id TripRow.id (trips db) rowId).
      * rewrite (surjective_pairing
                   (delete_by_id TripRow.id (trips db) rowId)).
        rewrite Hflag. cbn [fst snd with_trips trips].
        now rewrite Hgone.
      * rewrite Hflag. simpl. now destruct db.
Qed.

End DeleteRoutes.

Lemma starts_with_app (p rest : string) :
  starts_with (p ++ rest) p = true.
Proof.
  induction p as [|c p IH]; simpl; [now destruct rest|].
  now rewrite Ascii.eqb_refl, IH.
Qed.

(** X23. The middleware.  Every path that begins with /login or with
    /api/auth passes without a cookie, whatever follows the prefix.  Any
    other path passes exactly when the cookie sessionId is there and not
    empty, and is redirected to /login otherwise.  The middleware does not
    look into the cookie: a string that is no token passes it on every
    path, and is then refused with 401 by the gate of the routes. *)
Theorem middleware_spec (pathname : string) (sessionId : option string) :
  (forall rest,
      middleware ("/login" ++ rest) sessionId = Next
      /\ middleware ("/api/auth" ++ rest) sessionId = Next)
  /\ (isPublicPath pathname = false ->
      (middleware pathname sessionId = Next
       <-> exists value, sessionId = Some value /\ value <> EmptyString)
      /\ (middleware pathname sessionId = Next
          \/ middleware pathname sessionId = Redirect "/login"))
  /\ (forall raw env now,
        raw <> EmptyString ->
        middleware pathname (Some raw) = Next
        /\ validateApiRequest env now (Some (Malformed raw))
           = Ok (Denied 401 msg_bad_session)).
Proof.
  repeat split.
  - unfold middleware, isPublicPath. cbn [existsb].
    now rewrite (starts_with_app "/login" rest).
  - unfold middleware, isPublicPath. cbn [existsb].
    rewrite (starts_with_app "/api/auth" rest). now rewrite orb_true_r.
  - unfold middleware. rewrite H. destruct sessionId as [value|];
      [|discriminate].
    destruct (str_falsy value) eqn:E; [discriminate|]. intros _.
    exists value. split; [reflexivity|]. now apply str_falsy_false.
  - intros (value & -> & Hne). unfold middleware. rewrite H.
    apply str_falsy_false in Hne. now rewrite Hne.
  - unfold middleware. rewrite H. destruct sessionId as [value|]; [|now right].
    destruct (str_falsy value); [now right | now left].
  - unfold middleware. apply str_falsy_false in H. rewrite H.
    now destruct (isPublicPath pathname).
  - unfold validateApiRequest, token_falsy. apply str_falsy_false in H.
    rewrite H. unfold validateSession, try_catch, jwt_verify.
    destruct (getJwtSecret env); reflexivity.
Qed.

(** ** The further properties on the sample histories *)

Lemma createTrip_round_trip_witness :
  reachable rejects_non_iso sample_db 400%Z
  /\ getTripById
       (fst (createTrip rejects_non_iso sample_db 500%Z sample_trip)) 2%Z
     = Some (Trip.mk 2%Z 45.5 "2024-01-15"
                     (Some "commute"%string) (Some "rain"%string)
                     500%Z 500%Z).
Proof.
  split; [exact sample_db_reachable|].
  exact (proj1 (proj2
           (@createTrip_round_trip rejects_non_iso sample_db 400%Z 500%Z
              sample_trip sample_db_reachable eq_refl eq_refl eq_refl))).
Defined.

Lemma createExpense_round_trip_witness :
  reachable rejects_non_iso sample_db 400%Z
  /\ getExpenseById
       (fst (createExpense rejects_non_iso sample_db 500%Z sample_expense))
       2%Z
     = Some (Expense.mk 2%Z "fuel" 20 "2024-01-12"
                        (Some "full tank"%string) 500%Z 500%Z).
Proof.
  split; [exact sample_db_reachable|].
  exact (proj1 (proj2
           (@createExpense_round_trip rejects_non_iso sample_db 400%Z 500%Z
              sample_expense sample_db_reachable
              eq_refl eq_refl eq_refl eq_refl eq_refl))).
Defined.

Lemma createRefill_round_trip_witness :
  reachable rejects_non_iso sample_db 400%Z
  /\ getRefillById
       (fst (createRefill rejects_non_iso sample_db 500%Z sample_refill)) 2%Z
     = Some (Refill.mk 2%Z 50 10 None "2024-01-10"
                       (Some "First refill"%string)
                       (sql_real (50 / 10)) 500%Z 500%Z)
  /\ getRefillById
       (fst (createRefill rejects_non_iso sample_db 500%Z infinite_refill))
       2%Z
     = Some (Refill.mk 2%Z infinity infinity None "2024-01-10" None
                       (sql_real (infinity / infinity)) 500%Z 500%Z)
  /\ sql_real (50 / 10) = Some 5%float
  /\ sql_real (infinity / infinity) = None.
Proof.
  split; [exact sample_db_reachable|]. split; [|split].
  - exact (proj1 (proj2
             (@createRefill_round_trip rejects_non_iso sample_db 400%Z 500%Z
                sample_refill sample_db_reachable
                eq_refl eq_refl eq_refl eq_refl))).
  - exact (proj1 (proj2
             (@createRefill_round_trip rejects_non_iso sample_db 400%Z 500%Z
                infinite_refill sample_db_reachable
                eq_refl eq_refl eq_refl eq_refl))).
  - split; reflexivity.
Defined.

Lemma createTrip_outcome_witness :
  reachable rejects_non_iso sample_db 400%Z
  /\ create_response "Failed to create trip"
       (snd (createTrip rejects_non_iso sample_db 500%Z
               (TripInput.mk 0 "2024-01-15" None None)))
     = Response.mk 400%Z (ErrorBody msg_positive_distance)
  /\ create_response "Failed to create trip"
       (snd (createTrip rejects_non_iso sample_db 500%Z
               (TripInput.mk nan "2024-01-15" None None)))
     = Response.mk 500%Z (ErrorBody "Failed to create trip").
Proof.
  split; [exact sample_db_reachable|]. split.
  - pose proof (@createTrip_outcome rejects_non_iso sample_db 400%Z 500%Z
                  (TripInput.mk 0 "2024-01-15" None None)
                  sample_db_reachable) as H.
    cbv zeta in H.
    destruct H as [[Hv _] | [[Hv _] | (_ & _ & m & _ & Hm & ->)]];
      [discriminate Hv | discriminate Hv | exact Hm].
  - pose proof (@createTrip_outcome rejects_non_iso sample_db 400%Z 500%Z
                  (TripInput.mk nan "2024-01-15" None None)
                  sample_db_reachable) as H.
    cbv zeta in H.
    destruct H as [(_ & Hn & _) | [(_ & _ & _ & _ & H500) | [Hv _]]];
      [discriminate Hn | exact H500 | discriminate Hv].
Defined.

Lemma createExpense_outcome_witness :
  reachable rejects_non_iso sample_db 400%Z
  /\ create_response "Failed to create expense"
       (snd (createExpense rejects_non_iso sample_db 500%Z
               (ExpenseInput.mk "fuel" 20 "invalid-date" None)))
     = Response.mk 400%Z (ErrorBody msg_invalid_date)
  /\ create_response "Failed to create expense"
       (snd (createExpense rejects_non_iso sample_db 500%Z
               (ExpenseInput.mk blank_type 20 "2024-01-12" None)))
     = Response.mk 400%Z (ErrorBody msg_missing_type)
  /\ exists created,
       create_response "Failed to create expense"
         (snd (createExpense rejects_non_iso sample_db 500%Z sample_expense))
       = Response.mk 201%Z (Payload created).
Proof.
  split; [exact sample_db_reachable|]. split; [|split].
  - pose proof (@createExpense_outcome rejects_non_iso sample_db 400%Z 500%Z
                  (ExpenseInput.mk "fuel" 20 "invalid-date" None)
                  sample_db_reachable) as H.
    cbv zeta in H.
    destruct H as [[Hv _] | [[Hv _] | (_ & _ & m & _ & Hm & ->)]];
      [discriminate Hv | discriminate Hv | exact Hm].
  - pose proof (@createExpense_outcome rejects_non_iso sample_db 400%Z 500%Z
                  (ExpenseInput.mk blank_type 20 "2024-01-12" None)
                  sample_db_reachable) as H.
    cbv zeta in H.
    destruct H as [[Hv _] | [[Hv _] | (_ & _ & m & _ & Hm & ->)]];
      [discriminate Hv | discriminate Hv | exact Hm].
  - pose proof (@createExpense_outcome rejects_non_iso sample_db 400%Z 500%Z
                  sample_expense sample_db_reachable) as H.
    cbv zeta in H.
    destruct H as [(_ & _ & e & _ & He) | [(_ & Hn & _) | [Hv _]]];
      [exists e; exact He | discriminate Hn | discriminate Hv].
Defined.

Lemma createRefill_outcome_witness :
  reachable rejects_non_iso sample_db 400%Z
  /\ exists created,
       create_response "Failed to create refill"
         (snd (createRefill rejects_non_iso sample_db 500%Z sample_refill))
       = Response.mk 201%Z (Payload created).
Proof.
  split; [exact sample_db_reachable|].
  pose proof (@createRefill_outcome rejects_non_iso sample_db 400%Z 500%Z
                sample_refill sample_db_reachable) as H.
  cbv zeta in H.
  destruct H as [(_ & _ & e & _ & He) | [(_ & Hn & _) | [Hv _]]];
    [exists e; exact He | discriminate Hn | discriminate Hv].
Defined.

Lemma updateExpense_outcome_witness :
  update_expense_response
    (snd (updateExpense rejects_non_iso sample_db 500%Z 1%Z
            (ExpensePatch.mk (Some blank_type) None None None)))
  = Response.mk 400%Z (ErrorBody msg_empty_type).
Proof.
  pose proof (@updateExpense_outcome rejects_non_iso sample_db 500%Z 1%Z
                (ExpensePatch.mk (Some blank_type) None None None)) as H.
  cbv zeta in H.
  destruct H as [[Hv _] | [[Hv _] | [[Hv _] | (_ & _ & m & _ & Hm & ->)]]];
    [discriminate Hv | discriminate Hv | discriminate Hv | exact Hm].
Defined.

Lemma updateRefill_outcome_witness :
  reachable rejects_non_iso sample_db 400%Z
  /\ update_response "Failed to update refill"
       (snd (updateRefill rejects_non_iso sample_db 500%Z 7%Z
               RefillPatch.empty))
     = Response.mk 404%Z (ErrorBody msg_not_found)
  /\ exists updated,
       update_response "Failed to update refill"
         (snd (updateRefill rejects_non_iso sample_db 500%Z 1%Z amount_70))
       = Response.mk 200%Z (Payload updated).
Proof.
  split; [exact sample_db_reachable|]. split.
  - pose proof (@updateRefill_outcome rejects_non_iso sample_db 400%Z 500%Z
                  7%Z RefillPatch.empty sample_db_reachable) as H.
    cbv zeta in H.
    destruct H as [(_ & _ & before & _ & Hget & _)
                  | [(_ & _ & _ & _ & H404)
                    | [(_ & Hn & _) | [Hv _]]]];
      [discriminate Hget | exact H404 | discriminate Hn | discriminate Hv].
  - pose proof (@updateRefill_outcome rejects_non_iso sample_db 400%Z 500%Z
                  1%Z amount_70 sample_db_reachable) as H.
    cbv zeta in H.
    destruct H as [(_ & _ & before & after & _ & _ & H200)
                  | [(_ & Hget & _)
                    | [(_ & Hn & _) | [Hv _]]]];
      [exists after; exact H200 | discriminate Hget | discriminate Hn
       | discriminate Hv].
Defined.

Lemma deleteTrip_spec_witness :
  reachable rejects_non_iso sample_db 400%Z
  /\ getTripById (fst (deleteTrip sample_db 1%Z)) 1%Z = None.
Proof.
  split; [exact sample_db_reachable|].
  exact (proj1 (proj2 (proj2 (proj2
           (@deleteTrip_spec rejects_non_iso sample_db 400%Z 1%Z
              sample_db_reachable))))).
Defined.

Lemma deleteExpense_spec_witness :
  reachable rejects_non_iso sample_db 400%Z
  /\ getExpenseById (fst (deleteExpense sample_db 1%Z)) 1%Z = None.
Proof.
  split; [exact sample_db_reachable|].
  exact (proj1 (proj2 (proj2 (proj2
           (@deleteExpense_spec rejects_non_iso sample_db 400%Z 1%Z
              sample_db_reachable))))).
Defined.

Lemma deleteRefill_spec_witness :
  reachable rejects_non_iso sample_db 400%Z
  /\ getRefillById (fst (deleteRefill sample_db 1%Z)) 1%Z = None.
Proof.
  split; [exact sample_db_reachable|].
  exact (proj1 (proj2 (proj2 (proj2
           (@deleteRefill_spec rejects_non_iso sample_db 400%Z 1%Z
              sample_db_reachable))))).
Defined.

Lemma ids_never_reused_witness :
  reachable rejects_non_iso sample_db 400%Z
  /\ (1 < Trip.id (Trip.mk 2%Z 45.5 "2024-01-15"
                           (Some "commute"%string) (Some "rain"%string)
                           600%Z 600%Z))%Z.
Proof.
  split; [exact sample_db_reachable|].
  exact (proj2 (proj2
           (@ids_never_reused rejects_non_iso sample_db 400%Z
              [(500%Z, OpDeleteTrip 1%Z)] sample_db_reachable))
           600%Z sample_trip _ 1%Z sample_trip_read eq_refl eq_refl).
Defined.

Lemma stored_rows_valid_witness :
  reachable rejects_non_iso offsets_db 600%Z
  /\ List.length (expenses offsets_db) = 2%nat
  /\ List.length (trips offsets_db) = 2%nat
  /\ Forall (fun r =>
               (0 <? ExpenseRow.amount r)%float = true
               /\ trim (ExpenseRow.type r) <> EmptyString
               /\ rejects_non_iso (ExpenseRow.date r) = false
               /\ ExpenseRow.description r <> Some EmptyString)
            (expenses offsets_db)
  /\ Forall (fun r =>
               (0 <? TripRow.distance r)%float = true
               /\ rejects_non_iso (TripRow.date r) = false
               /\ TripRow.purpose r <> Some EmptyString
               /\ TripRow.notes r <> Some EmptyString)
            (trips offsets_db).
Proof.
  split; [exact offsets_db_reachable|].
  split; [reflexivity|]. split; [reflexivity|]. split.
  - exact (proj1 (@stored_rows_valid rejects_non_iso offsets_db 600%Z
                    offsets_db_reachable)).
  - exact (proj1 (proj2
             (@stored_rows_valid rejects_non_iso offsets_db 600%Z
                offsets_db_reachable))).
Defined.


Lemma session_round_trip_witness :
  JWT_SECRET sample_env = Some "test-secret-key"%string
  /\ "test-secret-key"%string <> EmptyString
  /\ ms_documented (getJwtExpiresIn sample_env) = Some 86400000%Z
  /\ exists tok,
       createSession ms_documented sample_env 5000%Z = Ok tok
       /\ (forall later,
             validateSession sample_env later tok
             = Ok (clock_seconds later
                   <? clock_seconds 5000 + 86400000 / 1000)%Z)
       /\ (forall other later,
             JWT_SECRET other <> Some "test-secret-key"%string ->
             validateSession other later tok = Ok false).
Proof.
  split; [reflexivity|]. split; [discriminate|]. split; [reflexivity|].
  exact (@session_round_trip ms_documented sample_env 5000%Z
           "test-secret-key" 86400000%Z eq_refl ltac:(discriminate) eq_refl).
Defined.

Lemma parseExpirationToSeconds_decimal_witness :
  parseExpirationToSeconds "24h" = (number_of_Z 24 * 60 * 60)%float
  /\ (number_of_Z 24 * 60 * 60)%float = 86400%float
  /\ parseExpirationToSeconds "7d" = (number_of_Z 7 * 60 * 60 * 24)%float
  /\ (number_of_Z 7 * 60 * 60 * 24)%float = 604800%float
  /\ parseExpirationToSeconds "24w" = 86400%float.
Proof.
  split; [|split; [reflexivity|split; [|split; [reflexivity|]]]].
  - exact (proj1 (proj2 (proj2 (parseExpirationToSeconds_decimal 24 "w")))).
  - exact (proj1 (proj2 (proj2 (proj2
             (parseExpirationToSeconds_decimal 7 "w"))))).
  - exact (proj1 (proj2 (proj2 (proj2 (proj2
             (parseExpirationToSeconds_decimal 24 "w")))))
             eq_refl eq_refl).
Defined.

(** Numerals beyond the integers that a double holds: [parseInt] gives the
    nearest double, for 2^53 + 1 the number 2^53; white space before the
    numeral is skipped, of the ASCII range or not; text after the digits is
    dropped. *)
Example parseInt10_examples :
  parseExpirationToSeconds "9007199254740993s" = 9007199254740992%float
  /\ parseInt10 "9007199254740993" = 9007199254740992%float
  /\ parseInt10 (blank_type ++ " 42abc") = 42%float
  /\ parseInt10 "-7" = (-7)%float
  /\ is_nan (parseInt10 "abc") = true
  /\ is_nan (parseInt10 "") = true.
Proof. repeat split; vm_compute; reflexivity. Qed.

Lemma DELETE_outcome_witness :
  reachable rejects_non_iso sample_db 400%Z
  /\ validateApiRequest sample_env 5000%Z
       (Some (Signed sample_payload "test-secret-key"))
     = Ok Authorized
  /\ is_nan (parseInt10 "abc") = true
  /\ DELETE_trip sample_env 5000%Z
       (Some (Signed sample_payload "test-secret-key")) "abc" sample_db
     = (sample_db, Ok (Response.mk 400%Z (ErrorBody "Invalid trip ID")))
  /\ integer_of_number (parseInt10 (blank_type ++ "1")) = Some 1%Z
  /\ snd (DELETE_trip sample_env 5000%Z
            (Some (Signed sample_payload "test-secret-key"))
            (blank_type ++ "1") sample_db)
     = Ok (Response.mk 200%Z SuccessBody)
  /\ getTripById
       (fst (DELETE_trip sample_env 5000%Z
               (Some (Signed sample_payload "test-secret-key"))
               (blank_type ++ "1") sample_db)) 1%Z
     = None
  /\ integer_of_number (parseInt10 "7") = Some 7%Z
  /\ DELETE_trip sample_env 5000%Z
       (Some (Signed sample_payload "test-secret-key")) "7" sample_db
     = (sample_db, Ok (Response.mk 404%Z (ErrorBody "Resource not found"))).
Proof.
  split; [exact sample_db_reachable|]. split; [reflexivity|].
  split; [reflexivity|]. split; [|split; [reflexivity|split; [|split;
    [|split; [reflexivity|]]]]].
  - exact (proj2 (proj2 (proj1 (proj2
             (@DELETE_outcome rejects_non_iso sample_env 5000%Z
                (Some (Signed sample_payload "test-secret-key")) "abc"
                sample_db 400%Z sample_db_reachable eq_refl))
             eq_refl))).
  - exact (proj1 (proj2 (proj2 (proj2 (proj2 (proj2
             (@DELETE_outcome rejects_non_iso sample_env 5000%Z
                (Some (Signed sample_payload "test-secret-key"))
                (blank_type ++ "1") sample_db 400%Z sample_db_reachable
                eq_refl))) 1%Z eq_refl eq_refl)))).
  - exact (proj2 (proj2 (proj2 (proj2 (proj2 (proj2
             (@DELETE_outcome rejects_non_iso sample_env 5000%Z
                (Some (Signed sample_payload "test-secret-key"))
                (blank_type ++ "1") sample_db 400%Z sample_db_reachable
                eq_refl))) 1%Z eq_refl eq_refl)))).
  - exact (proj2 (proj2 (proj2 (proj2 (proj2
             (@DELETE_outcome rejects_non_iso sample_env 5000%Z
                (Some (Signed sample_payload "test-secret-key")) "7"
                sample_db 400%Z sample_db_reachable eq_refl))) 7%Z
             eq_refl eq_refl))).
Defined.

Lemma middleware_spec_witness :
  isPublicPath "/trips" = false
  /\ "junk"%string <> EmptyString
  /\ (middleware "/trips" None = Next
      <-> exists value, @None string = Some value /\ value <> EmptyString)
  /\ middleware "/trips" (Some "junk"%string) = Next
  /\ validateApiRequest sample_env 5000%Z (Some (Malformed "junk"))
     = Ok (Denied 401 msg_bad_session).
Proof.
  split; [reflexivity|]. split; [discriminate|]. split.
  - exact (proj1 (proj1 (proj2 (middleware_spec "/trips" None)) eq_refl)).
  - exact (proj2 (proj2 (middleware_spec "/trips" None))
                 "junk"%string sample_env 5000%Z ltac:(discriminate)).
Defined.
